(** * GameZone POS backend: session lifecycle and checkout

    A shallow embedding of [services/sessionService.ts] and
    [services/checkoutService.ts] over an explicit model of the relational
    store, followed by the properties of the session engine and of the
    billing engine.

    Modelling conventions.
    - Tables with a string primary key are [gmap string Row]; tables whose
      rows are only ever appended and scanned are lists.
    - A JavaScript [number] is an IEEE 754 binary64.  A value of [Q] in the
      place of a number stands for the double nearest to it ([Number]), so a
      [decimal] column and an amount printed by [toFixed(2)] are held as the
      decimal they read as.  Every arithmetic operation of the source is the
      operation on the doubles of its operands, rounded to the nearest
      double, ties to even ([fadd], [fmul], [fdiv]); [toFixed(2)] is the
      hundredth nearest to the exact value of the double, ties away from
      zero.  Infinity and NaN are not modelled: the exponent range is
      unbounded above.
    - Timestamps and durations are integers (milliseconds), which doubles
      hold exactly below 2^53, so [new Date(x).getTime()] is the identity.
    - [new Date()] and [ulid()] are inputs of the operation that calls them.
    - A thrown [Error] is a constructor of [Error], one per message in the
      source. *)

From Stdlib Require Import ZArith QArith Qround Qpower Lia Bool.
From stdpp Require Import gmap strings list.

Local Open Scope Z_scope.

(** ** Data model (types/index.ts and db/migrations) *)

Inductive ConsoleStatus := available | in_use | maintenance | reserved.
Inductive SessionStatus := active | paused | ended.
Inductive GamingMode := mode_1v1 | mode_2v2.

#[global] Instance ConsoleStatus_eq_dec : EqDecision ConsoleStatus.
Proof. solve_decision. Defined.
#[global] Instance SessionStatus_eq_dec : EqDecision SessionStatus.
Proof. solve_decision. Defined.
#[global] Instance GamingMode_eq_dec : EqDecision GamingMode.
Proof. solve_decision. Defined.

(** knexfile.ts: development and test run on sqlite3, staging and production
    on postgresql.  The drivers differ in how a [decimal] column reaches
    JavaScript: sqlite3 yields a number (so a stored 0 is falsy), pg yields
    a string such as ["0.00"] (truthy). *)
Inductive Client := sqlite3 | postgresql.

(** Modelled from the spec: the migration that adds the columns
    [consoles.hourly_rate_2v2] and [sessions.gaming_mode] is not among the
    sources.  The data model gives a console a decimal 2v2 rate and a session
    a gaming mode in {1v1, 2v2}; every reader in the services falls back with
    [||] when the column is empty, so both columns are nullable. *)
Definition Rate2v2Column : Type := option Q.
Definition GamingModeColumn : Type := option GamingMode.

(** Row of [consoles].  [hourly_rate] is [notNullable]. *)
Record ConsoleRow := mkConsole {
  c_name : string;
  c_type : string;
  c_status : ConsoleStatus;
  hourly_rate : Q;
  hourly_rate_2v2 : Rate2v2Column;
}.

(** Row of [sessions]. *)
Record SessionRow := mkSession {
  console_id : option string;
  start_time : Z;
  end_time : option Z;
  s_status : SessionStatus;
  total_paused_duration : option Z;
  final_cost : option Q;
  paused_at : option Z;
  gaming_mode : GamingModeColumn;
}.

(** Row of [products]. *)
Record ProductRow := mkProduct {
  p_name : string;
  p_description : string;
  p_category : string;
  price : Q;
  stock : Z;
}.

(** Row of [session_items] (the running tab). *)
Record SessionItemRow := mkSessionItem {
  si_id : Z;
  si_session_id : string;
  si_product_id : string;
  si_quantity : Z;
  si_unit_price : Q;
  si_subtotal : Q;
  si_created_at : Z;
  si_updated_at : Z;
}.

(** Row of [receipts]. *)
Record ReceiptRow := mkReceipt {
  r_id : string;
  r_subtotal : Q;
  r_tax : Q;
  r_total : Q;
  r_payment_method : string;
  r_session_id : option string;
  r_manual_console_price : option Q;
  r_calculated_console_price : option Q;
  r_gaming_mode : option GamingMode;
  r_base_hourly_rate : option Q;
  r_hourly_rate_2v2 : option Q;
  r_created_at : Z;
}.

(** Row of [receipt_items]. *)
Record ReceiptItemRow := mkReceiptItem {
  ri_receipt_id : string;
  ri_product_id : string;
  ri_product_name : string;
  ri_quantity : Z;
  ri_unit_price : Q;
  ri_subtotal : Q;
}.

(** The relational store. *)
Record Db := mkDb {
  consoles : gmap string ConsoleRow;
  sessions : gmap string SessionRow;
  products : gmap string ProductRow;
  session_items : list SessionItemRow;
  receipts : list ReceiptRow;
  receipt_items : list ReceiptItemRow;
}.

Definition set_consoles (f : gmap string ConsoleRow -> gmap string ConsoleRow) (db : Db) : Db :=
  mkDb (f (consoles db)) (sessions db) (products db)
       (session_items db) (receipts db) (receipt_items db).

Definition set_sessions (f : gmap string SessionRow -> gmap string SessionRow) (db : Db) : Db :=
  mkDb (consoles db) (f (sessions db)) (products db)
       (session_items db) (receipts db) (receipt_items db).

Definition set_products (f : gmap string ProductRow -> gmap string ProductRow) (db : Db) : Db :=
  mkDb (consoles db) (sessions db) (f (products db))
       (session_items db) (receipts db) (receipt_items db).

Definition set_session_items (f : list SessionItemRow -> list SessionItemRow) (db : Db) : Db :=
  mkDb (consoles db) (sessions db) (products db)
       (f (session_items db)) (receipts db) (receipt_items db).

Definition set_receipts (f : list ReceiptRow -> list ReceiptRow) (db : Db) : Db :=
  mkDb (consoles db) (sessions db) (products db)
       (session_items db) (f (receipts db)) (receipt_items db).

Definition set_receipt_items (f : list ReceiptItemRow -> list ReceiptItemRow) (db : Db) : Db :=
  mkDb (consoles db) (sessions db) (products db)
       (session_items db) (receipts db) (f (receipt_items db)).

(** ** Errors *)

Inductive Error :=
| ConsoleNotAvailable          (* 'Console is not available.' *)
| No2v2RateConfigured          (* 'This console does not support 2v2 mode or has no 2v2 rate configured.' *)
| NoValidHourlyRate            (* 'Console has no valid hourly rate configured.' *)
| ActiveSessionNotFound        (* 'Active session not found or already paused.' *)
| PausedSessionNotFound        (* 'Paused session not found.' *)
| SessionNotFoundOrEnded       (* 'Session not found or already ended.' *)
| AssociatedConsoleNotFound    (* 'Associated console not found.' *)
| SessionNotActiveOrNotFound   (* 'Session is not active or not found.' *)
| ProductNotFound              (* 'Product not found.' *)
| NotEnoughStock (name : string)                (* `Not enough stock for ${product.name}.` *)
| SessionNotFound              (* 'Session not found.' *)
| SessionNotEndedYet           (* 'Session has not been ended yet.' *)
| AlreadyPaid                  (* 'This session has already been paid for.' *)
| CostNotCalculated            (* 'Session cost has not been calculated. Cannot process checkout.' *)
| ConsoleNotFoundForSession    (* 'Console not found for this session.' *)
| NegativeConsolePrice         (* 'Console price cannot be negative.' *)
| CartProductNotFound (id : string)             (* `Product with ID ${item.productId} not found.` *)
| CartNotEnoughStock (name : string) (avail : Z) (* `Not enough stock for ${product.name}. Available: ${product.stock}` *)
| CostSessionNotFound          (* 'Session not found' *)
| CostSessionNotEnded          (* 'Session must be ended before calculating cost' *)
| ValidConsoleIdRequired       (* 'Valid console ID is required' *)
| NegativeRate1v1              (* '1v1 hourly rate cannot be negative' *)
| NegativeRate2v2              (* '2v2 hourly rate cannot be negative' *)
| PreviewSessionEnded          (* 'Session has already ended' *)
| CannotChangeModeOfEnded      (* 'Cannot change gaming mode for an ended session.' *)
| ConsoleNo2v2Mode             (* 'This console does not support 2v2 mode.' *)
| ConsoleWithIdNotFound (id : string)           (* `Console with ID ${id} not found` *)
| CannotDeleteInUse            (* 'Cannot delete console that is currently in use' *)
| InvalidConsoleStatus         (* 'Invalid console status' *)
| UniqueViolation (table : string).             (* primary key already present *)

(** ** Store-passing computations that can throw

    A computation receives the store and yields either a thrown error or a
    value, together with the store as written so far.  Statements issued on
    [db] directly are committed as they run; statements issued on a [trx]
    handle are committed by [transaction] only if the callback returns. *)

Definition M (A : Type) : Type := Db -> (Error + A) * Db.

Definition ret {A} (a : A) : M A := fun db => (inr a, db).
Definition throw {A} (e : Error) : M A := fun db => (inl e, db).
Definition bind {A B} (m : M A) (k : A -> M B) : M B :=
  fun db => match m db with
            | (inl e, db') => (inl e, db')
            | (inr a, db') => k a db'
            end.
Definition query {A} (f : Db -> A) : M A := fun db => (inr (f db), db).
Definition exec (f : Db -> Db) : M unit := fun db => (inr tt, f db).

Notation "'let*' x ':=' m 'in' k" := (bind m (fun x => k))
  (at level 10, x name, m at level 100, k at level 200, only parsing).
Notation "'run' m 'then' k" := (bind m (fun _ => k))
  (at level 10, m at level 100, k at level 200, only parsing).

(** [db.transaction(async (trx) => body)]: commit when [body] returns, roll
    back to the store at entry when it throws. *)
Definition transaction {A} (body : M A) : M A :=
  fun db => match body db with
            | (inl e, _) => (inl e, db)
            | (inr a, db') => (inr a, db')
            end.

(** ** JavaScript numerics *)

(** [floor(log2 x)] for a positive rational. *)
Definition Qlog2 (x : Q) : Z :=
  let k := (Z.log2 (Qnum x) - Z.log2 (Zpos (Qden x)))%Z in
  if Qle_bool (2 ^ k)%Q x then k else (k - 1)%Z.

(** The integer nearest to [y], the even one on a tie. *)
Definition round_half_even (y : Q) : Z :=
  let f := Qfloor y in
  match (y - inject_Z f ?= 1 # 2)%Q with
  | Lt => f
  | Gt => (f + 1)%Z
  | Eq => if Z.even f then f else (f + 1)%Z
  end.

(** The binary64 nearest to a positive [x]: 53 significant bits, and below
    [2 ^ -1022] the fixed spacing [2 ^ -1074] of the subnormal numbers. *)
Definition fl_pos (x : Q) : Q :=
  let s := Z.max (Qlog2 x - 52) (-1074) in
  (inject_Z (round_half_even (x / 2 ^ s)) * 2 ^ s)%Q.

(** Rounding to the nearest binary64, ties to even. *)
Definition fl (x : Q) : Q :=
  match (Qred x ?= 0)%Q with
  | Eq => 0%Q
  | Gt => Qred (fl_pos (Qred x))
  | Lt => Qred (- fl_pos (- Qred x))
  end.

(** [Number(x)] / [parseFloat(x)]: the double a decimal stands for. *)
Definition Number (x : Q) : Q := fl x.

(** [a + b], [a * b] and [a / b] on numbers. *)
Definition fadd (a b : Q) : Q := fl (Number a + Number b).
Definition fmul (a b : Q) : Q := fl (Number a * Number b).
Definition fdiv (a b : Q) : Q := fl (Number a / Number b).

(** [x.toFixed(2)] read back as a number: the hundredth nearest to [x], the
    larger magnitude on a tie. *)
Definition toFixed2 (x : Q) : Q :=
  (if Qle_bool 0 x
   then Qfloor (x * 100 + (1 # 2)) # 100
   else - (Qfloor ((- x) * 100 + (1 # 2)) # 100))%Q.

(** [Math.round(x)]: nearest integer, ties toward +infinity. *)
Definition Math_round (x : Q) : Z := Qfloor (x + (1 # 2))%Q.

(** [v || d] for a nullable [decimal] column [v]. *)
Definition decimal_or (cl : Client) (v : option Q) (d : Q) : Q :=
  match v with
  | None => d
  | Some r =>
      match cl with
      | sqlite3 => if Qeq_bool r 0 then d else r
      | postgresql => r
      end
  end.

(** [gamingMode || '1v1'] *)
Definition mode_or_1v1 (m : option GamingMode) : GamingMode := default mode_1v1 m.

(** ** Console registry (services/consoleService.ts) *)

(** The [Console] object handed to the caller (one spelling per field). *)
Record Console := mkConsoleObj {
  con_id : string;
  con_name : string;
  con_type : string;
  con_status : ConsoleStatus;
  con_hourlyRate : Q;
  con_hourlyRate2v2 : Q;
}.

Section Registry.

Variable client : Client.

Definition toFrontendFormat (cid : string) (dbConsole : ConsoleRow) : Console :=
  mkConsoleObj cid (c_name dbConsole) (c_type dbConsole) (c_status dbConsole)
    (decimal_or client (Some (hourly_rate dbConsole)) 0)
    (decimal_or client (hourly_rate_2v2 dbConsole) 0).

(** [rates] is [{ hourlyRate?: number; hourlyRate2v2?: number }]. *)
Definition updateConsoleRates (cid : string) (hourlyRate hourlyRate2v2 : option Q)
    : M (option Console) :=
  if decide (cid = EmptyString) then throw ValidConsoleIdRequired
  else if match hourlyRate with Some r => negb (Qle_bool 0 r) | None => false end
  then throw NegativeRate1v1
  else if match hourlyRate2v2 with Some r => negb (Qle_bool 0 r) | None => false end
  then throw NegativeRate2v2
  else
    run exec (set_consoles
                (alter (fun c =>
                          mkConsole (c_name c) (c_type c) (c_status c)
                            (default (hourly_rate c) hourlyRate)
                            (match hourlyRate2v2 with
                             | Some r => Some r
                             | None => hourly_rate_2v2 c
                             end))
                       cid)) then
    let* updatedConsole := query (fun db => consoles db !! cid) in
    ret (toFrontendFormat cid <$> updatedConsole).

End Registry.

(** ** Session engine (services/sessionService.ts) *)

(** An entry of [Session.inventoryItems]. *)
Record InventoryItem := mkInventoryItem {
  ii_id : Z;
  ii_productId : string;
  ii_productName : string;
  ii_productDescription : string;
  ii_productCategory : string;
  ii_quantity : Z;
  ii_unitPrice : Q;
  ii_subtotal : Q;
  ii_addedAt : Z;
}.

(** The [Session] object handed to the caller. *)
Record Session := mkSessionObj {
  id : string;
  consoleId : option string;
  startTime : Z;
  endTime : option Z;
  status : SessionStatus;
  gamingMode : GamingMode;
  totalPausedDuration : option Z;
  finalCost : option Q;
  pausedAt : option Z;
  consoleName : string;
  consoleType : string;
  hourlyRate : Q;
  baseHourlyRate : Q;
  hourlyRate2v2 : Q;
  inventoryItems : list InventoryItem;
}.

(** What [findSessionById] selects: the session row joined with its console
    and the tab lines joined with their products. *)
Record JoinedSession := mkJoined {
  j_id : string;
  j_session : SessionRow;
  j_console : ConsoleRow;
  j_items : list (SessionItemRow * ProductRow);
}.

(** [.orderBy('session_items.created_at', 'asc')] *)
Fixpoint insert_by_created_at (x : SessionItemRow * ProductRow)
    (l : list (SessionItemRow * ProductRow)) : list (SessionItemRow * ProductRow) :=
  match l with
  | [] => [x]
  | y :: l' =>
      if (si_created_at (fst x) <? si_created_at (fst y))%Z
      then x :: y :: l'
      else y :: insert_by_created_at x l'
  end.

Definition order_by_created_at (l : list (SessionItemRow * ProductRow))
    : list (SessionItemRow * ProductRow) :=
  foldr insert_by_created_at [] l.

(** [session_items] of one session, inner-joined with [products]. *)
Definition session_items_joined (sid : string) (db : Db) : list (SessionItemRow * ProductRow) :=
  order_by_created_at
    (omap (fun it =>
             if decide (si_session_id it = sid)
             then p ← products db !! si_product_id it; Some (it, p)
             else None)
          (session_items db)).

Definition findSessionById (sid : string) (db : Db) : option JoinedSession :=
  s ← sessions db !! sid;
  cid ← console_id s;
  c ← consoles db !! cid;
  Some (mkJoined sid s c (session_items_joined sid db)).

Section Services.

(** The database client the process is configured with. *)
Variable client : Client.

Definition toCamelCase (session : option JoinedSession) : option Session :=
  match session with
  | None => None
  | Some j =>
      let s := j_session j in
      let c := j_console j in
      let gamingMode := mode_or_1v1 (gaming_mode s) in
      let baseRate := decimal_or client (Some (hourly_rate c)) 0 in
      let rate2v2 := decimal_or client (hourly_rate_2v2 c) baseRate in
      let inventoryItems :=
        map (fun '(it, p) =>
               mkInventoryItem (si_id it) (si_product_id it) (p_name p)
                 (p_description p) (p_category p) (si_quantity it)
                 (si_unit_price it) (si_subtotal it) (si_created_at it))
            (j_items j) in
      Some (mkSessionObj (j_id j) (console_id s) (start_time s) (end_time s)
              (s_status s) gamingMode (total_paused_duration s) (final_cost s)
              (paused_at s) (c_name c) (c_type c)
              (if decide (gamingMode = mode_2v2) then rate2v2 else baseRate)
              baseRate rate2v2 inventoryItems)
  end.

(** [insert] into a table with a primary key. *)
Definition insert_session (sid : string) (row : SessionRow) : M string :=
  fun db => match sessions db !! sid with
            | Some _ => (inl (UniqueViolation "sessions"), db)
            | None => (inr sid, set_sessions (insert sid row) db)
            end.

Definition startSession (consoleId : string) (gamingMode : GamingMode)
    (ulid : string) (now : Z) : M (option Session) :=
  transaction (
    let* selectedConsole := query (fun db => consoles db !! consoleId) in
    match selectedConsole with
    | None => throw ConsoleNotAvailable
    | Some c =>
        if decide (c_status c ≠ available) then throw ConsoleNotAvailable
        else
          let baseRate := decimal_or client (Some (hourly_rate c)) 0 in
          let rate2v2 := decimal_or client (hourly_rate_2v2 c) 0 in
          if bool_decide (gamingMode = mode_2v2) && Qle_bool rate2v2 0
          then throw No2v2RateConfigured
          else if Qle_bool baseRate 0 then throw NoValidHourlyRate
          else
            run exec (set_consoles
                        (alter (fun c => mkConsole (c_name c) (c_type c) in_use
                                           (hourly_rate c) (hourly_rate_2v2 c))
                               consoleId)) then
            let newSessionData :=
              mkSession (Some consoleId) now None active (Some 0%Z) None None
                        (Some gamingMode) in
            let* inserted := insert_session ("ses_" +:+ ulid) newSessionData in
            let* newSession := query (findSessionById inserted) in
            ret (toCamelCase newSession)
    end).

Definition pauseSession (sessionId : string) (now : Z) : M (option Session) :=
  run exec (set_sessions
              (alter (fun s =>
                        if decide (s_status s = active)
                        then mkSession (console_id s) (start_time s) (end_time s)
                               paused (total_paused_duration s) (final_cost s)
                               (Some now) (gaming_mode s)
                        else s)
                     sessionId)) then
  let* updatedSession := query (findSessionById sessionId) in
  match updatedSession with
  | None => throw ActiveSessionNotFound
  | Some _ => ret (toCamelCase updatedSession)
  end.

Definition resumeSession (sessionId : string) (now : Z) : M (option Session) :=
  let* session := query (fun db =>
                    s ← sessions db !! sessionId;
                    if decide (s_status s = paused) then Some s else None) in
  match session with
  | None => throw PausedSessionNotFound
  | Some s =>
      match paused_at s with
      | None => throw PausedSessionNotFound
      | Some pausedAt =>
          let pausedDuration := (now - pausedAt)%Z in
          let newTotalPausedDuration :=
            (default 0 (total_paused_duration s) + pausedDuration)%Z in
          run exec (set_sessions
                      (alter (fun s =>
                                mkSession (console_id s) (start_time s) (end_time s)
                                  active (Some newTotalPausedDuration) (final_cost s)
                                  None (gaming_mode s))
                             sessionId)) then
          let* updatedSession := query (findSessionById sessionId) in
          ret (toCamelCase updatedSession)
      end
  end.

(** The paused time [endSession] subtracts: what is recorded, plus the open
    pause interval when the session is ended while paused. *)
Definition totalPausedMs_at_end (s : SessionRow) (now : Z) : Z :=
  (default 0 (total_paused_duration s) +
   match s_status s, paused_at s with
   | paused, Some pausedAt => now - pausedAt
   | _, _ => 0
   end)%Z.

(** The rate [endSession] bills at. *)
Definition usedRate_at_end (s : SessionRow) (c : ConsoleRow) : Q :=
  let gamingMode := mode_or_1v1 (gaming_mode s) in
  let baseRate := decimal_or client (Some (hourly_rate c)) 0 in
  let rate2v2 := decimal_or client (hourly_rate_2v2 c) baseRate in
  if decide (gamingMode = mode_2v2) then rate2v2 else baseRate.

Definition endSession (sessionId : string) (now : Z) : M (option Session) :=
  transaction (
    let* session := query (fun db => sessions db !! sessionId) in
    match session with
    | None => throw SessionNotFoundOrEnded
    | Some s =>
        if decide (s_status s = ended) then throw SessionNotFoundOrEnded
        else
          let* selectedConsole :=
            query (fun db => cid ← console_id s; consoles db !! cid) in
          match selectedConsole with
          | None => throw AssociatedConsoleNotFound
          | Some c =>
              let endTime := now in
              let activeDuration := (endTime - start_time s)%Z in
              let totalPausedMs := totalPausedMs_at_end s endTime in
              let finalActiveMs := (activeDuration - totalPausedMs)%Z in
              let durationHours :=
                fdiv (inject_Z (Z.max 0 finalActiveMs)) (inject_Z (1000 * 60 * 60)) in
              let usedRate := usedRate_at_end s c in
              let finalCost := fmul durationHours usedRate in
              run exec (set_sessions
                          (alter (fun s =>
                                    mkSession (console_id s) (start_time s) (Some endTime)
                                      ended (Some totalPausedMs) (Some (toFixed2 finalCost))
                                      None (gaming_mode s))
                                 sessionId)) then
              run exec (set_consoles
                          (fun m =>
                             match console_id s with
                             | Some cid =>
                                 alter (fun c => mkConsole (c_name c) (c_type c) available
                                                   (hourly_rate c) (hourly_rate_2v2 c))
                                       cid m
                             | None => m
                             end)) then
              let* updatedSession := query (findSessionById sessionId) in
              ret (toCamelCase updatedSession)
          end
    end).

(** What [addItemToSession] returns. *)
Record AddedItem := mkAddedItem {
  ai_id : Z;
  ai_productId : string;
  ai_productName : string;
  ai_quantity : Z;
  ai_unitPrice : Q;
  ai_subtotal : Q;
  ai_addedAt : Z;
}.

(** [table.increments('id')] *)
Definition next_session_item_id (db : Db) : Z :=
  (foldr Z.max 0 (map si_id (session_items db)) + 1)%Z.

Definition decrement_stock (productId : string) (quantity : Z) : M unit :=
  exec (set_products
          (alter (fun p => mkProduct (p_name p) (p_description p) (p_category p)
                             (price p) (stock p - quantity))
                 productId)).

Definition addItemToSession (sessionId productId : string) (quantity : Z)
    (now : Z) : M AddedItem :=
  transaction (
    let* session := query (fun db => sessions db !! sessionId) in
    match session with
    | None => throw SessionNotActiveOrNotFound
    | Some s =>
        if decide (s_status s = ended) then throw SessionNotActiveOrNotFound
        else
          let* product := query (fun db => products db !! productId) in
          match product with
          | None => throw ProductNotFound
          | Some p =>
              if (stock p <? quantity)%Z then throw (NotEnoughStock (p_name p))
              else
                run decrement_stock productId quantity then
                let itemSubtotal := fmul (price p) (inject_Z quantity) in
                let* new_id := query next_session_item_id in
                let newItem :=
                  mkSessionItem new_id sessionId productId quantity (price p)
                                itemSubtotal now now in
                run exec (set_session_items (fun l => l ++ [newItem])) then
                ret (mkAddedItem (si_id newItem) productId (p_name p) quantity
                                 (price p) itemSubtotal (si_created_at newItem))
          end
    end).

End Services.

(** ** Checkout / billing engine (services/checkoutService.ts) *)

Record CartItem := mkCartItem {
  productId : string;
  quantity : Z;
}.

Record ConsoleUsage := mkConsoleUsage {
  cu_consoleName : string;
  cu_consoleType : string;
  cu_gamingMode : GamingMode;
  cu_duration : Z;
  cu_rate : Q;
  cu_baseRate : Q;
  cu_rate2v2 : Q;
  cu_calculatedCost : Q;
  cu_finalCost : Q;
  cu_subtotal : Q;
}.

Record ReceiptLine := mkReceiptLine {
  rl_productId : string;
  rl_productName : string;
  rl_quantity : Z;
  rl_unitPrice : Q;
  rl_subtotal : Q;
}.

(** The [Receipt] object handed to the caller. *)
Record Receipt := mkReceiptObj {
  rc_id : string;
  rc_sessionId : option string;
  rc_consoleUsage : option ConsoleUsage;
  rc_items : list ReceiptLine;
  rc_subtotal : Q;
  rc_tax : Q;
  rc_total : Q;
  rc_paymentMethod : string;
  rc_timestamp : Z;
}.

Definition TAX_RATE : Q := 0.

(** [sessionId || null]: an absent or empty string is falsy. *)
Definition truthy_string (s : option string) : option string :=
  match s with
  | Some x => if decide (x = EmptyString) then None else Some x
  | None => None
  end.

(** The [let] variables [processCheckout] fills in for a session charge. *)
Record ConsoleCharge := mkConsoleCharge {
  cc_subtotal : Q;
  cc_calculatedConsolePrice : Q;
  cc_finalConsolePrice : Q;
  cc_gamingMode : GamingMode;
  cc_baseHourlyRate : Q;
  cc_hourlyRate2v2 : Q;
  cc_usedHourlyRate : Q;
  cc_consoleUsageData : option ConsoleUsage;
}.

Definition no_console_charge : ConsoleCharge :=
  mkConsoleCharge 0 0 0 mode_1v1 0 0 0 None.

(** [trx('receipts').where({ session_id: sessionId }).first()] *)
Definition receipt_for_session (sid : string) (db : Db) : option ReceiptRow :=
  find (fun r => bool_decide (r_session_id r = Some sid)) (receipts db).

Definition insert_receipt (row : ReceiptRow) : M ReceiptRow :=
  fun db =>
    if existsb (fun r => bool_decide (r_id r = r_id row)) (receipts db)
    then (inl (UniqueViolation "receipts"), db)
    else (inr row, set_receipts (fun l => l ++ [row]) db).

Section Checkout.

Variable client : Client.

(** The [if (sessionId) { ... }] block. *)
Definition session_charge (sessionId : string) (manualConsolePrice : option Q)
    : M ConsoleCharge :=
  let* session := query (fun db => sessions db !! sessionId) in
  match session with
  | None => throw SessionNotFound
  | Some session =>
      if decide (s_status session ≠ ended) then throw SessionNotEndedYet
      else
        let* existingReceipt := query (receipt_for_session sessionId) in
        match existingReceipt with
        | Some _ => throw AlreadyPaid
        | None =>
            match final_cost session with
            | None => throw CostNotCalculated
            | Some final_cost =>
                let* console :=
                  query (fun db => cid ← console_id session; consoles db !! cid) in
                match console with
                | None => throw ConsoleNotFoundForSession
                | Some console =>
                    let gamingMode := mode_or_1v1 (gaming_mode session) in
                    let baseHourlyRate :=
                      decimal_or client (Some (hourly_rate console)) 0 in
                    let hourlyRate2v2 :=
                      decimal_or client (hourly_rate_2v2 console)
                                 (fmul baseHourlyRate (3 # 2)) in
                    let usedHourlyRate :=
                      if decide (gamingMode = mode_2v2)
                      then hourlyRate2v2 else baseHourlyRate in
                    let calculatedConsolePrice := final_cost in
                    let finalConsolePrice :=
                      match manualConsolePrice with
                      | Some m => m
                      | None => calculatedConsolePrice
                      end in
                    if negb (Qle_bool 0 finalConsolePrice)
                    then throw NegativeConsolePrice
                    else
                      let activeDurationMs :=
                        (default 0 (end_time session) - start_time session
                         - default 0 (total_paused_duration session))%Z in
                      ret (mkConsoleCharge
                             (fadd 0 finalConsolePrice) calculatedConsolePrice
                             finalConsolePrice gamingMode baseHourlyRate
                             hourlyRate2v2 usedHourlyRate
                             (Some (mkConsoleUsage
                                      (c_name console) (c_type console) gamingMode
                                      (Math_round (fdiv (inject_Z activeDurationMs)
                                                        (inject_Z 60000)))
                                      usedHourlyRate baseHourlyRate hourlyRate2v2
                                      calculatedConsolePrice finalConsolePrice
                                      finalConsolePrice)))
                end
            end
        end
  end.

(** The [for (const item of items)] loop, carrying [subtotal] and
    [receiptItemsData]. *)
Fixpoint process_cart (items : list CartItem) (subtotal : Q)
    (receiptItemsData : list ReceiptLine) : M (Q * list ReceiptLine) :=
  match items with
  | [] => ret (subtotal, receiptItemsData)
  | item :: rest =>
      let* product := query (fun db => products db !! productId item) in
      match product with
      | None => throw (CartProductNotFound (productId item))
      | Some p =>
          if (stock p <? quantity item)%Z
          then throw (CartNotEnoughStock (p_name p) (stock p))
          else
            run decrement_stock (productId item) (quantity item) then
            let unitPrice := price p in
            let itemSubtotal := fmul unitPrice (inject_Z (quantity item)) in
            process_cart rest (fadd subtotal itemSubtotal)
              (receiptItemsData ++
               [mkReceiptLine (productId item) (p_name p) (quantity item)
                              unitPrice itemSubtotal])
      end
  end.

Definition processCheckout_body (items : list CartItem) (paymentMethod : string)
    (sessionId : option string) (manualConsolePrice : option Q)
    (ulid : string) (now : Z) : M Receipt :=
  let* charge :=
    match truthy_string sessionId with
    | Some sid => session_charge sid manualConsolePrice
    | None => ret no_console_charge
    end in
  let* cart := process_cart items (cc_subtotal charge) [] in
  let '(subtotal, receiptItemsData) := cart in
  let tax := fmul subtotal TAX_RATE in
  let total := fadd subtotal tax in
  let for_session {A} (v : A) : option A :=
    match truthy_string sessionId with Some _ => Some v | None => None end in
  let newReceiptData :=
    mkReceipt ("rec_" +:+ ulid) (toFixed2 subtotal) (toFixed2 tax) (toFixed2 total)
      paymentMethod (truthy_string sessionId)
      (match truthy_string sessionId, manualConsolePrice with
       | Some _, Some _ => Some (toFixed2 (Number (cc_finalConsolePrice charge)))
       | _, _ => None
       end)
      (for_session (toFixed2 (Number (cc_calculatedConsolePrice charge))))
      (for_session (cc_gamingMode charge))
      (for_session (toFixed2 (Number (cc_baseHourlyRate charge))))
      (for_session (toFixed2 (Number (cc_hourlyRate2v2 charge))))
      now in
  let* insertedReceipt := insert_receipt newReceiptData in
  run exec (set_receipt_items
              (fun l => l ++ map (fun it =>
                                    mkReceiptItem (r_id insertedReceipt)
                                      (rl_productId it) (rl_productName it)
                                      (rl_quantity it) (rl_unitPrice it)
                                      (rl_subtotal it))
                                 receiptItemsData)) then
  ret (mkReceiptObj (r_id insertedReceipt) (truthy_string sessionId)
         (cc_consoleUsageData charge) receiptItemsData
         (r_subtotal insertedReceipt) (r_tax insertedReceipt)
         (r_total insertedReceipt) (r_payment_method insertedReceipt)
         (r_created_at insertedReceipt)).

Definition processCheckout (items : list CartItem) (paymentMethod : string)
    (sessionId : option string) (manualConsolePrice : option Q)
    (ulid : string) (now : Z) : M Receipt :=
  transaction
    (processCheckout_body items paymentMethod sessionId manualConsolePrice ulid now).

Definition calculateSessionCost (sessionId : string) (gamingMode : GamingMode)
    : M Q :=
  let* session :=
    query (fun db =>
             s ← sessions db !! sessionId;
             cid ← console_id s;
             c ← consoles db !! cid;
             Some (s, c)) in
  match session with
  | None => throw CostSessionNotFound
  | Some (s, c) =>
      if decide (s_status s ≠ ended) then throw CostSessionNotEnded
      else
        let totalDurationMs := (default 0 (end_time s) - start_time s)%Z in
        let pausedDurationMs := default 0%Z (total_paused_duration s) in
        let activeDurationMs := Z.max 0 (totalDurationMs - pausedDurationMs) in
        let durationHours :=
          fdiv (inject_Z activeDurationMs) (inject_Z (1000 * 60 * 60)) in
        let baseRate := decimal_or client (Some (hourly_rate c)) 0 in
        let rate2v2 :=
          decimal_or client (hourly_rate_2v2 c) (fmul baseRate (3 # 2)) in
        let usedRate :=
          if decide (gamingMode = mode_2v2) then rate2v2 else baseRate in
        let cost := fmul durationHours usedRate in
        ret (toFixed2 cost)
  end.

End Checkout.

(** ** Console registry, continued (services/consoleService.ts) *)

(** ['available' | 'in-use' | 'maintenance' | 'reserved'] as the string the
    caller passes. *)
Definition parse_console_status (status : string) : option ConsoleStatus :=
  if decide (status = "available") then Some available
  else if decide (status = "in-use") then Some in_use
  else if decide (status = "maintenance") then Some maintenance
  else if decide (status = "reserved") then Some reserved
  else None.

Section RegistryMore.

Variable client : Client.

Definition findConsoleById (cid : string) : M (option Console) :=
  if decide (cid = EmptyString) then throw ValidConsoleIdRequired
  else
    let* consoleRecord := query (fun db => consoles db !! cid) in
    ret (toFrontendFormat client cid <$> consoleRecord).

(** [db('consoles').where({ id }).del()] and its row count.  The column
    [sessions.console_id] is declared [ON DELETE SET NULL]; postgresql
    applies it, sqlite3 as configured in knexfile.ts does not enforce
    foreign keys and leaves the reference dangling. *)
Definition del_console (cid : string) : M Z :=
  fun db =>
    let deletedCount :=
      match consoles db !! cid with Some _ => 1%Z | None => 0%Z end in
    let db1 := set_consoles (delete cid) db in
    (inr deletedCount,
     match client with
     | sqlite3 => db1
     | postgresql =>
         set_sessions
           (fmap (fun s =>
                    if decide (console_id s = Some cid)
                    then mkSession None (start_time s) (end_time s) (s_status s)
                           (total_paused_duration s) (final_cost s) (paused_at s)
                           (gaming_mode s)
                    else s))
           db1
     end).

Definition deleteConsole (cid : string) : M bool :=
  if decide (cid = EmptyString) then throw ValidConsoleIdRequired
  else
    let* existingConsole := findConsoleById cid in
    match existingConsole with
    | None => throw (ConsoleWithIdNotFound cid)
    | Some existing =>
        if decide (con_status existing = in_use) then throw CannotDeleteInUse
        else
          let* deletedCount := del_console cid in
          ret (0 <? deletedCount)%Z
    end.

Definition updateConsoleStatus (cid : string) (status : string)
    : M (option Console) :=
  if decide (cid = EmptyString) then throw ValidConsoleIdRequired
  else
    match parse_console_status status with
    | None => throw InvalidConsoleStatus
    | Some st =>
        let* existingConsole := findConsoleById cid in
        match existingConsole with
        | None => throw (ConsoleWithIdNotFound cid)
        | Some _ =>
            run exec (set_consoles
                        (alter (fun c => mkConsole (c_name c) (c_type c) st
                                           (hourly_rate c) (hourly_rate_2v2 c))
                               cid)) then
            let* updatedConsole := query (fun db => consoles db !! cid) in
            ret (toFrontendFormat client cid <$> updatedConsole)
        end
    end.

End RegistryMore.

(** ** Session engine, continued (services/sessionService.ts) *)

(** A stable insertion sort on an integer key, for [.orderBy(column, 'asc')]. *)
Fixpoint insert_by {A} (key : A -> Z) (x : A) (l : list A) : list A :=
  match l with
  | [] => [x]
  | y :: l' => if (key x <? key y)%Z then x :: y :: l' else y :: insert_by key x l'
  end.

Definition order_by {A} (key : A -> Z) (l : list A) : list A :=
  foldr (insert_by key) [] l.

(** What [getSessionCostPreview] returns. *)
Record CostPreview := mkCostPreview {
  currentCost1v1 : Q;
  currentCost2v2 : Q;
  cp_duration : Z;
  cp_rate_base : Q;
  cp_rate_2v2 : Q;
}.

(** [sessions JOIN consoles WHERE sessions.id = sessionId], first row. *)
Definition session_with_console (sessionId : string) (db : Db)
    : option (SessionRow * ConsoleRow) :=
  s ← sessions db !! sessionId;
  cid ← console_id s;
  c ← consoles db !! cid;
  Some (s, c).

(** [sessions JOIN consoles WHERE status IN ('active', 'paused')]; the rows
    carry no [items]. *)
Definition running_sessions_joined (db : Db) : list JoinedSession :=
  omap (fun '(sid, s) =>
          if bool_decide (s_status s = active) || bool_decide (s_status s = paused)
          then cid ← console_id s;
               c ← consoles db !! cid;
               Some (mkJoined sid s c [])
          else None)
       (map_to_list (sessions db)).

Section ServicesMore.

Variable client : Client.

(** [.orderBy('sessions.start_time', 'asc')] *)
Definition findActiveSessions : M (list Session) :=
  let* sessions := query (fun db =>
                     order_by (fun j => start_time (j_session j))
                              (running_sessions_joined db)) in
  ret (omap (fun j => toCamelCase client (Some j)) sessions).

(** [.orderBy('sessions.start_time', 'desc')] *)
Definition getActiveSessions : M (list Session) :=
  let* sessions := query (fun db =>
                     order_by (fun j => (- start_time (j_session j))%Z)
                              (running_sessions_joined db)) in
  ret (omap (fun j => toCamelCase client (Some j)) sessions).

Definition updateSessionGamingMode (sessionId : string) (gamingMode : GamingMode)
    : M (option Session) :=
  transaction (
    let* session := query (session_with_console sessionId) in
    match session with
    | None => throw SessionNotFound
    | Some (s, c) =>
        if decide (s_status s = ended) then throw CannotChangeModeOfEnded
        else
          let rate2v2 := decimal_or client (hourly_rate_2v2 c) 0 in
          if bool_decide (gamingMode = mode_2v2) && Qle_bool rate2v2 0
          then throw ConsoleNo2v2Mode
          else
            run exec (set_sessions
                        (alter (fun s =>
                                  mkSession (console_id s) (start_time s) (end_time s)
                                    (s_status s) (total_paused_duration s)
                                    (final_cost s) (paused_at s) (Some gamingMode))
                               sessionId)) then
            let* updatedSession := query (findSessionById sessionId) in
            ret (toCamelCase client updatedSession)
    end).

Definition getSessionCostPreview (sessionId : string) (now : Z) : M CostPreview :=
  let* session := query (session_with_console sessionId) in
  match session with
  | None => throw CostSessionNotFound
  | Some (s, c) =>
      if decide (s_status s = ended) then throw PreviewSessionEnded
      else
        let totalDurationMs :=
          match s_status s, paused_at s with
          | paused, Some pausedAt => (pausedAt - start_time s)%Z
          | _, _ => (now - start_time s)%Z
          end in
        let totalPausedMs := default 0%Z (total_paused_duration s) in
        let activeDurationMs := Z.max 0 (totalDurationMs - totalPausedMs) in
        let durationHours :=
          fdiv (inject_Z activeDurationMs) (inject_Z (1000 * 60 * 60)) in
        let baseRate := decimal_or client (Some (hourly_rate c)) 0 in
        let rate2v2 :=
          decimal_or client (hourly_rate_2v2 c) (fmul baseRate (3 # 2)) in
        let currentCost1v1 := fmul durationHours baseRate in
        let currentCost2v2 := fmul durationHours rate2v2 in
        ret (mkCostPreview
               (toFixed2 currentCost1v1)
               (toFixed2 currentCost2v2)
               (Math_round (fdiv (inject_Z activeDurationMs) (inject_Z 60000)))
               baseRate rate2v2)
  end.

End ServicesMore.

Definition getSessionItems (sessionId : string) : M (list InventoryItem) :=
  let* items := query (session_items_joined sessionId) in
  ret (map (fun '(it, p) =>
              mkInventoryItem (si_id it) (si_product_id it) (p_name p)
                (p_description p) (p_category p) (si_quantity it)
                (si_unit_price it) (si_subtotal it) (si_created_at it))
           items).

(** ** Checkout / billing engine, continued (services/checkoutService.ts) *)

Record PreviewConsoleDetails := mkPreviewConsoleDetails {
  pc_consoleName : string;
  pc_consoleType : string;
  pc_gamingMode : GamingMode;
  pc_baseRate : Q;
  pc_rate2v2 : Q;
  pc_usedRate : Q;
  pc_calculatedCost : Q;
}.

Record CheckoutPreview := mkCheckoutPreview {
  pv_consoleUsage : option PreviewConsoleDetails;
  pv_items : list ReceiptLine;
  pv_subtotal : Q;
  pv_tax : Q;
  pv_total : Q;
  pv_consoleSubtotal : Q;
  pv_itemsSubtotal : Q;
}.

(** The [for (const item of items)] loop of the preview: products that are
    not on record are passed over. *)
Fixpoint preview_cart (items : list CartItem) (itemsSubtotal : Q)
    (itemDetails : list ReceiptLine) : M (Q * list ReceiptLine) :=
  match items with
  | [] => ret (itemsSubtotal, itemDetails)
  | item :: rest =>
      let* product := query (fun db => products db !! productId item) in
      match product with
      | Some p =>
          let itemTotal := fmul (price p) (inject_Z (quantity item)) in
          preview_cart rest (fadd itemsSubtotal itemTotal)
            (itemDetails ++
             [mkReceiptLine (productId item) (p_name p) (quantity item)
                            (price p) itemTotal])
      | None => preview_cart rest itemsSubtotal itemDetails
      end
  end.

Section CheckoutMore.

Variable client : Client.

(** The [if (sessionId) { ... }] block of the preview: console subtotal and
    console details. *)
Definition preview_console (sessionId : option string) (gamingMode : GamingMode)
    : M (Q * option PreviewConsoleDetails) :=
  match truthy_string sessionId with
  | None => ret (0%Q, None)
  | Some sid =>
      let* session := query (session_with_console sid) in
      match session with
      | Some (s, c) =>
          if decide (s_status s = ended)
          then
            let* consoleSubtotal := calculateSessionCost client sid gamingMode in
            let baseRate := decimal_or client (Some (hourly_rate c)) 0 in
            let rate2v2 :=
              decimal_or client (hourly_rate_2v2 c) (fmul baseRate (3 # 2)) in
            let usedRate :=
              if decide (gamingMode = mode_2v2) then rate2v2 else baseRate in
            ret (consoleSubtotal,
                 Some (mkPreviewConsoleDetails (c_name c) (c_type c)
                         gamingMode baseRate rate2v2 usedRate consoleSubtotal))
          else ret (0%Q, None)
      | None => ret (0%Q, None)
      end
  end.

Definition getCheckoutPreview (sessionId : option string) (items : list CartItem)
    (gamingMode : GamingMode) : M CheckoutPreview :=
  let* console_part := preview_console sessionId gamingMode in
  let '(consoleSubtotal, consoleDetails) := console_part in
  let* cart := preview_cart items 0%Q [] in
  let '(itemsSubtotal, itemDetails) := cart in
  let subtotal := fadd consoleSubtotal itemsSubtotal in
  let tax := fmul subtotal TAX_RATE in
  let total := fadd subtotal tax in
  ret (mkCheckoutPreview consoleDetails itemDetails subtotal tax total
         consoleSubtotal itemsSubtotal).

End CheckoutMore.

(** ** HTTP layer (api/v1/controllers/checkoutController.ts) *)

(** A parsed JSON request body.  A number is held as the rational value of
    the double it parsed to. *)
Unset Elimination Schemes.
Inductive Json :=
| JNull
| JBool (b : bool)
| JNum (q : Q)
| JStr (s : string)
| JArr (l : list Json)
| JObj (fields : list (string * Json)).
Set Elimination Schemes.

(** [obj[key]]: [None] is [undefined]; of a key written twice the last
    value stands. *)
Definition json_get (key : string) (fields : list (string * Json)) : option Json :=
  snd <$> last (filter (fun kv => fst kv = key) fields).

(** Schema combinators; [None] is a validation issue. *)

(** [z.string()] *)
Definition z_string (v : option Json) : option string :=
  match v with Some (JStr s) => Some s | _ => None end.

(** [schema.optional()] *)
Definition z_optional {A} (schema : option Json -> option A) (v : option Json)
    : option (option A) :=
  match v with
  | None => Some None
  | Some _ => Some <$> schema v
  end.

(** [z.number().min(0)] *)
Definition z_number_min0 (v : option Json) : option Q :=
  match v with
  | Some (JNum q) => if Qle_bool 0 q then Some q else None
  | _ => None
  end.

(** [z.number().int().positive()] *)
Definition z_number_int_positive (v : option Json) : option Z :=
  match v with
  | Some (JNum q) =>
      if Pos.eqb (Qden (Qred q)) 1 && (0 <? Qnum (Qred q))%Z
      then Some (Qnum (Qred q)) else None
  | _ => None
  end.

(** [z.object({ productId: z.string(), quantity: z.number().int().positive() })] *)
Definition z_cart_item (v : Json) : option CartItem :=
  match v with
  | JObj fields =>
      pid ← z_string (json_get "productId" fields);
      q ← z_number_int_positive (json_get "quantity" fields);
      Some (mkCartItem pid q)
  | _ => None
  end.

(** [z.array(item).default([])] *)
Definition z_cart (v : option Json) : option (list CartItem) :=
  match v with
  | None => Some []
  | Some (JArr l) => mapM z_cart_item l
  | Some _ => None
  end.

Record CheckoutBody := mkCheckoutBody {
  cb_items : list CartItem;
  cb_paymentMethod : string;
  cb_sessionId : option string;
  cb_manualConsolePrice : option Q;
}.

(** [checkoutSchema.parse(req.body)] *)
Definition checkoutSchema_parse (body : Json) : option CheckoutBody :=
  match body with
  | JObj fields =>
      paymentMethod ← z_string (json_get "paymentMethod" fields);
      sessionId ← z_optional z_string (json_get "sessionId" fields);
      manualConsolePrice ←
        z_optional z_number_min0 (json_get "manualConsolePrice" fields);
      items ← z_cart (json_get "items" fields);
      Some (mkCheckoutBody items paymentMethod sessionId manualConsolePrice)
  | _ => None
  end.

(** What the handler caught. *)
Inductive CaughtError :=
| ZodError
| ServiceError (e : Error).

(** [res.status(code).json({ success, data | message })] *)
Record Response := mkResponse {
  res_status : Z;
  res_success : bool;
  res_data : option Receipt;
  res_message : option CaughtError;
}.

Definition handleCheckout (client : Client) (body : Json) (ulid : string) (now : Z)
    (db : Db) : Response * Db :=
  match checkoutSchema_parse body with
  | None => (mkResponse 400 false None (Some ZodError), db)
  | Some b =>
      match processCheckout client (cb_items b) (cb_paymentMethod b)
              (cb_sessionId b) (cb_manualConsolePrice b) ulid now db with
      | (inr receipt, db') => (mkResponse 201 true (Some receipt) None, db')
      | (inl e, db') => (mkResponse 400 false None (Some (ServiceError e)), db')
      end
  end.

(** * Vocabulary of the properties *)

(** The open pause interval at [now]: [now - pausedAt] while paused. *)
Definition open_pause (s : SessionRow) (now : Z) : Z :=
  if decide (s_status s = paused)
  then match paused_at s with Some Tp => now - Tp | None => 0 end
  else 0.

(** The rate of a console for a mode: the 1v1 rate, except that in 2v2 it
    is the 2v2 rate when one is stored and the client does not read it as
    zero (sqlite3 hands a stored 0 over as the falsy number 0, pg as the
    truthy string "0.00"). *)
Definition console_rate (cl : Client) (c : ConsoleRow) (m : option GamingMode) : Q :=
  match m with
  | Some mode_2v2 =>
      match hourly_rate_2v2 c with
      | Some r2 =>
          match cl with
          | sqlite3 => if Qeq_bool r2 0 then hourly_rate c else r2
          | postgresql => r2
          end
      | None => hourly_rate c
      end
  | _ => hourly_rate c
  end.

(** round2(max(0, (T1 - T0) - P) / 3600000 * rate), the quotient and the
    product taken on doubles. *)
Definition billed_cost (T0 T1 P : Z) (rate : Q) : Q :=
  toFixed2 (fmul (fdiv (inject_Z (Z.max 0 ((T1 - T0) - P))) 3600000) rate).

(** The running subtotal after the lines of a cart have been added to
    [start] one after the other, each as unit price times quantity at the
    catalog prices of [db]; lines whose product is not on record add
    nothing. *)
Definition cart_sum (db : Db) (start : Q) (items : list CartItem) : Q :=
  foldl (fun acc it =>
           match products db !! productId it with
           | Some p => fadd acc (fmul (price p) (inject_Z (quantity it)))
           | None => acc
           end)
        start items.

(** The subtotal of a cart on its own. *)
Definition cart_total (db : Db) (items : list CartItem) : Q := cart_sum db 0 items.

(** The receipts that reference a session. *)
Definition receipts_of_session (sid : string) (db : Db) : list ReceiptRow :=
  filter (fun r => r_session_id r = Some sid) (receipts db).

(** The stock count of a product ([None] when it is not in the catalog). *)
Definition stock_of (db : Db) (pid : string) : option Z :=
  stock <$> products db !! pid.

(** One call of [processCheckout]. *)
Record CheckoutRequest := mkCheckoutRequest {
  rq_items : list CartItem;
  rq_paymentMethod : string;
  rq_sessionId : option string;
  rq_manualConsolePrice : option Q;
  rq_ulid : string;
  rq_now : Z;
}.

(** The store after a sequence of checkout calls, whatever each returns. *)
Definition run_checkouts (cl : Client) (rqs : list CheckoutRequest) (db : Db) : Db :=
  foldl (fun db rq =>
           snd (processCheckout cl (rq_items rq) (rq_paymentMethod rq)
                  (rq_sessionId rq) (rq_manualConsolePrice rq)
                  (rq_ulid rq) (rq_now rq) db))
        db rqs.

(** One call of the pause / resume / end operations, at the time the server
    clock shows when it runs. *)
Inductive SessionOp :=
| OpPause (sessionId : string) (now : Z)
| OpResume (sessionId : string) (now : Z)
| OpEnd (sessionId : string) (now : Z).

Definition op_time (op : SessionOp) : Z :=
  match op with OpPause _ t | OpResume _ t | OpEnd _ t => t end.

(** The store after one operation, whatever it returns. *)
Definition run_op (cl : Client) (op : SessionOp) (db : Db) : Db :=
  match op with
  | OpPause sid now => snd (pauseSession cl sid now db)
  | OpResume sid now => snd (resumeSession cl sid now db)
  | OpEnd sid now => snd (endSession cl sid now db)
  end.

Definition run_ops (cl : Client) (ops : list SessionOp) (db : Db) : Db :=
  foldl (fun db op => run_op cl op db) db ops.

(** The clock never runs backwards: every operation runs at or after [t] and
    at or after the operation before it. *)
Fixpoint clock_monotone (t : Z) (ops : list SessionOp) : Prop :=
  match ops with
  | [] => True
  | op :: ops' => (t <= op_time op)%Z /\ clock_monotone (op_time op) ops'
  end.

(** No recorded pause started after [t]. *)
Definition pauses_before (t : Z) (db : Db) : Prop :=
  forall sid s Tp,
    sessions db !! sid = Some s -> paused_at s = Some Tp -> (Tp <= t)%Z.

(** The recorded [totalPausedDurationMs] of a session. *)
Definition recorded_paused (db : Db) (sid : string) : Z :=
  match sessions db !! sid with
  | Some s => default 0%Z (total_paused_duration s)
  | None => 0%Z
  end.

(** The clock after a sequence of operations. *)
Definition final_clock (t : Z) (ops : list SessionOp) : Z :=
  foldl (fun _ op => op_time op) t ops.

(** A session that has been paid for: it is ended and exactly one receipt
    references it. *)
Definition paid (sid : string) (db : Db) : Prop :=
  (exists s, sessions db !! sid = Some s /\ s_status s = ended) /\
  length (receipts_of_session sid db) = 1%nat.

(** The errors of [startSession] that report a mode without a usable rate. *)
Definition unsupported_mode (e : Error) : Prop :=
  e = No2v2RateConfigured \/ e = NoValidHourlyRate.

(** The rate [startSession] requires to be positive for a mode. *)
Definition start_rate (c : ConsoleRow) (m : GamingMode) : Q :=
  match m with
  | mode_1v1 => hourly_rate c
  | mode_2v2 => default 0%Q (hourly_rate_2v2 c)
  end.

(** * Sample data *)

Module Sample.

Definition cola : ProductRow := mkProduct "Cola" "can" "drinks" (5 # 2) 45.
Definition chips : ProductRow := mkProduct "Chips" "bag" "snacks" (3 # 1) 2.

Definition catalog : gmap string ProductRow :=
  {[ "prod-1" := cola; "prod-2" := chips ]}.

(** Console c1: rate1v1 = 8, rate2v2 = 12. *)
Definition c1 (st : ConsoleStatus) : ConsoleRow :=
  mkConsole "PS5-1" "PS5" st 8 (Some 12%Q).

(** Console c2: rate1v1 = 10, no 2v2 rate stored. *)
Definition c2 (st : ConsoleStatus) : ConsoleRow :=
  mkConsole "PS4-1" "PS4" st 10 None.

(** Started at 0, paused from minute 30 to minute 45, running again. *)
Definition s1_active : SessionRow :=
  mkSession (Some "c1") 0 None active (Some 900000%Z) None None (Some mode_1v1).

(** Started at 0, paused at minute 30. *)
Definition s1_paused : SessionRow :=
  mkSession (Some "c1") 0 None paused (Some 0%Z) None (Some 1800000%Z)
            (Some mode_1v1).

(** Ended at minute 75 with one billable hour: finalCost = 8.00. *)
Definition s1_ended : SessionRow :=
  mkSession (Some "c1") 0 (Some 4500000%Z) ended (Some 900000%Z) (Some (800 # 100))
            None (Some mode_1v1).

(** A 2v2 session on c2, started at 0. *)
Definition s2_active : SessionRow :=
  mkSession (Some "c2") 0 None active (Some 0%Z) None None (Some mode_2v2).

(** A session whose console row has been deleted ([ON DELETE SET NULL]). *)
Definition s3_orphan : SessionRow :=
  mkSession None 0 (Some 3600000%Z) ended (Some 0%Z) (Some (800 # 100)) None
            (Some mode_1v1).

Definition db_idle : Db :=
  mkDb {[ "c1" := c1 available; "c2" := c2 available ]} ∅ catalog [] [] [].

Definition db_active : Db :=
  mkDb {[ "c1" := c1 in_use ]} {[ "s1" := s1_active ]} catalog [] [] [].

Definition db_paused : Db :=
  mkDb {[ "c1" := c1 in_use ]} {[ "s1" := s1_paused ]} catalog [] [] [].

Definition db_ended : Db :=
  mkDb {[ "c1" := c1 available ]} {[ "s1" := s1_ended ]} catalog [] [] [].

Definition db_2v2 : Db :=
  mkDb {[ "c2" := c2 in_use ]} {[ "s2" := s2_active ]} catalog [] [] [].

Definition db_orphan : Db :=
  mkDb {[ "c1" := c1 available ]} {[ "s3" := s3_orphan ]} catalog [] [] [].

End Sample.

(** * Vocabulary of the further properties *)

(** One call of an operation of the session engine, of the billing engine,
    or of the rate administration, with the clock reading and the fresh id
    it draws. *)
Inductive EngineCall :=
| CallStart (consoleId : string) (mode : GamingMode) (ulid : string) (now : Z)
| CallPause (sessionId : string) (now : Z)
| CallResume (sessionId : string) (now : Z)
| CallEnd (sessionId : string) (now : Z)
| CallChangeMode (sessionId : string) (mode : GamingMode)
| CallAddItem (sessionId productId : string) (quantity : Z) (now : Z)
| CallCheckout (rq : CheckoutRequest)
| CallUpdateRates (consoleId : string) (hourlyRate hourlyRate2v2 : option Q).

(** The store after one call, whatever it returns. *)
Definition run_call (cl : Client) (call : EngineCall) (db : Db) : Db :=
  match call with
  | CallStart cid m u now => snd (startSession cl cid m u now db)
  | CallPause sid now => snd (pauseSession cl sid now db)
  | CallResume sid now => snd (resumeSession cl sid now db)
  | CallEnd sid now => snd (endSession cl sid now db)
  | CallChangeMode sid m => snd (updateSessionGamingMode cl sid m db)
  | CallAddItem sid pid q now => snd (addItemToSession sid pid q now db)
  | CallCheckout rq =>
      snd (processCheckout cl (rq_items rq) (rq_paymentMethod rq)
             (rq_sessionId rq) (rq_manualConsolePrice rq) (rq_ulid rq) (rq_now rq) db)
  | CallUpdateRates cid r1 r2 => snd (updateConsoleRates cl cid r1 r2 db)
  end.

Definition run_calls (cl : Client) (calls : list EngineCall) (db : Db) : Db :=
  foldl (fun db call => run_call cl call db) db calls.

(** Console exclusivity: two different sessions that are not ended never
    sit on the same console, and a console on record as available backs no
    session that is not ended. *)
Definition console_exclusive (db : Db) : Prop :=
  (forall sid1 sid2 s1 s2 cid,
     sid1 <> sid2 ->
     sessions db !! sid1 = Some s1 -> sessions db !! sid2 = Some s2 ->
     s_status s1 <> ended -> s_status s2 <> ended ->
     console_id s1 = Some cid -> console_id s2 <> Some cid) /\
  (forall sid s cid c,
     sessions db !! sid = Some s -> s_status s <> ended ->
     console_id s = Some cid -> consoles db !! cid = Some c ->
     c_status c <> available).

(** No product has a negative stock count. *)
Definition stocks_nonneg (db : Db) : Prop :=
  forall pid p, products db !! pid = Some p -> (0 <= stock p)%Z.

(** Every receipt that names a session names an ended one, and no session
    is named by two receipts. *)
Definition receipts_sound (db : Db) : Prop :=
  (forall r sid,
     In r (receipts db) -> r_session_id r = Some sid ->
     exists s, sessions db !! sid = Some s /\ s_status s = ended) /\
  (forall sid, (length (receipts_of_session sid db) <= 1)%nat).

(** The quantity a cart asks of one product, over all its lines. *)
Definition requested (pid : string) (items : list CartItem) : Z :=
  foldr (fun it acc => ((if decide (productId it = pid) then quantity it else 0) + acc)%Z)
        0%Z items.


(** The cost [endSession] would store for a session row at [now], were the
    session in mode [m]. *)
Definition cost_if_ended_now (cl : Client) (s : SessionRow) (c : ConsoleRow)
    (m : GamingMode) (now : Z) : Q :=
  billed_cost (start_time s) now
    (default 0%Z (total_paused_duration s) + open_pause s now)
    (console_rate cl c (Some m)).

(** A list of integers in non-decreasing order. *)
Fixpoint nondecreasing (l : list Z) : Prop :=
  match l with
  | [] => True
  | x :: l' => match l' with [] => True | y :: _ => (x <= y)%Z end /\ nondecreasing l'
  end.

(** A list of integers in non-increasing order. *)
Fixpoint nonincreasing (l : list Z) : Prop :=
  match l with
  | [] => True
  | x :: l' => match l' with [] => True | y :: _ => (y <= x)%Z end /\ nonincreasing l'
  end.

(** The receipt line a cart line gives at the catalog entries of [db]
    ([None] when the product is not on record). *)
Definition receipt_line_of (db : Db) (it : CartItem) : option ReceiptLine :=
  p ← products db !! productId it;
  Some (mkReceiptLine (productId it) (p_name p) (quantity it) (price p)
          (fmul (price p) (inject_Z (quantity it)))).

(** The tab entry of a line of [session_items] for a product row. *)
Definition tab_entry (it : SessionItemRow) (p : ProductRow) : InventoryItem :=
  mkInventoryItem (si_id it) (si_product_id it) (p_name p) (p_description p)
    (p_category p) (si_quantity it) (si_unit_price it) (si_subtotal it)
    (si_created_at it).

(** Further sample data. *)
Module SampleMore.

(** An active session whose console row is gone. *)
Definition s4_stranded : SessionRow :=
  mkSession (Some "c9") 0 None active (Some 0%Z) None None (Some mode_1v1).

Definition db_stranded : Db :=
  mkDb {[ "c1" := Sample.c1 available ]} {[ "s4" := s4_stranded ]}
       Sample.catalog [] [] [].

End SampleMore.

(** * Properties *)

(** ** Numerics *)

Lemma toFixed2_Qeq (x y : Q) : (x == y)%Q -> toFixed2 x = toFixed2 y.
Proof.
  intros Hxy. unfold toFixed2.
  assert (Hb : Qle_bool 0 x = Qle_bool 0 y).
  { destruct (Qle_bool 0 x) eqn:Hx, (Qle_bool 0 y) eqn:Hy; try reflexivity.
    - apply Qle_bool_iff in Hx. rewrite Hxy in Hx. apply Qle_bool_iff in Hx. congruence.
    - apply Qle_bool_iff in Hy. rewrite <- Hxy in Hy. apply Qle_bool_iff in Hy. congruence. }
  rewrite Hb. destruct (Qle_bool 0 y).
  - f_equal. apply Qfloor_comp. rewrite Hxy. reflexivity.
  - do 2 f_equal. apply Qfloor_comp. rewrite Hxy. reflexivity.
Qed.

Lemma toFixed2_nonneg (x : Q) : (0 <= x)%Q -> (0 <= toFixed2 x)%Q.
Proof.
  intros Hx. unfold toFixed2.
  apply Qle_bool_iff in Hx as Hb. rewrite Hb.
  assert (Hfl : (0 <= Qfloor (x * 100 + (1 # 2)))%Z).
  { change 0%Z with (Qfloor 0). apply Qfloor_resp_le.
    assert (0 <= x * 100)%Q by (apply Qmult_le_0_compat; [assumption | discriminate]).
    apply Qle_trans with (x * 100)%Q; [assumption |].
    rewrite <- (Qplus_0_r (x * 100)) at 1.
    apply Qplus_le_r. discriminate. }
  unfold Qle. cbn [Qnum Qden]. lia.
Qed.

(** *** Rounding to the nearest double *)

Lemma two_neq_0 : ~ (2 == 0)%Q.
Proof. discriminate. Qed.

Lemma Qpow2_pos (k : Z) : (0 < 2 ^ k)%Q.
Proof. apply Qpower_0_lt. reflexivity. Qed.

Lemma Qpow2_Z (k : Z) : 0 <= k -> (inject_Z (2 ^ k) == 2 ^ k)%Q.
Proof. intros Hk. rewrite Zpower_Qpower by assumption. reflexivity. Qed.

Lemma Qpow2_le (a b : Z) : a <= b -> (2 ^ a <= 2 ^ b)%Q.
Proof. intros H. apply Qpower_le_compat_l; [assumption | discriminate]. Qed.

Lemma Qpow2_succ (k : Z) : (2 ^ (k + 1) == 2 ^ k * 2)%Q.
Proof. rewrite Qpower_plus by apply two_neq_0. reflexivity. Qed.

(** [2 ^ Qlog2 x <= x < 2 ^ (Qlog2 x + 1)] for positive [x]. *)
Lemma Qlog2_spec (x : Q) :
  (0 < x)%Q -> (2 ^ Qlog2 x <= x)%Q /\ (x < 2 ^ (Qlog2 x + 1))%Q.
Proof.
  intros Hx. destruct x as [n d]. unfold Qlog2. cbn [Qnum Qden].
  assert (Hn : 0 < n) by (unfold Qlt in Hx; cbn in Hx; lia).
  set (a := Z.log2 n). set (b := Z.log2 (Z.pos d)).
  assert (Ha : 2 ^ a <= n < 2 ^ (a + 1)).
  { pose proof (Z.log2_spec n Hn) as H. rewrite <- Z.add_1_r in H. exact H. }
  assert (Hb : 2 ^ b <= Z.pos d < 2 ^ (b + 1)).
  { pose proof (Z.log2_spec (Z.pos d) ltac:(lia)) as H.
    rewrite <- Z.add_1_r in H. exact H. }
  assert (Ha0 : 0 <= a) by apply Z.log2_nonneg.
  assert (Hb0 : 0 <= b) by apply Z.log2_nonneg.
  (* the bounds, as rationals *)
  assert (Hxd : (n # d == inject_Z n / inject_Z (Z.pos d))%Q) by apply Qmake_Qdiv.
  assert (Hdpos : (0 < inject_Z (Z.pos d))%Q) by reflexivity.
  assert (Hup : (n # d < 2 ^ (a - b + 1))%Q).
  { rewrite Hxd. apply Qlt_shift_div_r; [exact Hdpos |].
    apply Qlt_le_trans with (2 ^ (a + 1))%Q.
    - rewrite <- Qpow2_Z by lia. rewrite <- Zlt_Qlt. lia.
    - replace (a + 1) with ((a - b + 1) + b) by lia.
      rewrite Qpower_plus by apply two_neq_0.
      apply Qmult_le_l; [apply Qpow2_pos |].
      rewrite <- Qpow2_Z by lia. rewrite <- Zle_Qle. lia. }
  assert (Hlow : (2 ^ (a - b - 1) <= n # d)%Q).
  { rewrite Hxd. apply Qle_shift_div_l; [exact Hdpos |].
    apply Qle_trans with (2 ^ a)%Q.
    - replace a with ((a - b - 1) + (b + 1)) at 2 by lia.
      rewrite Qpower_plus by apply two_neq_0.
      apply Qmult_le_l; [apply Qpow2_pos |].
      rewrite <- Qpow2_Z by lia. rewrite <- Zle_Qle. lia.
    - rewrite <- Qpow2_Z by lia. rewrite <- Zle_Qle. lia. }
  destruct (Qle_bool (2 ^ (a - b)) (n # d)) eqn:E.
  - apply Qle_bool_iff in E. split; assumption.
  - split; [exact Hlow |].
    replace (a - b - 1 + 1) with (a - b) by lia.
    apply Qnot_le_lt. intros H. apply Qle_bool_iff in H. congruence.
Qed.

Lemma Qlog2_unique (x : Q) (k : Z) :
  (2 ^ k <= x)%Q -> (x < 2 ^ (k + 1))%Q -> Qlog2 x = k.
Proof.
  intros Hl Hu.
  assert (Hx : (0 < x)%Q) by (eapply Qlt_le_trans; [apply (Qpow2_pos k) | exact Hl]).
  destruct (Qlog2_spec x Hx) as [Hl' Hu'].
  destruct (Z.lt_trichotomy (Qlog2 x) k) as [H | [H | H]]; [| exact H |]; exfalso.
  - assert (H1 : (2 ^ (Qlog2 x + 1) <= 2 ^ k)%Q) by (apply Qpow2_le; lia).
    apply (Qlt_irrefl x). eapply Qlt_le_trans; [exact Hu' |].
    eapply Qle_trans; [exact H1 | exact Hl].
  - assert (H1 : (2 ^ (k + 1) <= 2 ^ Qlog2 x)%Q) by (apply Qpow2_le; lia).
    apply (Qlt_irrefl x). eapply Qlt_le_trans; [exact Hu |].
    eapply Qle_trans; [exact H1 | exact Hl'].
Qed.

Lemma round_half_even_comp (y y' : Q) :
  (y == y')%Q -> round_half_even y = round_half_even y'.
Proof.
  intros H. unfold round_half_even.
  rewrite (Qfloor_comp _ _ H).
  assert (E : (y - inject_Z (Qfloor y') ?= 1 # 2)%Q
              = (y' - inject_Z (Qfloor y') ?= 1 # 2)%Q)
    by (rewrite H; reflexivity).
  rewrite E. reflexivity.
Qed.

Lemma round_half_even_Z (k : Z) : round_half_even (inject_Z k) = k.
Proof.
  unfold round_half_even. rewrite Qfloor_Z.
  assert (E : (inject_Z k - inject_Z k ?= 1 # 2)%Q = Lt).
  { apply Qlt_alt. assert (E0 : (inject_Z k - inject_Z k == 0)%Q) by ring.
    rewrite E0. reflexivity. }
  rewrite E. reflexivity.
Qed.

Lemma round_half_even_bounds (y : Q) :
  Qfloor y <= round_half_even y <= Qfloor y + 1.
Proof.
  unfold round_half_even.
  destruct (y - inject_Z (Qfloor y) ?= 1 # 2)%Q; [destruct (Z.even _) | |]; lia.
Qed.

(** The shape of a rounded positive number: at most 53 bits times a power
    of two no smaller than [2 ^ -1074]. *)
Lemma fl_pos_shape (x : Q) :
  (0 < x)%Q ->
  exists m s, fl_pos x = (inject_Z m * 2 ^ s)%Q /\ 0 <= m <= 2 ^ 53 /\ -1074 <= s.
Proof.
  intros Hx. unfold fl_pos.
  set (s := Z.max (Qlog2 x - 52) (-1074)).
  exists (round_half_even (x / 2 ^ s)), s.
  split; [reflexivity |]. split; [| lia].
  destruct (Qlog2_spec x Hx) as [_ Hu].
  pose proof (round_half_even_bounds (x / 2 ^ s)) as Hb.
  assert (Hy0 : (0 <= x / 2 ^ s)%Q).
  { apply Qle_shift_div_l; [apply Qpow2_pos |]. rewrite Qmult_0_l.
    apply Qlt_le_weak, Hx. }
  assert (Hy1 : (x / 2 ^ s < inject_Z (2 ^ 53))%Q).
  { apply Qlt_shift_div_r; [apply Qpow2_pos |].
    eapply Qlt_le_trans; [exact Hu |].
    rewrite Qpow2_Z by lia. rewrite <- Qpower_plus by apply two_neq_0.
    apply Qpow2_le. lia. }
  assert (Hf0 : 0 <= Qfloor (x / 2 ^ s)).
  { change 0 with (Qfloor 0). apply Qfloor_resp_le, Hy0. }
  assert (Hf1 : Qfloor (x / 2 ^ s) < 2 ^ 53).
  { rewrite Zlt_Qlt. eapply Qle_lt_trans; [apply Qfloor_le | exact Hy1]. }
  lia.
Qed.

(** A number of that shape is left as it is. *)
Lemma fl_pos_exact (v : Q) (M t : Z) :
  0 < M <= 2 ^ 53 -> -1074 <= t ->
  (v == inject_Z M * 2 ^ t)%Q -> (fl_pos v == v)%Q.
Proof.
  intros HM Ht Hv.
  set (L := Z.log2 M).
  assert (HL : 2 ^ L <= M < 2 ^ (L + 1)).
  { pose proof (Z.log2_spec M ltac:(lia)) as H. rewrite <- Z.add_1_r in H. exact H. }
  assert (HL0 : 0 <= L) by apply Z.log2_nonneg.
  assert (HL53 : L <= 53).
  { destruct (Z.le_gt_cases L 53) as [|Hgt]; [assumption | exfalso].
    assert (2 ^ 54 <= 2 ^ L) by (apply Z.pow_le_mono_r; lia). lia. }
  assert (He : Qlog2 v = L + t).
  { apply Qlog2_unique; rewrite Hv.
    - rewrite Qpower_plus by apply two_neq_0.
      apply Qmult_le_r; [apply Qpow2_pos |].
      rewrite <- Qpow2_Z by lia. rewrite <- Zle_Qle. lia.
    - replace (L + t + 1) with ((L + 1) + t) by lia.
      rewrite Qpower_plus by apply two_neq_0.
      apply Qmult_lt_r; [apply Qpow2_pos |].
      rewrite <- Qpow2_Z by lia. rewrite <- Zlt_Qlt. lia. }
  unfold fl_pos. rewrite He.
  set (s := Z.max (L + t - 52) (-1074)).
  assert (Hcases : (s <= t) \/ (M = 2 ^ 53 /\ s = t + 1)).
  { destruct (Z.eq_dec L 53) as [E | NE]; [right | left; lia].
    rewrite E in HL. split; lia. }
  assert (Hk : exists K, (v / 2 ^ s == inject_Z K)%Q /\ (inject_Z K * 2 ^ s == v)%Q).
  { destruct Hcases as [Hs | [HM53 Hs]].
    - exists (M * 2 ^ (t - s)).
      assert (E : (inject_Z (M * 2 ^ (t - s)) == inject_Z M * 2 ^ t / 2 ^ s)%Q).
      { rewrite inject_Z_mult, Qpow2_Z by lia.
        rewrite Qpower_minus by apply two_neq_0. field.
        apply Qpower_not_0, two_neq_0. }
      split.
      + rewrite Hv, E. reflexivity.
      + rewrite E, Hv. field. apply Qpower_not_0, two_neq_0.
    - exists (2 ^ 52).
      assert (E : (inject_Z (2 ^ 52) == inject_Z M * 2 ^ t / 2 ^ s)%Q).
      { rewrite HM53, Hs, Qpow2_succ. change (inject_Z (2 ^ 53)) with (inject_Z (2 ^ 52) * 2)%Q.
        field. apply Qpower_not_0, two_neq_0. }
      split.
      + rewrite Hv, E. reflexivity.
      + rewrite E, Hv. field. apply Qpower_not_0, two_neq_0. }
  destruct Hk as (K & HK1 & HK2).
  rewrite (round_half_even_comp _ _ HK1), round_half_even_Z. exact HK2.
Qed.

Lemma fl_Qeq (x y : Q) : (x == y)%Q -> fl x = fl y.
Proof. intros H. unfold fl. rewrite (Qred_complete _ _ H). reflexivity. Qed.

Lemma fl_0 : fl 0 = 0%Q.
Proof. reflexivity. Qed.

(** What [fl] returns: zero, or a reduced fraction of the shape above with
    the sign of its argument. *)
Lemma fl_cases (x : Q) :
  fl x = 0%Q \/
  exists m s (pos : bool),
    0 < m <= 2 ^ 53 /\ -1074 <= s /\
    fl x = Qred (if pos then inject_Z m * 2 ^ s else - (inject_Z m * 2 ^ s))%Q /\
    (if pos then 0 < x else x < 0)%Q.
Proof.
  unfold fl. destruct (Qcompare_spec (Qred x) 0) as [H | H | H].
  - left. reflexivity.
  - rewrite Qred_correct in H.
    assert (Hp : (0 < - Qred x)%Q).
    { rewrite Qred_correct. apply Qopp_lt_compat in H. exact H. }
    destruct (fl_pos_shape _ Hp) as (m & s & E & Hm & Hs). rewrite E.
    destruct (Z.eq_dec m 0) as [-> | Hm0].
    + left. apply (Qred_complete (- (inject_Z 0 * 2 ^ s)) 0). ring.
    + right. exists m, s, false. repeat split; try lia. exact H.
  - rewrite Qred_correct in H.
    assert (Hp : (0 < Qred x)%Q) by (rewrite Qred_correct; exact H).
    destruct (fl_pos_shape _ Hp) as (m & s & E & Hm & Hs). rewrite E.
    destruct (Z.eq_dec m 0) as [-> | Hm0].
    + left. apply (Qred_complete (inject_Z 0 * 2 ^ s) 0). ring.
    + right. exists m, s, true. repeat split; try lia. exact H.
Qed.

Lemma Qred_Qred (x : Q) : Qred (Qred x) = Qred x.
Proof. apply Qred_complete, Qred_correct. Qed.

(** Rounding is idempotent: a double is its own nearest double. *)
Lemma fl_idem (x : Q) : fl (fl x) = fl x.
Proof.
  destruct (fl_cases x) as [-> | (m & s & pos & Hm & Hs & E & _)]; [reflexivity |].
  rewrite E.
  assert (Hms : (0 < inject_Z m * 2 ^ s)%Q).
  { apply Qmult_lt_0_compat; [| apply Qpow2_pos].
    change 0%Q with (inject_Z 0). rewrite <- Zlt_Qlt. lia. }
  unfold fl. rewrite !Qred_Qred.
  destruct pos.
  - assert (Hgt : (Qred (inject_Z m * 2 ^ s) ?= 0)%Q = Gt).
    { apply Qgt_alt. rewrite Qred_correct. exact Hms. }
    rewrite Hgt. apply Qred_complete.
    rewrite (fl_pos_exact _ m s); [apply Qred_correct | lia | lia | apply Qred_correct].
  - assert (Hlt : (Qred (- (inject_Z m * 2 ^ s)) ?= 0)%Q = Lt).
    { apply Qlt_alt. rewrite Qred_correct.
      apply Qopp_lt_compat in Hms. exact Hms. }
    rewrite Hlt. apply Qred_complete.
    rewrite (fl_pos_exact _ m s); [| lia | lia |].
    + rewrite Qopp_involutive. apply Qred_correct.
    + rewrite Qred_correct. ring.
Qed.

Lemma fl_nonneg (x : Q) : (0 <= x)%Q -> (0 <= fl x)%Q.
Proof.
  intros Hx.
  destruct (fl_cases x) as [-> | (m & s & pos & Hm & Hs & E & Hsign)];
    [apply Qle_refl |].
  destruct pos.
  - rewrite E, Qred_correct. apply Qmult_le_0_compat; [| apply Qlt_le_weak, Qpow2_pos].
    change 0%Q with (inject_Z 0). rewrite <- Zle_Qle. lia.
  - exfalso. apply (Qlt_irrefl 0). eapply Qle_lt_trans; [exact Hx | exact Hsign].
Qed.

(** Operations on numbers read their operands up to equality of value. *)
Lemma fadd_Qeq (a a' b b' : Q) :
  (a == a')%Q -> (b == b')%Q -> fadd a b = fadd a' b'.
Proof. intros Ha Hb. unfold fadd, Number. rewrite (fl_Qeq _ _ Ha), (fl_Qeq _ _ Hb). reflexivity. Qed.

Lemma fmul_Qeq (a a' b b' : Q) :
  (a == a')%Q -> (b == b')%Q -> fmul a b = fmul a' b'.
Proof. intros Ha Hb. unfold fmul, Number. rewrite (fl_Qeq _ _ Ha), (fl_Qeq _ _ Hb). reflexivity. Qed.

(** [0 + x] and [x + 0] are [x]; [x * 0] is [0]. *)
Lemma fadd_0_l (x : Q) : fadd 0 x = Number x.
Proof.
  unfold fadd, Number. rewrite fl_0.
  rewrite (fl_Qeq (0 + fl x) (fl x)) by apply Qplus_0_l. apply fl_idem.
Qed.

Lemma fadd_0_r (x : Q) : fadd x 0 = Number x.
Proof.
  unfold fadd, Number. rewrite fl_0.
  rewrite (fl_Qeq (fl x + 0) (fl x)) by apply Qplus_0_r. apply fl_idem.
Qed.

Lemma fmul_0_r (x : Q) : fmul x 0 = 0%Q.
Proof.
  unfold fmul, Number. rewrite fl_0.
  rewrite (fl_Qeq (fl x * 0) 0) by apply Qmult_0_r. apply fl_0.
Qed.

(** The result of an operation is a double. *)
Lemma Number_Number (x : Q) : Number (Number x) = Number x.
Proof. apply fl_idem. Qed.

Lemma Number_fadd (a b : Q) : Number (fadd a b) = fadd a b.
Proof. apply fl_idem. Qed.

Lemma Number_fmul (a b : Q) : Number (fmul a b) = fmul a b.
Proof. apply fl_idem. Qed.

Lemma fmul_nonneg (a b : Q) : (0 <= a)%Q -> (0 <= b)%Q -> (0 <= fmul a b)%Q.
Proof.
  intros Ha Hb. unfold fmul, Number. apply fl_nonneg.
  apply Qmult_le_0_compat; apply fl_nonneg; assumption.
Qed.

Lemma fdiv_nonneg (a b : Q) : (0 <= a)%Q -> (0 <= b)%Q -> (0 <= fdiv a b)%Q.
Proof.
  intros Ha Hb. unfold fdiv, Number. apply fl_nonneg.
  apply Qmult_le_0_compat; [apply fl_nonneg; assumption |].
  apply Qinv_le_0_compat, fl_nonneg. assumption.
Qed.

(** [parseFloat(v || '0')] of a non-null decimal is the decimal. *)
Lemma decimal_or_0 (cl : Client) (r : Q) : (decimal_or cl (Some r) 0 == r)%Q.
Proof.
  unfold decimal_or. destruct cl; [| reflexivity].
  destruct (Qeq_bool r 0) eqn:E; [| reflexivity].
  apply Qeq_bool_iff in E. symmetry. exact E.
Qed.

(** A stored, non-zero decimal is truthy on either client. *)
Lemma decimal_or_stored (cl : Client) (r d : Q) :
  ~ (r == 0)%Q -> decimal_or cl (Some r) d = r.
Proof.
  intros Hr. unfold decimal_or. destruct cl; [| reflexivity].
  destruct (Qeq_bool r 0) eqn:E; [| reflexivity].
  apply Qeq_bool_iff in E. contradiction.
Qed.

(** ** Transactions *)

Ltac unfold_M :=
  unfold transaction, bind, query, exec, ret, throw in *.

(** A transaction whose callback throws leaves the store as it found it. *)
Lemma transaction_rollback {A} (body : M A) (db : Db) (e : Error) :
  fst (transaction body db) = inl e -> snd (transaction body db) = db.
Proof.
  unfold transaction. destruct (body db) as [[e' | a] db']; simpl; [reflexivity | discriminate].
Qed.

(** The error a transaction reports is the one its callback threw. *)
Lemma transaction_error {A} (body : M A) (db : Db) (e : Error) :
  fst (body db) = inl e -> transaction body db = (inl e, db).
Proof.
  unfold transaction. destruct (body db) as [[e' | a] db']; simpl; congruence.
Qed.

Lemma transaction_commit {A} (body : M A) (db db' : Db) (a : A) :
  body db = (inr a, db') -> transaction body db = (inr a, db').
Proof. unfold transaction. intros ->. reflexivity. Qed.

(** ** C1: the cost stored by endSession *)

(** The rate [endSession] bills at is the rate of the console for the mode
    of the session. *)
Lemma usedRate_at_end_console_rate cl s c :
  (usedRate_at_end cl s c == console_rate cl c (gaming_mode s))%Q.
Proof.
  unfold usedRate_at_end, console_rate, mode_or_1v1.
  destruct (gaming_mode s) as [[|]|]; cbn [default decide_rel];
    try apply decimal_or_0.
  destruct (decide (mode_2v2 = mode_2v2)) as [_|]; [| congruence].
  destruct (hourly_rate_2v2 c) as [r2|] eqn:E; [| apply decimal_or_0].
  unfold decimal_or at 1. destruct cl; [| reflexivity].
  destruct (Qeq_bool r2 0); [apply decimal_or_0 | reflexivity].
Qed.

Lemma console_rate_nonneg cl c m :
  (0 <= hourly_rate c)%Q ->
  (forall r2, hourly_rate_2v2 c = Some r2 -> (0 <= r2)%Q) ->
  (0 <= console_rate cl c m)%Q.
Proof.
  intros Hbase Hr2. unfold console_rate.
  destruct m as [[|]|]; try assumption.
  destruct (hourly_rate_2v2 c) as [r2|]; [| assumption].
  specialize (Hr2 r2 eq_refl).
  destruct cl; [destruct (Qeq_bool r2 0) |]; assumption.
Qed.

Lemma billed_cost_nonneg T0 T1 P rate : (0 <= rate)%Q -> (0 <= billed_cost T0 T1 P rate)%Q.
Proof.
  intros Hr. unfold billed_cost. apply toFixed2_nonneg, fmul_nonneg; [| exact Hr].
  apply fdiv_nonneg; [| discriminate].
  change 0%Q with (inject_Z 0). rewrite <- Zle_Qle. apply Z.le_max_l.
Qed.

(** [endSession] on a session that is not ended and whose console is on
    record: the store it commits. *)
Lemma endSession_commits cl db sid cid s c now :
  sessions db !! sid = Some s -> s_status s <> ended ->
  console_id s = Some cid -> consoles db !! cid = Some c ->
  (exists r, fst (endSession cl sid now db) = inr r) /\
  snd (endSession cl sid now db)
  = set_consoles
      (alter (fun c => mkConsole (c_name c) (c_type c) available
                         (hourly_rate c) (hourly_rate_2v2 c)) cid)
      (set_sessions
         (alter (fun s0 =>
                   mkSession (console_id s0) (start_time s0) (Some now) ended
                     (Some (totalPausedMs_at_end s now))
                     (Some (toFixed2
                              (fmul (fdiv (inject_Z (Z.max 0 (now - start_time s
                                                       - totalPausedMs_at_end s now)))
                                          (inject_Z (1000 * 60 * 60)))
                                    (usedRate_at_end cl s c))))
                     None (gaming_mode s0)) sid) db).
Proof.
  intros Hs Hst Hcid Hc. unfold endSession. unfold_M. rewrite Hs.
  destruct (decide (s_status s = ended)); [contradiction |].
  rewrite Hcid. cbn [mbind option_bind]. rewrite Hc. cbn [fst snd]. eauto.
Qed.

Lemma totalPausedMs_at_end_open_pause s now :
  totalPausedMs_at_end s now
  = (default 0 (total_paused_duration s) + open_pause s now)%Z.
Proof.
  unfold totalPausedMs_at_end, open_pause. destruct (s_status s); reflexivity.
Qed.

(** The cost [endSession] stores. *)
Lemma end_cost_is_billed_cost cl s c now :
  toFixed2 (fmul (fdiv (inject_Z (Z.max 0 (now - start_time s
                                           - totalPausedMs_at_end s now)))
                       (inject_Z (1000 * 60 * 60)))
                 (usedRate_at_end cl s c))
  = billed_cost (start_time s) now
      (default 0 (total_paused_duration s) + open_pause s now)
      (console_rate cl c (gaming_mode s)).
Proof.
  unfold billed_cost. f_equal. rewrite totalPausedMs_at_end_open_pause.
  apply fmul_Qeq; [reflexivity | apply usedRate_at_end_console_rate].
Qed.

(** C1, with the rate as [endSession] reads it.  Ending a session that is
    not yet ended, started at [start_time s], with recorded paused time P0
    and, when paused, an open pause started at [paused_at s], succeeds, sets
    the status to [ended] and stores
    finalCost = round2(max(0, (T1 - T0) - (P0 + open pause)) / 3600000 * rate),
    the quotient and the product taken on doubles.  The rate is the
    console's 1v1 rate, except that in 2v2 mode it is the 2v2 rate when one
    is stored and the client does not read it as zero.  With rates that are
    not negative the stored cost is not negative. *)
Theorem endSession_stores_final_cost
    (cl : Client) (db : Db) (sid cid : string) (now : Z)
    (s : SessionRow) (c : ConsoleRow) :
  sessions db !! sid = Some s ->
  s_status s <> ended ->
  console_id s = Some cid ->
  consoles db !! cid = Some c ->
  let P0 := default 0 (total_paused_duration s) in
  let cost := billed_cost (start_time s) now (P0 + open_pause s now)
                          (console_rate cl c (gaming_mode s)) in
  exists r db' s',
    endSession cl sid now db = (inr r, db') /\
    sessions db' !! sid = Some s' /\
    s_status s' = ended /\
    final_cost s' = Some cost /\
    ((0 <= hourly_rate c)%Q ->
     (forall r2, hourly_rate_2v2 c = Some r2 -> (0 <= r2)%Q) ->
     (0 <= cost)%Q).
Proof.
  intros Hs Hne Hcid Hc P0 cost.
  destruct (endSession_commits cl db sid cid s c now Hs Hne Hcid Hc) as [[r Hr] Hdb'].
  exists r, (snd (endSession cl sid now db)).
  eexists. split; [rewrite <- Hr; apply surjective_pairing |].
  rewrite Hdb'. cbn [sessions set_sessions set_consoles].
  rewrite lookup_alter_eq, Hs. cbn [fmap option_fmap option_map].
  split; [reflexivity |]. split; [reflexivity |]. split.
  - cbn [final_cost]. f_equal. apply end_cost_is_billed_cost.
  - intros Hbase Hr2. apply billed_cost_nonneg, console_rate_nonneg; assumption.
Qed.

Lemma endSession_stores_final_cost_witness :
  exists r db' s',
    endSession sqlite3 "s1" 4500000 Sample.db_active = (inr r, db') /\
    sessions db' !! "s1" = Some s' /\
    s_status s' = ended /\
    final_cost s' = Some (billed_cost 0 4500000 (900000 + 0) 8) /\
    ((0 <= 8)%Q ->
     (forall r2, Some 12%Q = Some r2 -> (0 <= r2)%Q) ->
     (0 <= billed_cost 0 4500000 (900000 + 0) 8)%Q).
Proof.
  apply (endSession_stores_final_cost sqlite3 Sample.db_active "s1" "c1" 4500000
           Sample.s1_active (Sample.c1 in_use)).
  - vm_compute. reflexivity.
  - discriminate.
  - reflexivity.
  - vm_compute. reflexivity.
Defined.

(** C1 with the stored 2v2 rate as the rate of a 2v2 session fails: a 2v2
    session is started on console c1 (8 / 12), the 2v2 rate of the console
    is set to 0, and the session is ended after one hour on sqlite3.  The
    console's 2v2 rate is 0, so the formula of the claim gives 0.00; the
    stored finalCost is 8.00, one hour at the 1v1 rate. *)
Lemma endSession_zero_2v2_rate_bills_base_rate :
  let db1 := snd (startSession sqlite3 "c1" mode_2v2 "A" 0 Sample.db_idle) in
  let db2 := snd (updateConsoleRates sqlite3 "c1" None (Some 0%Q) db1) in
  let db3 := snd (endSession sqlite3 "ses_A" 3600000 db2) in
  (c ← consoles db2 !! "c1"; Some (hourly_rate c, hourly_rate_2v2 c))
  = Some (8%Q, Some 0%Q) /\
  (s ← sessions db3 !! "ses_A";
   Some (s_status s, gaming_mode s, start_time s, total_paused_duration s,
         final_cost s))
  = Some (ended, Some mode_2v2, 0%Z, Some 0%Z, Some (800 # 100)%Q) /\
  billed_cost 0 3600000 0 0 = (0 # 100)%Q /\
  ~ ((800 # 100) == billed_cost 0 3600000 0 0)%Q.
Proof. vm_compute. repeat split. discriminate. Qed.

(** The cost is rounded from the double product: 452250 ms at rate 8 is
    1.005 exactly, but the double quotient times 8 lies just below it, and
    1.00 is stored. *)
Example half_cent_scenario :
  (s ← sessions (snd (endSession sqlite3 "s1" 1352250 Sample.db_active)) !! "s1";
   final_cost s)
  = Some (100 # 100)%Q /\
  (inject_Z 452250 / 3600000 * 8 == 1005 # 1000)%Q.
Proof. vm_compute. split; reflexivity. Qed.

(** The scenario of the specification: console c1 (8 / 12), start in 1v1 at
    T0, pause at T0 + 30 min, resume at T0 + 45 min, end at T0 + 75 min: one
    billable hour, finalCost = 8.00. *)
Example session_scenario :
  let db1 := snd (startSession sqlite3 "c1" mode_1v1 "A" 0 Sample.db_idle) in
  let db2 := snd (pauseSession sqlite3 "ses_A" 1800000 db1) in
  let db3 := snd (resumeSession sqlite3 "ses_A" 2700000 db2) in
  let db4 := snd (endSession sqlite3 "ses_A" 4500000 db3) in
  (s ← sessions db4 !! "ses_A";
   Some (s_status s, total_paused_duration s, final_cost s))
  = Some (ended, Some 900000%Z, Some (800 # 100)%Q) /\
  c_status <$> consoles db4 !! "c1" = Some available.
Proof. vm_compute. split; reflexivity. Qed.

(** ** Checkout: frame and inversion lemmas *)

Lemma session_charge_pure cl sid mp db :
  snd (session_charge cl sid mp db) = db.
Proof.
  unfold session_charge. unfold_M.
  destruct (sessions db !! sid) as [s|]; [| reflexivity].
  destruct (decide (s_status s ≠ ended)); [reflexivity |].
  destruct (receipt_for_session sid db); [reflexivity |].
  destruct (final_cost s); [| reflexivity].
  destruct (cid ← console_id s; consoles db !! cid); [| reflexivity].
  destruct (negb _); reflexivity.
Qed.

(** The cart loop writes to [products] only, and there only to [stock]. *)
Lemma process_cart_frame items : forall st acc db r db',
  process_cart items st acc db = (r, db') ->
  consoles db' = consoles db /\ sessions db' = sessions db /\
  session_items db' = session_items db /\ receipts db' = receipts db /\
  receipt_items db' = receipt_items db /\
  (forall pid, price <$> products db' !! pid = price <$> products db !! pid).
Proof.
  induction items as [| it items IH]; intros st acc db r db' H.
  - cbn in H. unfold_M. injection H as <- <-. auto 10.
  - cbn [process_cart] in H. unfold_M. unfold decrement_stock in H. unfold_M.
    destruct (products db !! productId it) as [p|] eqn:Hp.
    + destruct (stock p <? quantity it)%Z.
      * injection H as <- <-. auto 10.
      * apply IH in H. cbn in H.
        destruct H as (Hc & Hs & Hsi & Hr & Hri & Hpr).
        repeat split; try assumption.
        intros pid. rewrite Hpr.
        destruct (decide (productId it = pid)) as [<- | Hne].
        -- rewrite lookup_alter_eq, Hp. reflexivity.
        -- rewrite lookup_alter_ne by assumption. reflexivity.
    + injection H as <- <-. auto 10.
Qed.

(** Taking stock does not change what a cart sums to. *)
Lemma cart_sum_decrement db pid q items : forall st,
  cart_sum (set_products
              (alter (fun p0 => mkProduct (p_name p0) (p_description p0)
                                  (p_category p0) (price p0) (stock p0 - q))
                     pid) db) st items
  = cart_sum db st items.
Proof.
  unfold cart_sum. induction items as [| it items IH]; intros st; cbn [foldl];
    [reflexivity |].
  rewrite <- IH. f_equal. cbn [products set_products].
  destruct (decide (pid = productId it)) as [<- | Hne].
  - rewrite lookup_alter_eq. destruct (products db !! pid); reflexivity.
  - rewrite lookup_alter_ne by assumption. reflexivity.
Qed.

(** On success the loop has added the lines of the cart to the running
    subtotal, one after the other. *)
Lemma process_cart_subtotal items : forall st acc db st' acc' db',
  process_cart items st acc db = (inr (st', acc'), db') ->
  st' = cart_sum db st items.
Proof.
  induction items as [| it items IH]; intros st acc db st' acc' db' H.
  - cbn in H. unfold_M. injection H as <- <- <-. reflexivity.
  - cbn [process_cart] in H. unfold_M. unfold decrement_stock in H. unfold_M.
    unfold cart_sum. cbn [foldl]. fold (cart_sum db).
    destruct (products db !! productId it) as [p|] eqn:Hp; [| discriminate].
    destruct (stock p <? quantity it)%Z; [discriminate |].
    apply IH in H. rewrite H. apply cart_sum_decrement.
Qed.

(** A running subtotal that is a double stays one. *)
Lemma cart_sum_Number db items : forall st,
  Number st = st -> Number (cart_sum db st items) = cart_sum db st items.
Proof.
  unfold cart_sum. induction items as [| it items IH]; intros st Hst; cbn [foldl];
    [exact Hst |].
  apply IH. destruct (products db !! productId it); [apply Number_fadd | exact Hst].
Qed.

(** With the tax rate 0 the tax is 0 and the total is the subtotal. *)
Lemma tax_and_total (st : Q) :
  Number st = st ->
  fmul st TAX_RATE = 0%Q /\ fadd st (fmul st TAX_RATE) = st.
Proof.
  intros Hst. unfold TAX_RATE. rewrite fmul_0_r, fadd_0_r. auto.
Qed.

(** What a committed checkout has done. *)
Lemma processCheckout_inv cl items pm sessionId mp ulid now db rcpt db' :
  processCheckout cl items pm sessionId mp ulid now db = (inr rcpt, db') ->
  exists charge st lines db1 row,
    match truthy_string sessionId with
    | Some sid => session_charge cl sid mp db = (inr charge, db)
    | None => charge = no_console_charge
    end /\
    process_cart items (cc_subtotal charge) [] db = (inr (st, lines), db1) /\
    r_session_id row = truthy_string sessionId /\
    r_subtotal row = toFixed2 st /\
    r_tax row = toFixed2 (fmul st TAX_RATE) /\
    r_total row = toFixed2 (fadd st (fmul st TAX_RATE)) /\
    receipts db' = receipts db1 ++ [row] /\
    products db' = products db1 /\
    sessions db' = sessions db1 /\
    consoles db' = consoles db1 /\
    rc_consoleUsage rcpt = cc_consoleUsageData charge /\
    rc_subtotal rcpt = r_subtotal row /\
    rc_tax rcpt = r_tax row /\
    rc_total rcpt = r_total row.
Proof.
  unfold processCheckout, processCheckout_body, transaction. unfold bind at 1.
  intros H.
  assert (Hch : exists charge,
             match truthy_string sessionId with
             | Some sid => session_charge cl sid mp
             | None => ret no_console_charge
             end db = (inr charge, db) /\
             match truthy_string sessionId with
             | Some sid => session_charge cl sid mp db = (inr charge, db)
             | None => charge = no_console_charge
             end).
  { destruct (truthy_string sessionId) as [sid|].
    - pose proof (session_charge_pure cl sid mp db) as Hp.
      destruct (session_charge cl sid mp db) as [[e|ch] d]; cbn in Hp; subst d.
      + cbn in H. discriminate.
      + eauto.
    - eexists. split; reflexivity. }
  destruct Hch as (charge & Hrun & Hch). rewrite Hrun in H.
  unfold bind at 1 in H.
  destruct (process_cart items (cc_subtotal charge) [] db) as [[e|[st lines]] db1] eqn:Hcart;
    [discriminate |].
  unfold bind at 1 in H. unfold insert_receipt at 1 in H.
  match type of H with context [existsb ?f ?l] => destruct (existsb f l) end;
    [discriminate |].
  unfold_M. cbn in H. injection H as <- <-.
  eexists charge, st, lines, db1, _.
  split; [exact Hch |]. split; [exact Hcart |].
  cbn. repeat split; reflexivity.
Qed.

(** ** C2: checkout is all-or-nothing *)

(** With non-negative quantities, a cart line that asks for more than the
    catalog holds makes the loop throw, at that line or earlier. *)
Lemma process_cart_short_stock items : forall st acc db,
  (forall it, In it items -> (0 <= quantity it)%Z) ->
  (exists it p, In it items /\ products db !! productId it = Some p /\
                (stock p < quantity it)%Z) ->
  exists e, fst (process_cart items st acc db) = inl e.
Proof.
  induction items as [| hd items IH]; intros st acc db Hpos (it & p & Hin & Hp & Hlt).
  - destruct Hin.
  - cbn [process_cart]. unfold_M. unfold decrement_stock. unfold_M.
    destruct (products db !! productId hd) as [ph|] eqn:Hph; [| eauto].
    destruct (stock ph <? quantity hd)%Z eqn:E; [eauto |].
    apply Z.ltb_ge in E.
    destruct Hin as [-> | Hin].
    + rewrite Hph in Hp. injection Hp as <-. lia.
    + apply IH; [intros; apply Hpos; right; assumption |].
      cbn [products set_products].
      destruct (decide (productId hd = productId it)) as [Heq | Hne].
      * exists it. eexists. split; [assumption |].
        rewrite Heq, lookup_alter_eq, Hp. split; [reflexivity |]. cbn.
        specialize (Hpos hd (or_introl eq_refl)). lia.
      * exists it, p. rewrite lookup_alter_ne by assumption. auto.
Qed.

(** A retail checkout whose cart asks for more than the catalog holds is
    rejected and leaves the store as it was. *)
Lemma processCheckout_short_stock cl items pm ulid now db :
  (forall it, In it items -> (0 <= quantity it)%Z) ->
  (exists it p, In it items /\ products db !! productId it = Some p /\
                (stock p < quantity it)%Z) ->
  exists e, processCheckout cl items pm None None ulid now db = (inl e, db).
Proof.
  intros Hpos Hshort.
  destruct (process_cart_short_stock items 0%Q [] db Hpos Hshort) as [e He].
  exists e. apply transaction_error.
  unfold processCheckout_body. cbn [truthy_string]. unfold bind at 1. cbn [ret].
  unfold bind at 1. cbn [cc_subtotal no_console_charge].
  destruct (process_cart items 0%Q [] db) as [[e' | r] db']; cbn in He |- *;
    congruence.
Qed.

(** C2.  If a checkout call fails, for whatever reason (a missing product,
    insufficient stock for any cart item, a session already paid for, a
    negative charged price, ...), the store is as it was before the call: no
    receipt has been persisted and every product has its stock count,
    including the products the call had already decremented. *)
Theorem processCheckout_all_or_nothing
    (cl : Client) (items : list CartItem) (paymentMethod : string)
    (sessionId : option string) (manualConsolePrice : option Q)
    (ulid : string) (now : Z) (db : Db) (e : Error) :
  let result :=
    processCheckout cl items paymentMethod sessionId manualConsolePrice ulid now db in
  fst result = inl e ->
  snd result = db /\
  receipts (snd result) = receipts db /\
  forall pid, stock_of (snd result) pid = stock_of db pid.
Proof.
  intros result H. subst result. unfold processCheckout in *.
  apply transaction_rollback in H. rewrite H. auto.
Qed.

(** A cart whose first line is in stock and whose second is not: the call is
    rejected after prod-1 has been decremented inside the transaction. *)
Lemma processCheckout_all_or_nothing_witness :
  let result :=
    processCheckout sqlite3 [mkCartItem "prod-1" 3; mkCartItem "prod-2" 5]
      "cash" None None "R1" 10 Sample.db_ended in
  snd result = Sample.db_ended /\
  receipts (snd result) = receipts Sample.db_ended /\
  forall pid, stock_of (snd result) pid = stock_of Sample.db_ended pid.
Proof.
  apply (processCheckout_all_or_nothing sqlite3
           [mkCartItem "prod-1" 3; mkCartItem "prod-2" 5] "cash" None None "R1" 10
           Sample.db_ended (CartNotEnoughStock "Chips" 2)).
  vm_compute. reflexivity.
Defined.

(** Inside that transaction the stock of prod-1 had gone from 45 to 42 when
    the second line threw; the rollback is what restores it. *)
Example rollback_restores_decremented_stock :
  let body :=
    processCheckout_body sqlite3 [mkCartItem "prod-1" 3; mkCartItem "prod-2" 5]
      "cash" None None "R1" 10 Sample.db_ended in
  fst body = inl (CartNotEnoughStock "Chips" 2) /\
  stock_of (snd body) "prod-1" = Some 42%Z /\
  stock_of Sample.db_ended "prod-1" = Some 45%Z.
Proof. vm_compute. auto. Qed.

(** ** C3: at most one receipt per session *)

Lemma receipt_for_session_None sid db :
  receipt_for_session sid db = None <-> receipts_of_session sid db = [].
Proof.
  unfold receipt_for_session, receipts_of_session.
  induction (receipts db) as [| r l IH]; [cbn; tauto |].
  cbn [find]. rewrite filter_cons.
  destruct (decide (r_session_id r = Some sid)) as [E | NE].
  - rewrite bool_decide_eq_true_2 by assumption. split; discriminate.
  - rewrite bool_decide_eq_false_2 by assumption. exact IH.
Qed.

Lemma session_charge_ok_inv cl sid mp db charge db' :
  session_charge cl sid mp db = (inr charge, db') ->
  (exists s, sessions db !! sid = Some s /\ s_status s = ended) /\
  receipt_for_session sid db = None.
Proof.
  unfold session_charge. unfold_M.
  destruct (sessions db !! sid) as [s|]; [| discriminate].
  destruct (decide (s_status s ≠ ended)) as [| Hst]; [discriminate |].
  destruct (receipt_for_session sid db); [discriminate |].
  intros _. split; [| reflexivity].
  exists s. split; [reflexivity |].
  destruct (s_status s); try reflexivity; exfalso; apply Hst; discriminate.
Qed.

Lemma paid_rejected cl sid db items pm mp ulid now :
  sid <> EmptyString -> paid sid db ->
  processCheckout cl items pm (Some sid) mp ulid now db = (inl AlreadyPaid, db).
Proof.
  intros Hsid [(s & Hs & Hst) Hlen].
  apply transaction_error.
  unfold processCheckout_body, truthy_string.
  destruct (decide (sid = EmptyString)) as [| _]; [contradiction |].
  unfold bind at 1. unfold session_charge. unfold_M. rewrite Hs.
  destruct (decide (s_status s ≠ ended)) as [Hne | _]; [contradiction |].
  destruct (receipt_for_session sid db) eqn:E; [reflexivity |].
  apply receipt_for_session_None in E. rewrite E in Hlen. discriminate.
Qed.

Lemma paid_after_success cl sid db items pm mp ulid now rcpt db1 :
  sid <> EmptyString ->
  processCheckout cl items pm (Some sid) mp ulid now db = (inr rcpt, db1) ->
  paid sid db1.
Proof.
  intros Hsid H. apply processCheckout_inv in H.
  destruct H as (charge & st & lines & dbc & row & Hch & Hcart & Hrs & _ & _ & _
                 & Hrec & _ & Hses & _).
  unfold truthy_string in Hch, Hrs.
  destruct (decide (sid = EmptyString)) as [| _]; [contradiction |].
  apply session_charge_ok_inv in Hch. destruct Hch as [Hs Hnone].
  apply process_cart_frame in Hcart.
  destruct Hcart as (_ & Hses' & _ & Hrec' & _).
  split.
  - rewrite Hses, Hses'. exact Hs.
  - unfold receipts_of_session. rewrite Hrec, Hrec', filter_app.
    apply receipt_for_session_None in Hnone.
    unfold receipts_of_session in Hnone. rewrite Hnone.
    rewrite filter_cons, decide_True by assumption. reflexivity.
Qed.

Lemma paid_preserved cl sid db items pm sessionId mp ulid now :
  paid sid db ->
  paid sid (snd (processCheckout cl items pm sessionId mp ulid now db)).
Proof.
  intros Hpaid.
  destruct (processCheckout cl items pm sessionId mp ulid now db)
    as [[e | rcpt] db'] eqn:H; cbn.
  - pose proof (transaction_rollback
                  (processCheckout_body cl items pm sessionId mp ulid now) db e)
      as Hroll.
    fold (processCheckout cl items pm sessionId mp ulid now) in Hroll.
    rewrite H in Hroll. cbn in Hroll. rewrite (Hroll eq_refl). exact Hpaid.
  - apply processCheckout_inv in H.
    destruct H as (charge & st & lines & dbc & row & Hch & Hcart & Hrs & _ & _ & _
                   & Hrec & _ & Hses & _).
    apply process_cart_frame in Hcart.
    destruct Hcart as (_ & Hses' & _ & Hrec' & _).
    destruct Hpaid as [Hs Hlen]. split.
    + rewrite Hses, Hses'. exact Hs.
    + unfold receipts_of_session in *. rewrite Hrec, Hrec', filter_app, length_app.
      rewrite Hlen. rewrite filter_cons.
      destruct (decide (r_session_id row = Some sid)) as [E | _]; [| reflexivity].
      exfalso. rewrite Hrs in E. rewrite E in Hch.
      apply session_charge_ok_inv in Hch. destruct Hch as [_ Hnone].
      apply receipt_for_session_None in Hnone.
      unfold receipts_of_session in Hnone. rewrite Hnone in Hlen. discriminate.
Qed.

Lemma paid_run_checkouts cl sid rqs : forall db,
  paid sid db -> paid sid (run_checkouts cl rqs db).
Proof.
  unfold run_checkouts.
  induction rqs as [| rq rqs IH]; intros db Hpaid; cbn; [exact Hpaid |].
  apply IH. apply paid_preserved. exact Hpaid.
Qed.

(** C3.  Once a checkout for an (ended) session has succeeded, then after
    any further sequence of checkout calls exactly one receipt references
    the session, and every checkout call for the same sessionId fails with
    the already-paid error and leaves the store (receipts and stock) as it
    was. *)
Theorem checkout_succeeds_at_most_once
    (cl : Client) (db db1 : Db) (sid : string) (items : list CartItem)
    (pm : string) (mp : option Q) (ulid : string) (now : Z) (rcpt : Receipt) :
  sid <> EmptyString ->
  processCheckout cl items pm (Some sid) mp ulid now db = (inr rcpt, db1) ->
  forall later : list CheckoutRequest,
    let db2 := run_checkouts cl later db1 in
    length (receipts_of_session sid db2) = 1%nat /\
    forall items' pm' mp' ulid' now',
      processCheckout cl items' pm' (Some sid) mp' ulid' now' db2
      = (inl AlreadyPaid, db2).
Proof.
  intros Hsid Hfirst later db2.
  assert (Hpaid : paid sid db2).
  { apply paid_run_checkouts. eapply paid_after_success; eassumption. }
  split; [apply Hpaid |].
  intros. apply paid_rejected; assumption.
Qed.

Lemma checkout_succeeds_at_most_once_witness :
  let db1 :=
    snd (processCheckout sqlite3 [mkCartItem "prod-1" 3] "cash" (Some "s1")
           (Some 5%Q) "R1" 10 Sample.db_ended) in
  let db2 :=
    run_checkouts sqlite3
      [mkCheckoutRequest [mkCartItem "prod-2" 1] "card" None None "R2" 20;
       mkCheckoutRequest [] "cash" (Some "s1") None "R3" 30] db1 in
  length (receipts_of_session "s1" db2) = 1%nat /\
  forall items' pm' mp' ulid' now',
    processCheckout sqlite3 items' pm' (Some "s1") mp' ulid' now' db2
    = (inl AlreadyPaid, db2).
Proof.
  intros db1 db2.
  eapply (checkout_succeeds_at_most_once sqlite3 Sample.db_ended db1 "s1"
            [mkCartItem "prod-1" 3] "cash" (Some 5%Q) "R1" 10).
  - discriminate.
  - subst db1. vm_compute. reflexivity.
Defined.

(** ** C4: what a session checkout charges *)








(** The scenario of the specification, evaluated: calculatedCost 8.00,
    chargedCost 5.00, subtotal 5.00, total 5.00. *)
Example override_scenario :
  exists rcpt db' cu,
    processCheckout sqlite3 [] "cash" (Some "s1") (Some 5%Q) "R1" 10 Sample.db_ended
    = (inr rcpt, db') /\
    rc_consoleUsage rcpt = Some cu /\
    (cu_calculatedCost cu == 8)%Q /\ (cu_finalCost cu == 5)%Q /\
    (rc_subtotal rcpt == 5)%Q /\ (rc_total rcpt == 5)%Q.
Proof. eexists _, _, _. vm_compute. repeat split; discriminate. Qed.

(** The subtotal is rounded from the double sum: an override of 0.005 and
    one line of 1.00 sum to a double just below 1.005, and the receipt shows
    1.00. *)
Example half_cent_subtotal :
  rc_subtotal
  <$> (match fst (processCheckout sqlite3 [mkCartItem "prod-9" 1] "cash" (Some "s1")
                    (Some (5 # 1000)%Q) "R1" 10
                    (set_products (insert "prod-9" (mkProduct "Gum" "pack" "snacks" 1 5))
                       Sample.db_ended))
       with inr rcpt => Some rcpt | inl _ => None end)
  = Some (100 # 100)%Q.
Proof. vm_compute. reflexivity. Qed.

(** ** C10: a billable session whose console is gone *)

(** C10.  A checkout for a session that is fully billable (it exists, is
    ended, has a stored finalCost and has not been paid for) but whose
    console row no longer exists fails with the console-not-found error and
    leaves the store, stock counts and receipts included, as it was. *)
Theorem checkout_fails_without_console
    (cl : Client) (db : Db) (sid : string) (s : SessionRow) (calc : Q)
    (items : list CartItem) (pm : string) (mp : option Q) (ulid : string) (now : Z) :
  sid <> EmptyString ->
  sessions db !! sid = Some s ->
  s_status s = ended ->
  final_cost s = Some calc ->
  receipt_for_session sid db = None ->
  (forall cid, console_id s = Some cid -> consoles db !! cid = None) ->
  let result := processCheckout cl items pm (Some sid) mp ulid now db in
  result = (inl ConsoleNotFoundForSession, db) /\
  receipts (snd result) = receipts db /\
  forall pid, stock_of (snd result) pid = stock_of db pid.
Proof.
  intros Hsid Hs Hst Hfc Hrec Hgone result.
  assert (H : result = (inl ConsoleNotFoundForSession, db)).
  { subst result. apply transaction_error.
    unfold processCheckout_body, truthy_string.
    destruct (decide (sid = EmptyString)) as [| _]; [contradiction |].
    unfold bind at 1. unfold session_charge. unfold_M. rewrite Hs.
    destruct (decide (s_status s ≠ ended)) as [Hne | _]; [contradiction |].
    rewrite Hrec, Hfc.
    destruct (console_id s) as [cid|] eqn:Hcid; cbn [mbind option_bind].
    - rewrite (Hgone cid eq_refl). reflexivity.
    - reflexivity. }
  rewrite H. auto.
Qed.

Lemma checkout_fails_without_console_witness :
  let result :=
    processCheckout sqlite3 [mkCartItem "prod-1" 1] "cash" (Some "s3") None "R1" 10
      Sample.db_orphan in
  result = (inl ConsoleNotFoundForSession, Sample.db_orphan) /\
  receipts (snd result) = receipts Sample.db_orphan /\
  forall pid, stock_of (snd result) pid = stock_of Sample.db_orphan pid.
Proof.
  apply (checkout_fails_without_console sqlite3 Sample.db_orphan "s3"
           Sample.s3_orphan (800 # 100)%Q).
  - discriminate.
  - vm_compute. reflexivity.
  - reflexivity.
  - reflexivity.
  - reflexivity.
  - intros cid H. discriminate H.
Defined.

(** ** C5: pausing a session that is not active *)

Lemma set_sessions_id (db : Db) : set_sessions (fun m => m) db = db.
Proof. destruct db. reflexivity. Qed.

(** C5 (the code departs from it).  For an existing session that is paused
    or ended, and whose console is on record, [pauseSession] does leave the
    session unchanged, but it does not throw: it returns the session as it
    is.  The guard [if (!updatedSession)] only fires when no session row
    with that id can be read back. *)
Theorem pauseSession_not_active_returns_normally
    (cl : Client) (db : Db) (sid cid : string) (s : SessionRow) (c : ConsoleRow)
    (now : Z) :
  sessions db !! sid = Some s ->
  s_status s <> active ->
  console_id s = Some cid ->
  consoles db !! cid = Some c ->
  exists v,
    pauseSession cl sid now db = (inr (Some v), db) /\
    status v = s_status s /\
    pausedAt v = paused_at s.
Proof.
  intros Hs Hst Hcid Hc.
  unfold pauseSession. unfold_M.
  assert (Hdb : set_sessions
                  (alter (fun s0 =>
                            if decide (s_status s0 = active)
                            then mkSession (console_id s0) (start_time s0) (end_time s0)
                                   paused (total_paused_duration s0) (final_cost s0)
                                   (Some now) (gaming_mode s0)
                            else s0) sid) db = db).
  { rewrite <- (set_sessions_id db) at 2. unfold set_sessions. f_equal.
    apply alter_id. intros x Hx. rewrite Hs in Hx. injection Hx as <-.
    destruct (decide (s_status s = active)); [contradiction | reflexivity]. }
  rewrite Hdb.
  unfold findSessionById. rewrite Hs. cbn [mbind option_bind].
  rewrite Hcid. cbn [mbind option_bind]. rewrite Hc. cbn [mbind option_bind].
  eexists. split; [reflexivity |]. cbn. auto.
Qed.

(** Pausing the already paused sample session at minute 40 returns it, still
    paused since minute 30. *)
Lemma pauseSession_not_active_returns_normally_witness :
  exists v,
    pauseSession sqlite3 "s1" 2400000 Sample.db_paused = (inr (Some v), Sample.db_paused) /\
    status v = paused /\
    pausedAt v = Some 1800000%Z.
Proof.
  apply (pauseSession_not_active_returns_normally sqlite3 Sample.db_paused
           "s1" "c1" Sample.s1_paused (Sample.c1 in_use) 2400000).
  - vm_compute. reflexivity.
  - discriminate.
  - reflexivity.
  - vm_compute. reflexivity.
Defined.

(** The sibling operation does reject the wrong state. *)
Example resumeSession_rejects_active :
  resumeSession sqlite3 "s1" 2400000 Sample.db_active
  = (inl PausedSessionNotFound, Sample.db_active).
Proof. vm_compute. reflexivity. Qed.

(** ** C6: adding an item to the running tab *)

(** When [addItemToSession] commits, and what it then writes.  The quantity
    is compared with the stock and nothing else. *)
Lemma addItemToSession_succeeds_iff db sid pid q now :
  (exists item db', addItemToSession sid pid q now db = (inr item, db')) <->
  (exists s p,
     sessions db !! sid = Some s /\ s_status s <> ended /\
     products db !! pid = Some p /\ (q <= stock p)%Z).
Proof.
  unfold addItemToSession, decrement_stock. unfold_M. split.
  - intros (item & db' & H).
    destruct (sessions db !! sid) as [s|]; [| discriminate].
    destruct (decide (s_status s = ended)); [discriminate |].
    destruct (products db !! pid) as [p|]; [| discriminate].
    destruct (stock p <? q)%Z eqn:E; [discriminate |].
    apply Z.ltb_ge in E. eauto 10.
  - intros (s & p & Hs & Hst & Hp & Hq). rewrite Hs.
    destruct (decide (s_status s = ended)); [contradiction |].
    rewrite Hp. apply Z.ltb_ge in Hq. rewrite Hq. eauto.
Qed.

(** C6 (the code departs from it).  [addItemToSession] does not require
    [quantity > 0]: on a session that is not ended and a product on record
    with non-negative stock, a zero or negative quantity is accepted, the
    stock goes to [stock - quantity] (it does not decrease), and a tab line
    with subtotal [price * quantity] is appended. *)
Theorem addItemToSession_accepts_nonpositive_quantity
    (db : Db) (sid pid : string) (s : SessionRow) (p : ProductRow)
    (q now : Z) :
  sessions db !! sid = Some s ->
  s_status s <> ended ->
  products db !! pid = Some p ->
  (0 <= stock p)%Z ->
  (q <= 0)%Z ->
  exists item db' line,
    addItemToSession sid pid q now db = (inr item, db') /\
    stock_of db' pid = Some (stock p - q)%Z /\
    (stock p <= stock p - q)%Z /\
    session_items db' = session_items db ++ [line] /\
    si_quantity line = q /\
    si_unit_price line = price p /\
    si_subtotal line = fmul (price p) (inject_Z q).
Proof.
  intros Hs Hst Hp Hstock Hq.
  unfold addItemToSession, decrement_stock. unfold_M. rewrite Hs.
  destruct (decide (s_status s = ended)); [contradiction |].
  rewrite Hp.
  assert (E : (stock p <? q)%Z = false) by (apply Z.ltb_ge; lia).
  rewrite E. eexists _, _, _. split; [reflexivity |].
  unfold stock_of. cbn. rewrite lookup_alter_eq, Hp. cbn.
  repeat split; try reflexivity. lia.
Qed.

(** Adding -3 of prod-1 (stock 45, price 2.50) to the running sample
    session: the stock becomes 48 and the tab gains a line of -7.50. *)
Lemma addItemToSession_accepts_nonpositive_quantity_witness :
  exists item db' line,
    addItemToSession "s1" "prod-1" (-3) 100 Sample.db_active = (inr item, db') /\
    stock_of db' "prod-1" = Some (45 - -3)%Z /\
    (45 <= 45 - -3)%Z /\
    session_items db' = session_items Sample.db_active ++ [line] /\
    si_quantity line = (-3)%Z /\
    si_unit_price line = (5 # 2)%Q /\
    si_subtotal line = fmul (5 # 2) (inject_Z (-3)).
Proof.
  apply (addItemToSession_accepts_nonpositive_quantity Sample.db_active
           "s1" "prod-1" Sample.s1_active Sample.cola (-3) 100).
  - vm_compute. reflexivity.
  - discriminate.
  - vm_compute. reflexivity.
  - discriminate.
  - discriminate.
Defined.

(** The scenario of the specification: 3 of prod-1 takes the stock from 45
    to 42 and adds a line with subtotal 7.50. *)
Example addItem_scenario :
  exists item db',
    addItemToSession "s1" "prod-1" 3 100 Sample.db_active = (inr item, db') /\
    stock_of db' "prod-1" = Some 42%Z /\
    (ai_subtotal item == 15 # 2)%Q.
Proof. eexists _, _. vm_compute. repeat split. Qed.

(** ** C7: the cost re-derived by the billing side *)

(** C7 (the code departs from it).  [endSession] falls back to the base rate
    when the console has no 2v2 rate, [calculateSessionCost] to 1.5 times the
    base rate: for a 2v2 session of one hour on console c2 (base rate 10, no
    2v2 rate) the stored finalCost is 10.00 and the re-derived cost is 15.00,
    on either client.  On sqlite3 the same happens from a clean start, when
    the 2v2 rate of the console is set to 0 while the session runs. *)
Theorem calculateSessionCost_differs_from_stored_cost :
  (forall cl : Client,
     let db' := snd (endSession cl "s2" 3600000 Sample.db_2v2) in
     (s ← sessions db' !! "s2"; Some (s_status s, gaming_mode s, final_cost s))
     = Some (ended, Some mode_2v2, Some (1000 # 100)%Q) /\
     fst (calculateSessionCost cl "s2" mode_2v2 db') = inr (1500 # 100)%Q) /\
  (let db1 := snd (startSession sqlite3 "c1" mode_2v2 "A" 0 Sample.db_idle) in
   let db2 := snd (updateConsoleRates sqlite3 "c1" None (Some 0%Q) db1) in
   let db3 := snd (endSession sqlite3 "ses_A" 3600000 db2) in
   (s ← sessions db3 !! "ses_A"; Some (s_status s, gaming_mode s, final_cost s))
   = Some (ended, Some mode_2v2, Some (800 # 100)%Q) /\
   fst (calculateSessionCost sqlite3 "ses_A" mode_2v2 db3) = inr (1200 # 100)%Q).
Proof.
  split.
  - intros cl. destruct cl; vm_compute; split; reflexivity.
  - vm_compute. split; reflexivity.
Qed.

(** ** C8: the recorded paused time never decreases *)

Lemma clock_monotone_app ops1 : forall t ops2,
  clock_monotone t (ops1 ++ ops2) <->
  clock_monotone t ops1 /\ clock_monotone (final_clock t ops1) ops2.
Proof.
  induction ops1 as [| op ops1 IH]; intros t ops2; cbn.
  - tauto.
  - rewrite IH. tauto.
Qed.

Lemma pauses_before_weaken t t' db :
  (t <= t')%Z -> pauses_before t db -> pauses_before t' db.
Proof. intros Hle H sid s Tp Hs Hp. specialize (H sid s Tp Hs Hp). lia. Qed.

(** An update of one session row that does not lower its recorded paused
    time and records no pause later than [now]. *)
Lemma alter_session_step (f : SessionRow -> SessionRow) sid db db' t now :
  sessions db' = alter f sid (sessions db) ->
  pauses_before t db -> (t <= now)%Z ->
  (forall s, sessions db !! sid = Some s ->
     (default 0 (total_paused_duration s)
      <= default 0 (total_paused_duration (f s)))%Z /\
     forall Tp, paused_at (f s) = Some Tp -> (Tp <= now)%Z) ->
  pauses_before now db' /\
  forall sid', (recorded_paused db sid' <= recorded_paused db' sid')%Z.
Proof.
  intros Hdb' Hinv Hle Hf. split.
  - intros sid' s' Tp Hs' Hp. rewrite Hdb' in Hs'.
    destruct (decide (sid = sid')) as [<- | Hne].
    + rewrite lookup_alter_eq in Hs'.
      destruct (sessions db !! sid) as [s|] eqn:Hs; [| discriminate].
      cbn in Hs'. injection Hs' as <-.
      destruct (Hf s eq_refl) as [_ Hpa]. apply Hpa. exact Hp.
    + rewrite lookup_alter_ne in Hs' by assumption.
      specialize (Hinv sid' s' Tp Hs' Hp). lia.
  - intros sid'. unfold recorded_paused. rewrite Hdb'.
    destruct (decide (sid = sid')) as [<- | Hne].
    + rewrite lookup_alter_eq.
      destruct (sessions db !! sid) as [s|] eqn:Hs; cbn; [| lia].
      apply (Hf s eq_refl).
    + rewrite lookup_alter_ne by assumption. lia.
Qed.

Lemma same_sessions_step db db' t now :
  sessions db' = sessions db ->
  pauses_before t db -> (t <= now)%Z ->
  pauses_before now db' /\
  forall sid', (recorded_paused db sid' <= recorded_paused db' sid')%Z.
Proof.
  intros Hdb' Hinv Hle. split.
  - intros sid s Tp Hs Hp. rewrite Hdb' in Hs.
    specialize (Hinv sid s Tp Hs Hp). lia.
  - intros sid. unfold recorded_paused. rewrite Hdb'. lia.
Qed.

(** [pauseSession] leaves the recorded paused time alone. *)
Lemma pauseSession_step cl sid now db t :
  pauses_before t db -> (t <= now)%Z ->
  pauses_before now (snd (pauseSession cl sid now db)) /\
  forall sid', (recorded_paused db sid'
                <= recorded_paused (snd (pauseSession cl sid now db)) sid')%Z.
Proof.
  intros Hinv Hle.
  eapply alter_session_step with (sid := sid); [| exact Hinv | exact Hle |].
  - unfold pauseSession. unfold_M.
    match goal with |- context [findSessionById sid ?d] =>
      destruct (findSessionById sid d) end; reflexivity.
  - intros s Hs. cbn beta.
    destruct (decide (s_status s = active)); cbn.
    + split; [lia |]. intros Tp [= <-]. lia.
    + split; [lia |]. intros Tp Hp. specialize (Hinv sid s Tp Hs Hp). lia.
Qed.

(** [resumeSession] adds [now - pausedAt], which is not negative. *)
Lemma resumeSession_step cl sid now db t :
  pauses_before t db -> (t <= now)%Z ->
  pauses_before now (snd (resumeSession cl sid now db)) /\
  forall sid', (recorded_paused db sid'
                <= recorded_paused (snd (resumeSession cl sid now db)) sid')%Z.
Proof.
  intros Hinv Hle.
  unfold resumeSession. unfold_M.
  destruct (sessions db !! sid) as [s|] eqn:Hs; cbn [mbind option_bind];
    [| apply (same_sessions_step db db t now); auto].
  destruct (decide (s_status s = paused));
    [| apply (same_sessions_step db db t now); auto].
  destruct (paused_at s) as [Tp0|] eqn:Hp0;
    [| apply (same_sessions_step db db t now); auto].
  cbn [snd].
  eapply alter_session_step with (sid := sid); [reflexivity | exact Hinv | exact Hle |].
  intros s' Hs'. rewrite Hs in Hs'. injection Hs' as <-. cbn.
  specialize (Hinv sid s Tp0 Hs Hp0).
  split; [lia | discriminate].
Qed.

(** [endSession] adds the open pause interval when the session is paused. *)
Lemma endSession_step cl sid now db t :
  pauses_before t db -> (t <= now)%Z ->
  pauses_before now (snd (endSession cl sid now db)) /\
  forall sid', (recorded_paused db sid'
                <= recorded_paused (snd (endSession cl sid now db)) sid')%Z.
Proof.
  intros Hinv Hle.
  unfold endSession. unfold_M.
  destruct (sessions db !! sid) as [s|] eqn:Hs;
    [| apply (same_sessions_step db db t now); auto].
  destruct (decide (s_status s = ended));
    [apply (same_sessions_step db db t now); auto |].
  destruct (cid ← console_id s; consoles db !! cid) as [c|];
    [| apply (same_sessions_step db db t now); auto].
  cbn [snd].
  eapply alter_session_step with (sid := sid); [reflexivity | exact Hinv | exact Hle |].
  intros s' Hs'. rewrite Hs in Hs'. injection Hs' as <-. cbn.
  split; [| discriminate].
  unfold totalPausedMs_at_end.
  destruct (s_status s); try lia.
  destruct (paused_at s) as [Tp|] eqn:Hp; [| lia].
  specialize (Hinv sid s Tp Hs Hp). lia.
Qed.

Lemma run_op_step cl op db t :
  pauses_before t db -> (t <= op_time op)%Z ->
  pauses_before (op_time op) (run_op cl op db) /\
  forall sid, (recorded_paused db sid <= recorded_paused (run_op cl op db) sid)%Z.
Proof.
  destruct op as [sid now | sid now | sid now]; cbn [op_time run_op].
  - apply pauseSession_step.
  - apply resumeSession_step.
  - apply endSession_step.
Qed.

Lemma run_ops_steps cl ops : forall db t,
  pauses_before t db -> clock_monotone t ops ->
  pauses_before (final_clock t ops) (run_ops cl ops db) /\
  forall sid, (recorded_paused db sid <= recorded_paused (run_ops cl ops db) sid)%Z.
Proof.
  unfold run_ops, final_clock.
  induction ops as [| op ops IH]; intros db t Hinv Hclock; cbn [foldl].
  - split; [exact Hinv | intros; lia].
  - destruct Hclock as [Hle Hclock].
    destruct (run_op_step cl op db t Hinv Hle) as [Hinv' Hmono].
    destruct (IH _ _ Hinv' Hclock) as [Hinv'' Hmono'].
    split; [exact Hinv'' |].
    intros sid. specialize (Hmono sid). specialize (Hmono' sid). lia.
Qed.

(** [resumeSession] on a paused session adds exactly [now - pausedAt]. *)
Lemma resumeSession_adds_pause_interval cl db sid s Tp now :
  sessions db !! sid = Some s -> s_status s = paused -> paused_at s = Some Tp ->
  recorded_paused (snd (resumeSession cl sid now db)) sid
  = (recorded_paused db sid + (now - Tp))%Z.
Proof.
  intros Hs Hst Hp. unfold resumeSession, recorded_paused. unfold_M.
  rewrite Hs. cbn [mbind option_bind].
  destruct (decide (s_status s = paused)); [| contradiction].
  rewrite Hp. cbn [snd sessions set_sessions].
  rewrite lookup_alter_eq, Hs. reflexivity.
Qed.

(** [endSession] on a session that is not ended adds exactly the open pause
    interval. *)
Lemma endSession_adds_open_pause cl db sid s cid c now :
  sessions db !! sid = Some s -> s_status s <> ended ->
  console_id s = Some cid -> consoles db !! cid = Some c ->
  recorded_paused (snd (endSession cl sid now db)) sid
  = (recorded_paused db sid + open_pause s now)%Z.
Proof.
  intros Hs Hst Hcid Hc. unfold endSession, recorded_paused. unfold_M.
  rewrite Hs. destruct (decide (s_status s = ended)); [contradiction |].
  rewrite Hcid. cbn [mbind option_bind]. rewrite Hc.
  cbn [snd sessions set_sessions set_consoles].
  rewrite lookup_alter_eq, Hs. cbn.
  unfold totalPausedMs_at_end, open_pause.
  destruct (s_status s); reflexivity.
Qed.

(** C8.  Let the clock never run backwards and let no recorded pause lie in
    the future.  Then along any sequence of pause, resume and end calls, on
    any sessions, the stored totalPausedDurationMs of every session never
    decreases: its value after a prefix of the sequence is at most its value
    after any longer prefix.  A resume adds the elapsed pause interval
    [now - pausedAt], an end adds the open pause interval of a paused
    session, and neither interval is negative. *)
Theorem total_paused_duration_never_decreases
    (cl : Client) (db : Db) (t0 : Z) :
  pauses_before t0 db ->
  (forall ops1 ops2 sid,
     clock_monotone t0 (ops1 ++ ops2) ->
     (recorded_paused (run_ops cl ops1 db) sid
      <= recorded_paused (run_ops cl (ops1 ++ ops2) db) sid)%Z) /\
  (forall sid s Tp now,
     sessions db !! sid = Some s -> s_status s = paused -> paused_at s = Some Tp ->
     (t0 <= now)%Z ->
     (0 <= now - Tp)%Z /\
     recorded_paused (run_op cl (OpResume sid now) db) sid
     = (recorded_paused db sid + (now - Tp))%Z) /\
  (forall sid s cid c now,
     sessions db !! sid = Some s -> s_status s <> ended ->
     console_id s = Some cid -> consoles db !! cid = Some c ->
     (t0 <= now)%Z ->
     (0 <= open_pause s now)%Z /\
     recorded_paused (run_op cl (OpEnd sid now) db) sid
     = (recorded_paused db sid + open_pause s now)%Z).
Proof.
  intros Hinv. split; [| split].
  - intros ops1 ops2 sid Hclock.
    apply clock_monotone_app in Hclock. destruct Hclock as [H1 H2].
    destruct (run_ops_steps cl ops1 db t0 Hinv H1) as [Hinv1 _].
    destruct (run_ops_steps cl ops2 _ _ Hinv1 H2) as [_ Hmono].
    unfold run_ops at 2. rewrite foldl_app. apply Hmono.
  - intros sid s Tp now Hs Hst Hp Hle. split.
    + specialize (Hinv sid s Tp Hs Hp). lia.
    + cbn [run_op]. eapply resumeSession_adds_pause_interval; eassumption.
  - intros sid s cid c now Hs Hst Hcid Hc Hle. split.
    + unfold open_pause. destruct (decide (s_status s = paused)); [| lia].
      destruct (paused_at s) as [Tp|] eqn:Hp; [| lia].
      specialize (Hinv sid s Tp Hs Hp). lia.
    + cbn [run_op]. eapply endSession_adds_open_pause; eassumption.
Qed.

(** From the sample session paused at minute 30: resume at 45, pause at 50,
    end at 75. *)
Lemma total_paused_duration_never_decreases_witness :
  (let ops1 := [OpResume "s1" 2700000] in
   let ops2 := [OpPause "s1" 3000000; OpEnd "s1" 4500000] in
   (recorded_paused (run_ops sqlite3 ops1 Sample.db_paused) "s1"
    <= recorded_paused (run_ops sqlite3 (ops1 ++ ops2) Sample.db_paused) "s1")%Z) /\
  ((0 <= 2700000 - 1800000)%Z /\
   recorded_paused (run_op sqlite3 (OpResume "s1" 2700000) Sample.db_paused) "s1"
   = (recorded_paused Sample.db_paused "s1" + (2700000 - 1800000))%Z) /\
  ((0 <= open_pause Sample.s1_paused 4500000)%Z /\
   recorded_paused (run_op sqlite3 (OpEnd "s1" 4500000) Sample.db_paused) "s1"
   = (recorded_paused Sample.db_paused "s1" + open_pause Sample.s1_paused 4500000)%Z).
Proof.
  assert (Hinv : pauses_before 1800000 Sample.db_paused).
  { intros sid s Tp Hs Hp.
    destruct (decide (sid = "s1")) as [-> | Hne].
    - vm_compute in Hs. injection Hs as <-. injection Hp as <-. lia.
    - unfold Sample.db_paused in Hs. cbn [sessions] in Hs.
      rewrite lookup_singleton_ne in Hs by congruence. discriminate Hs. }
  destruct (total_paused_duration_never_decreases sqlite3 Sample.db_paused 1800000
              Hinv) as (Hmono & Hresume & Hend).
  split; [| split].
  - apply Hmono. cbn. lia.
  - apply (Hresume "s1" Sample.s1_paused);
      [vm_compute; reflexivity | reflexivity | reflexivity | lia].
  - apply (Hend "s1" Sample.s1_paused "c1" (Sample.c1 in_use));
      [vm_compute; reflexivity | discriminate | reflexivity
       | vm_compute; reflexivity | lia].
Defined.

(** The two increments of the claim, evaluated on that run: the resume adds
    the 15 minutes of the first pause, the end adds the 25 minutes of the
    pause that is still open. *)
Example paused_time_increments :
  let ops1 := [OpPause "s1" 1800000; OpResume "s1" 2700000] in
  let ops2 := [OpPause "s1" 3000000; OpEnd "s1" 4500000] in
  recorded_paused Sample.db_active "s1" = 900000%Z /\
  recorded_paused (run_ops sqlite3 ops1 Sample.db_active) "s1" = 1800000%Z /\
  recorded_paused (run_ops sqlite3 (ops1 ++ ops2) Sample.db_active) "s1" = 3300000%Z.
Proof. vm_compute. auto. Qed.

(** ** C9: starting a session *)

Lemma Qle_bool_0_Qeq (x y : Q) : (x == y)%Q -> Qle_bool x 0 = Qle_bool y 0.
Proof.
  intros Hxy.
  destruct (Qle_bool x 0) eqn:Hx, (Qle_bool y 0) eqn:Hy; try reflexivity.
  - apply Qle_bool_iff in Hx. rewrite Hxy in Hx. apply Qle_bool_iff in Hx. congruence.
  - apply Qle_bool_iff in Hy. rewrite <- Hxy in Hy. apply Qle_bool_iff in Hy. congruence.
Qed.

(** [parseFloat(v || '0')] of a nullable decimal is the decimal, or 0. *)
Lemma decimal_or_0_default (cl : Client) (v : option Q) :
  (decimal_or cl v 0 == default 0 v)%Q.
Proof. destruct v as [r|]; [apply decimal_or_0 | reflexivity]. Qed.

(** C9.  [startSession] fails with the console-unavailable error whenever
    the console is missing or not available, whatever the requested mode; on
    an available console it fails with an unsupported-mode error when the
    rate of the requested mode is not positive; and when it succeeds, the
    store holds the new session, active, on that console in the requested
    mode, and the console is in use. *)
Theorem startSession_checks_console_then_mode
    (cl : Client) (db : Db) (consoleId : string) (mode : GamingMode)
    (ulid : string) (now : Z) :
  let result := startSession cl consoleId mode ulid now db in
  (consoles db !! consoleId = None \/
   (exists c, consoles db !! consoleId = Some c /\ c_status c <> available) ->
   result = (inl ConsoleNotAvailable, db)) /\
  (forall c,
     consoles db !! consoleId = Some c -> c_status c = available ->
     (start_rate c mode <= 0)%Q ->
     exists e, result = (inl e, db) /\ unsupported_mode e) /\
  (forall r db',
     result = (inr r, db') ->
     (exists v, r = Some v /\ status v = active /\ gamingMode v = mode) /\
     (exists s,
        sessions db' !! ("ses_" +:+ ulid) = Some s /\
        s_status s = active /\ console_id s = Some consoleId /\
        gaming_mode s = Some mode /\ start_time s = now) /\
     (exists c, consoles db' !! consoleId = Some c /\ c_status c = in_use)).
Proof.
  intros result. subst result. unfold startSession.
  split; [| split].
  - intros [Hnone | (c & Hc & Hst)]; apply transaction_error; unfold_M.
    + rewrite Hnone. reflexivity.
    + rewrite Hc. destruct (decide (c_status c ≠ available)); [reflexivity | contradiction].
  - intros c Hc Hst Hrate.
    destruct mode; cbn [start_rate] in Hrate.
    + exists NoValidHourlyRate. split; [| right; reflexivity].
      apply transaction_error. unfold_M. rewrite Hc.
      destruct (decide (c_status c ≠ available)); [contradiction |].
      rewrite bool_decide_eq_false_2 by discriminate. cbn [andb].
      rewrite (Qle_bool_0_Qeq _ _ (decimal_or_0 cl (hourly_rate c))).
      apply Qle_bool_iff in Hrate. rewrite Hrate. reflexivity.
    + exists No2v2RateConfigured. split; [| left; reflexivity].
      apply transaction_error. unfold_M. rewrite Hc.
      destruct (decide (c_status c ≠ available)); [contradiction |].
      rewrite bool_decide_eq_true_2 by reflexivity. cbn [andb].
      rewrite (Qle_bool_0_Qeq _ _ (decimal_or_0_default cl (hourly_rate_2v2 c))).
      apply Qle_bool_iff in Hrate. rewrite Hrate. reflexivity.
  - intros r db'. unfold transaction. unfold bind at 1. unfold query at 1.
    destruct (consoles db !! consoleId) as [c|] eqn:Hc; [| discriminate].
    destruct (decide (c_status c ≠ available)); [discriminate |].
    destruct (bool_decide (mode = mode_2v2)
              && Qle_bool (decimal_or cl (hourly_rate_2v2 c) 0) 0); [discriminate |].
    destruct (Qle_bool (decimal_or cl (Some (hourly_rate c)) 0) 0); [discriminate |].
    unfold_M. unfold insert_session. cbn [sessions set_consoles].
    destruct (sessions db !! ("ses_" +:+ ulid)) eqn:Hfresh; [discriminate |].
    unfold findSessionById. cbn [sessions set_sessions consoles].
    rewrite lookup_insert_eq. cbn [mbind option_bind console_id].
    cbn [consoles set_consoles set_sessions].
    rewrite lookup_alter_eq, Hc. cbn [fmap option_fmap option_map mbind option_bind].
    intros H. injection H as <- <-.
    split; [| split].
    + eexists. split; [reflexivity |]. cbn. split; [reflexivity |].
      destruct mode; reflexivity.
    + eexists. cbn [sessions set_sessions]. rewrite lookup_insert_eq.
      split; [reflexivity |]. cbn. auto.
    + eexists. cbn [consoles set_consoles set_sessions].
      rewrite lookup_alter_eq, Hc.
      split; reflexivity.
Qed.

(** Console c1 in use: refused whatever the mode.  Console c2 without a 2v2
    rate: 2v2 refused.  Console c1 available: a 2v2 session starts. *)
Lemma startSession_checks_console_then_mode_witness :
  startSession sqlite3 "c1" mode_2v2 "A" 0 Sample.db_active
  = (inl ConsoleNotAvailable, Sample.db_active) /\
  (exists e,
     startSession sqlite3 "c2" mode_2v2 "A" 0 Sample.db_idle = (inl e, Sample.db_idle) /\
     unsupported_mode e) /\
  (exists s c,
     sessions (snd (startSession sqlite3 "c1" mode_2v2 "A" 0 Sample.db_idle)) !! "ses_A"
     = Some s /\
     s_status s = active /\ gaming_mode s = Some mode_2v2 /\
     consoles (snd (startSession sqlite3 "c1" mode_2v2 "A" 0 Sample.db_idle)) !! "c1"
     = Some c /\
     c_status c = in_use).
Proof.
  split; [| split].
  - apply (startSession_checks_console_then_mode sqlite3 Sample.db_active "c1"
             mode_2v2 "A" 0).
    right. exists (Sample.c1 in_use). split; [vm_compute; reflexivity | discriminate].
  - apply (startSession_checks_console_then_mode sqlite3 Sample.db_idle "c2"
             mode_2v2 "A" 0) with (c := Sample.c2 available);
      [vm_compute; reflexivity | reflexivity | discriminate].
  - destruct (startSession_checks_console_then_mode sqlite3 Sample.db_idle "c1"
                mode_2v2 "A" 0) as (_ & _ & Hok).
    edestruct Hok as (_ & (s & Hs & Hst & _ & Hm & _) & (c & Hc & Hcs)).
    + vm_compute. reflexivity.
    + exists s, c. cbn [snd]. auto.
Defined.

(** * Further properties of the engines *)

(** ** What each operation writes *)

Lemma set_consoles_id (db : Db) : set_consoles (fun m => m) db = db.
Proof. destruct db. reflexivity. Qed.

Lemma startSession_effect cl cid m u now db :
  snd (startSession cl cid m u now db) = db \/
  exists c,
    consoles db !! cid = Some c /\ c_status c = available /\
    sessions db !! ("ses_" +:+ u) = None /\
    snd (startSession cl cid m u now db)
    = set_sessions
        (insert ("ses_" +:+ u)
                (mkSession (Some cid) now None active (Some 0%Z) None None (Some m)))
        (set_consoles
           (alter (fun c => mkConsole (c_name c) (c_type c) in_use
                              (hourly_rate c) (hourly_rate_2v2 c)) cid) db).
Proof.
  destruct (startSession cl cid m u now db) as [r db'] eqn:H. cbn [snd].
  revert H. unfold startSession, transaction. unfold bind at 1. unfold query at 1.
  destruct (consoles db !! cid) as [c|] eqn:Hc; [| intros [= _ <-]; left; reflexivity].
  destruct (decide (c_status c ≠ available)) as [| Hst];
    [intros [= _ <-]; left; reflexivity |].
  destruct (bool_decide (m = mode_2v2)
            && Qle_bool (decimal_or cl (hourly_rate_2v2 c) 0) 0);
    [intros [= _ <-]; left; reflexivity |].
  destruct (Qle_bool (decimal_or cl (Some (hourly_rate c)) 0) 0);
    [intros [= _ <-]; left; reflexivity |].
  unfold_M. unfold insert_session. cbn [sessions set_consoles].
  destruct (sessions db !! ("ses_" +:+ u)) eqn:Hfresh;
    [intros [= _ <-]; left; reflexivity |].
  intros [= _ <-].
  right. exists c. split; [reflexivity |]. split.
  - destruct (c_status c); try reflexivity; exfalso; apply Hst; discriminate.
  - split; reflexivity.
Qed.

Lemma pauseSession_effect cl sid now db :
  snd (pauseSession cl sid now db)
  = set_sessions
      (alter (fun s =>
                if decide (s_status s = active)
                then mkSession (console_id s) (start_time s) (end_time s) paused
                       (total_paused_duration s) (final_cost s) (Some now)
                       (gaming_mode s)
                else s) sid) db.
Proof.
  unfold pauseSession. unfold_M.
  match goal with |- context [findSessionById sid ?d] =>
    destruct (findSessionById sid d) end; reflexivity.
Qed.

Lemma resumeSession_effect cl sid now db :
  snd (resumeSession cl sid now db) = db \/
  exists s Tp,
    sessions db !! sid = Some s /\ s_status s = paused /\ paused_at s = Some Tp /\
    snd (resumeSession cl sid now db)
    = set_sessions
        (alter (fun s0 =>
                  mkSession (console_id s0) (start_time s0) (end_time s0) active
                    (Some (default 0 (total_paused_duration s) + (now - Tp))%Z)
                    (final_cost s0) None (gaming_mode s0)) sid) db.
Proof.
  destruct (resumeSession cl sid now db) as [r db'] eqn:H. cbn [snd].
  revert H. unfold resumeSession. unfold_M.
  destruct (sessions db !! sid) as [s|] eqn:Hs; cbn [mbind option_bind];
    [| intros [= _ <-]; left; reflexivity].
  destruct (decide (s_status s = paused)); [| intros [= _ <-]; left; reflexivity].
  destruct (paused_at s) as [Tp|] eqn:Hp; [| intros [= _ <-]; left; reflexivity].
  intros [= _ <-]. right. exists s, Tp. auto.
Qed.

Lemma endSession_effect cl sid now db :
  snd (endSession cl sid now db) = db \/
  exists s cid c,
    sessions db !! sid = Some s /\ s_status s <> ended /\
    console_id s = Some cid /\ consoles db !! cid = Some c /\
    snd (endSession cl sid now db)
    = set_consoles
        (alter (fun c => mkConsole (c_name c) (c_type c) available
                           (hourly_rate c) (hourly_rate_2v2 c)) cid)
        (set_sessions
           (alter (fun s0 =>
                     mkSession (console_id s0) (start_time s0) (Some now) ended
                       (Some (totalPausedMs_at_end s now))
                       (Some (toFixed2
                                (fmul (fdiv (inject_Z (Z.max 0 (now - start_time s
                                                         - totalPausedMs_at_end s now)))
                                            (inject_Z (1000 * 60 * 60)))
                                      (usedRate_at_end cl s c))))
                       None (gaming_mode s0)) sid) db).
Proof.
  destruct (endSession cl sid now db) as [r db'] eqn:H. cbn [snd].
  revert H. unfold endSession. unfold_M.
  destruct (sessions db !! sid) as [s|] eqn:Hs; [| intros [= _ <-]; left; reflexivity].
  destruct (decide (s_status s = ended)); [intros [= _ <-]; left; reflexivity |].
  destruct (console_id s) as [cid|] eqn:Hcid; cbn [mbind option_bind];
    [| intros [= _ <-]; left; reflexivity].
  destruct (consoles db !! cid) as [c|] eqn:Hc; [| intros [= _ <-]; left; reflexivity].
  intros [= _ <-]. right. exists s, cid, c. auto 10.
Qed.

Lemma updateSessionGamingMode_effect cl sid m db :
  snd (updateSessionGamingMode cl sid m db) = db \/
  exists s,
    sessions db !! sid = Some s /\ s_status s <> ended /\
    snd (updateSessionGamingMode cl sid m db)
    = set_sessions
        (alter (fun s0 =>
                  mkSession (console_id s0) (start_time s0) (end_time s0)
                    (s_status s0) (total_paused_duration s0) (final_cost s0)
                    (paused_at s0) (Some m)) sid) db.
Proof.
  destruct (updateSessionGamingMode cl sid m db) as [r db'] eqn:H. cbn [snd].
  revert H. unfold updateSessionGamingMode, session_with_console. unfold_M.
  destruct (sessions db !! sid) as [s|] eqn:Hs; cbn [mbind option_bind];
    [| intros [= _ <-]; left; reflexivity].
  destruct (console_id s) as [cid|]; cbn [mbind option_bind];
    [| intros [= _ <-]; left; reflexivity].
  destruct (consoles db !! cid) as [c|]; cbn [mbind option_bind];
    [| intros [= _ <-]; left; reflexivity].
  destruct (decide (s_status s = ended)); [intros [= _ <-]; left; reflexivity |].
  destruct (bool_decide (m = mode_2v2) && _); [intros [= _ <-]; left; reflexivity |].
  intros [= _ <-]. right. exists s. auto.
Qed.

Lemma addItemToSession_effect sid pid q now db :
  snd (addItemToSession sid pid q now db) = db \/
  exists s p,
    sessions db !! sid = Some s /\ s_status s <> ended /\
    products db !! pid = Some p /\ (q <= stock p)%Z /\
    snd (addItemToSession sid pid q now db)
    = set_session_items
        (fun l => l ++ [mkSessionItem (next_session_item_id db) sid pid q (price p)
                          (fmul (price p) (inject_Z q)) now now])
        (set_products
           (alter (fun p => mkProduct (p_name p) (p_description p) (p_category p)
                              (price p) (stock p - q)) pid) db).
Proof.
  destruct (addItemToSession sid pid q now db) as [r db'] eqn:H. cbn [snd].
  revert H. unfold addItemToSession, decrement_stock. unfold_M.
  destruct (sessions db !! sid) as [s|] eqn:Hs; [| intros [= _ <-]; left; reflexivity].
  destruct (decide (s_status s = ended)); [intros [= _ <-]; left; reflexivity |].
  destruct (products db !! pid) as [p|] eqn:Hp; [| intros [= _ <-]; left; reflexivity].
  destruct (stock p <? q)%Z eqn:E; [intros [= _ <-]; left; reflexivity |].
  apply Z.ltb_ge in E. intros [= _ <-]. right. exists s, p. auto 10.
Qed.

Lemma updateConsoleRates_effect cl cid r1 r2 db :
  snd (updateConsoleRates cl cid r1 r2 db) = db \/
  snd (updateConsoleRates cl cid r1 r2 db)
  = set_consoles
      (alter (fun c => mkConsole (c_name c) (c_type c) (c_status c)
                         (default (hourly_rate c) r1)
                         (match r2 with Some r => Some r | None => hourly_rate_2v2 c end))
             cid) db.
Proof.
  destruct (updateConsoleRates cl cid r1 r2 db) as [r db'] eqn:H. cbn [snd].
  revert H. unfold updateConsoleRates. unfold_M.
  destruct (decide (cid = EmptyString)); [intros [= _ <-]; left; reflexivity |].
  destruct (match r1 with Some r => negb (Qle_bool 0 r) | None => false end);
    [intros [= _ <-]; left; reflexivity |].
  destruct (match r2 with Some r => negb (Qle_bool 0 r) | None => false end);
    [intros [= _ <-]; left; reflexivity |].
  intros [= _ <-]. right. reflexivity.
Qed.

(** The cart loop never takes a stock count below zero and never adds or
    removes a product. *)
Lemma process_cart_stocks items : forall st acc db r db',
  process_cart items st acc db = (r, db') ->
  (stocks_nonneg db -> stocks_nonneg db') /\
  (forall pid, is_Some (products db' !! pid) <-> is_Some (products db !! pid)).
Proof.
  induction items as [| it items IH]; intros st acc db r db' H.
  - cbn in H. unfold_M. injection H as <- <-. tauto.
  - cbn [process_cart] in H. unfold_M. unfold decrement_stock in H. unfold_M.
    destruct (products db !! productId it) as [p|] eqn:Hp;
      [| injection H as <- <-; tauto].
    destruct (stock p <? quantity it)%Z eqn:E; [injection H as <- <-; tauto |].
    apply Z.ltb_ge in E. apply IH in H. cbn [products set_products] in H.
    destruct H as [Hnn Hdom]. split.
    + intros Hdb. apply Hnn. intros pid p' Hp'. cbn [products set_products] in Hp'.
      destruct (decide (productId it = pid)) as [<- | Hne].
      * rewrite lookup_alter_eq, Hp in Hp'. cbn in Hp'. injection Hp' as <-. cbn. lia.
      * rewrite lookup_alter_ne in Hp' by assumption. eapply Hdb; eassumption.
    + intros pid. rewrite Hdom. cbn [products set_products].
      destruct (decide (productId it = pid)) as [<- | Hne].
      * rewrite lookup_alter_eq, Hp. cbn. split; eauto.
      * rewrite lookup_alter_ne by assumption. tauto.
Qed.

(** A checkout either leaves the store alone or appends one receipt; the
    session and console tables are never written. *)
Lemma processCheckout_effect cl items pm sessionId mp u now db :
  let db' := snd (processCheckout cl items pm sessionId mp u now db) in
  db' = db \/
  (sessions db' = sessions db /\ consoles db' = consoles db /\
   (stocks_nonneg db -> stocks_nonneg db') /\
   exists row,
     receipts db' = receipts db ++ [row] /\
     r_session_id row = truthy_string sessionId /\
     forall sid, r_session_id row = Some sid ->
       (exists s, sessions db !! sid = Some s /\ s_status s = ended) /\
       receipt_for_session sid db = None).
Proof.
  intros db'. subst db'.
  destruct (processCheckout cl items pm sessionId mp u now db) as [[e|rcpt] db'] eqn:H.
  - left. pose proof (transaction_rollback
                        (processCheckout_body cl items pm sessionId mp u now) db e) as Hr.
    fold (processCheckout cl items pm sessionId mp u now) in Hr.
    rewrite H in Hr. apply Hr. reflexivity.
  - right. cbn [snd]. apply processCheckout_inv in H.
    destruct H as (charge & st & lines & dbc & row & Hch & Hcart & Hrs & _ & _ & _
                   & Hrec & Hprod & Hses & Hcon & _).
    pose proof (process_cart_frame _ _ _ _ _ _ Hcart) as (Hc' & Hs' & _ & Hr' & _).
    pose proof (process_cart_stocks _ _ _ _ _ _ Hcart) as [Hnn _].
    split; [congruence |]. split; [congruence |]. split.
    + intros Hdb pid p Hp. rewrite Hprod in Hp. eapply Hnn; eassumption.
    + exists row. split; [congruence |]. split; [assumption |].
      intros sid Hsid. rewrite Hrs in Hsid. rewrite Hsid in Hch.
      eapply session_charge_ok_inv. exact Hch.
Qed.

(** ** Invariants of the store *)

Lemma run_calls_invariant (cl : Client) (P : Db -> Prop) :
  (forall call db, P db -> P (run_call cl call db)) ->
  forall calls db, P db -> P (run_calls cl calls db).
Proof.
  intros Hstep calls. unfold run_calls.
  induction calls as [| call calls IH]; intros db HP; cbn [foldl]; auto.
Qed.

(** What a call does to the row of one session: nothing, or it creates the
    row (active, on an available console), or it rewrites a row that is not
    ended, keeping its console. *)
Lemma run_call_session_row cl call db sid :
  let db' := run_call cl call db in
  sessions db' !! sid = sessions db !! sid \/
  (sessions db !! sid = None /\
   exists s' cid c,
     sessions db' !! sid = Some s' /\ s_status s' = active /\
     console_id s' = Some cid /\ consoles db !! cid = Some c /\
     c_status c = available) \/
  (exists s s',
     sessions db !! sid = Some s /\ sessions db' !! sid = Some s' /\
     s_status s <> ended /\ console_id s' = console_id s).
Proof.
  intros db'. subst db'.
  destruct call as [cid m u now | sid0 now | sid0 now | sid0 now | sid0 m
                    | sid0 pid q now | rq | cid r1 r2]; cbn [run_call].
  - destruct (startSession_effect cl cid m u now db) as [-> | (c & Hc & Hst & Hfresh & ->)];
      [left; reflexivity |].
    cbn [sessions set_sessions set_consoles].
    destruct (decide ("ses_" +:+ u = sid)) as [<- | Hne].
    + right. left. split; [assumption |]. rewrite lookup_insert_eq.
      eexists _, cid, c. cbn. auto 10.
    + left. rewrite lookup_insert_ne by assumption. reflexivity.
  - rewrite pauseSession_effect. cbn [sessions set_sessions].
    destruct (decide (sid0 = sid)) as [<- | Hne];
      [| left; rewrite lookup_alter_ne by assumption; reflexivity].
    rewrite lookup_alter_eq.
    destruct (sessions db !! sid0) as [s|] eqn:Hs; [| left; reflexivity].
    cbn. destruct (decide (s_status s = active)) as [Hact |]; [| left; reflexivity].
    right. right. eexists s, _. split; [reflexivity |]. split; [reflexivity |].
    split; [rewrite Hact; discriminate | reflexivity].
  - destruct (resumeSession_effect cl sid0 now db) as [-> | (s & Tp & Hs & Hst & Hp & ->)];
      [left; reflexivity |].
    cbn [sessions set_sessions].
    destruct (decide (sid0 = sid)) as [<- | Hne];
      [| left; rewrite lookup_alter_ne by assumption; reflexivity].
    rewrite lookup_alter_eq, Hs. cbn.
    right. right. eexists s, _. split; [reflexivity |]. split; [reflexivity |].
    split; [rewrite Hst; discriminate | reflexivity].
  - destruct (endSession_effect cl sid0 now db)
      as [-> | (s & cid & c & Hs & Hst & Hcid & Hc & ->)]; [left; reflexivity |].
    cbn [sessions set_sessions set_consoles].
    destruct (decide (sid0 = sid)) as [<- | Hne];
      [| left; rewrite lookup_alter_ne by assumption; reflexivity].
    rewrite lookup_alter_eq, Hs. cbn.
    right. right. eexists s, _. split; [reflexivity |]. split; [reflexivity |].
    split; [assumption | reflexivity].
  - destruct (updateSessionGamingMode_effect cl sid0 m db) as [-> | (s & Hs & Hst & ->)];
      [left; reflexivity |].
    cbn [sessions set_sessions].
    destruct (decide (sid0 = sid)) as [<- | Hne];
      [| left; rewrite lookup_alter_ne by assumption; reflexivity].
    rewrite lookup_alter_eq, Hs. cbn.
    right. right. eexists s, _. split; [reflexivity |]. split; [reflexivity |].
    split; [assumption | reflexivity].
  - destruct (addItemToSession_effect sid0 pid q now db)
      as [-> | (s & p & _ & _ & _ & _ & ->)]; left; reflexivity.
  - pose proof (processCheckout_effect cl (rq_items rq) (rq_paymentMethod rq)
                  (rq_sessionId rq) (rq_manualConsolePrice rq) (rq_ulid rq)
                  (rq_now rq) db) as H.
    cbn zeta in H. destruct H as [-> | (Hs & _)]; left; [reflexivity |].
    rewrite Hs. reflexivity.
  - destruct (updateConsoleRates_effect cl cid r1 r2 db) as [-> | ->];
      left; reflexivity.
Qed.

(** One call leaves the row of an ended session as it is. *)
Lemma run_call_keeps_ended cl call db sid s :
  sessions db !! sid = Some s -> s_status s = ended ->
  sessions (run_call cl call db) !! sid = Some s.
Proof.
  intros Hs Hst.
  destruct (run_call_session_row cl call db sid)
    as [H | [(Hnone & _) | (s0 & s' & Hs0 & _ & Hne & _)]].
  - rewrite H. exact Hs.
  - rewrite Hs in Hnone. discriminate.
  - rewrite Hs in Hs0. injection Hs0 as <-. contradiction.
Qed.

(** X2.  Once a session is ended its row, with the stored finalCost, endTime
    and paused time, is never written again: it is the same after any
    sequence of calls to the session engine, the billing engine and the rate
    administration. *)
Theorem ended_session_is_immutable
    (cl : Client) (calls : list EngineCall) (db : Db) (sid : string) (s : SessionRow) :
  sessions db !! sid = Some s ->
  s_status s = ended ->
  sessions (run_calls cl calls db) !! sid = Some s.
Proof.
  intros Hs Hst.
  apply (run_calls_invariant cl (fun d => sessions d !! sid = Some s)); [| exact Hs].
  intros call d Hd. apply run_call_keeps_ended; assumption.
Qed.

Lemma ended_session_is_immutable_witness :
  sessions
    (run_calls sqlite3
       [CallPause "s1" 5000000; CallResume "s1" 5100000; CallEnd "s1" 5200000;
        CallChangeMode "s1" mode_2v2; CallAddItem "s1" "prod-1" 1 5300000;
        CallCheckout (mkCheckoutRequest [] "cash" (Some "s1") (Some 5%Q) "R1" 5400000);
        CallStart "c1" mode_1v1 "B" 5500000]
       Sample.db_ended) !! "s1"
  = Some Sample.s1_ended.
Proof.
  apply (ended_session_is_immutable sqlite3 _ Sample.db_ended "s1" Sample.s1_ended).
  - vm_compute. reflexivity.
  - reflexivity.
Defined.

(** *** Console exclusivity *)

(** A store whose rows that are not ended all come from rows of [db] that
    are not ended, on the same console, and whose available consoles were
    available in [db]. *)
Lemma console_exclusive_refine db db' :
  console_exclusive db ->
  (forall k s', sessions db' !! k = Some s' -> s_status s' <> ended ->
     exists s, sessions db !! k = Some s /\ console_id s' = console_id s /\
               s_status s <> ended) ->
  (forall cid c', consoles db' !! cid = Some c' ->
     exists c, consoles db !! cid = Some c /\
               (c_status c' = available -> c_status c = available)) ->
  console_exclusive db'.
Proof.
  intros [H1 H2] Hses Hcon. split.
  - intros k1 k2 s1 s2 cid Hne Hs1 Hs2 Hst1 Hst2 Hc1.
    destruct (Hses _ _ Hs1 Hst1) as (t1 & Ht1 & Hci1 & Hn1).
    destruct (Hses _ _ Hs2 Hst2) as (t2 & Ht2 & Hci2 & Hn2).
    rewrite Hci2. eapply (H1 k1 k2 t1 t2 cid); try eassumption. congruence.
  - intros k s cid c' Hs Hst Hcid Hc' Hav.
    destruct (Hses _ _ Hs Hst) as (t & Ht & Hci & Hn).
    destruct (Hcon _ _ Hc') as (c & Hc & Himp).
    eapply (H2 k t cid c); try eassumption; [congruence | auto].
Qed.

Lemma console_exclusive_alter_session f sid db :
  console_exclusive db ->
  (forall s, sessions db !! sid = Some s ->
     console_id (f s) = console_id s /\
     (s_status (f s) <> ended -> s_status s <> ended)) ->
  console_exclusive (set_sessions (alter f sid) db).
Proof.
  intros Hex Hf. apply (console_exclusive_refine db); [exact Hex | |].
  - intros k s' Hs' Hst. cbn [sessions set_sessions] in Hs'.
    destruct (decide (sid = k)) as [<- | Hne].
    + rewrite lookup_alter_eq in Hs'.
      destruct (sessions db !! sid) as [s|] eqn:Hs; [| discriminate].
      cbn in Hs'. injection Hs' as <-.
      destruct (Hf s eq_refl) as [Hc Hn]. eauto.
    + rewrite lookup_alter_ne in Hs' by assumption. eauto.
  - intros cid c' Hc'. cbn in Hc'. eauto.
Qed.

(** Any rewrite of a console on which no running session sits. *)
Lemma console_exclusive_free_console g cid db :
  console_exclusive db ->
  (forall k s, sessions db !! k = Some s -> s_status s <> ended ->
               console_id s <> Some cid) ->
  console_exclusive (set_consoles (alter g cid) db).
Proof.
  intros [H1 H2] Hfree. split.
  - exact H1.
  - intros k s cid0 c' Hs Hst Hcid Hc'. cbn [sessions consoles set_consoles] in *.
    destruct (decide (cid = cid0)) as [<- | Hne].
    + exfalso. eapply Hfree; eassumption.
    + rewrite lookup_alter_ne in Hc' by assumption. eapply H2; eassumption.
Qed.

(** A new session on a console that is on record as not available and on
    which no running session sits. *)
Lemma console_exclusive_insert new row cid db :
  console_exclusive db ->
  sessions db !! new = None ->
  console_id row = Some cid ->
  (forall k s, sessions db !! k = Some s -> s_status s <> ended ->
               console_id s <> Some cid) ->
  (forall c, consoles db !! cid = Some c -> c_status c <> available) ->
  console_exclusive (set_sessions (insert new row) db).
Proof.
  intros [H1 H2] Hfresh Hrow Hfree Hbusy. split.
  - intros k1 k2 s1 s2 cid0 Hne Hs1 Hs2 Hst1 Hst2 Hc1.
    cbn [sessions set_sessions] in Hs1, Hs2.
    destruct (decide (new = k1)) as [<- | Hn1]; destruct (decide (new = k2)) as [<- | Hn2].
    + contradiction.
    + rewrite lookup_insert_eq in Hs1. injection Hs1 as <-.
      rewrite lookup_insert_ne in Hs2 by assumption.
      rewrite Hrow in Hc1. injection Hc1 as <-. eapply Hfree; eassumption.
    + rewrite lookup_insert_eq in Hs2. injection Hs2 as <-.
      rewrite lookup_insert_ne in Hs1 by assumption.
      rewrite Hrow. intros [= <-]. eapply Hfree; eassumption.
    + rewrite lookup_insert_ne in Hs1, Hs2 by assumption.
      eapply (H1 k1 k2); eassumption.
  - intros k s cid0 c Hs Hst Hcid Hc. cbn [sessions consoles set_sessions] in *.
    destruct (decide (new = k)) as [<- | Hn].
    + rewrite lookup_insert_eq in Hs. injection Hs as <-.
      rewrite Hrow in Hcid. injection Hcid as <-. apply Hbusy. exact Hc.
    + rewrite lookup_insert_ne in Hs by assumption. eapply H2; eassumption.
Qed.

Lemma run_call_keeps_exclusive cl call db :
  console_exclusive db -> console_exclusive (run_call cl call db).
Proof.
  intros Hex.
  destruct call as [cid m u now | sid0 now | sid0 now | sid0 now | sid0 m
                    | sid0 pid q now | rq | cid r1 r2]; cbn [run_call].
  - destruct (startSession_effect cl cid m u now db) as [-> | (c & Hc & Hst & Hfresh & ->)];
      [exact Hex |].
    assert (Hfree : forall k s, sessions db !! k = Some s -> s_status s <> ended ->
                                console_id s <> Some cid).
    { intros k s Hs Hn Hcid. destruct Hex as [_ H2].
      apply (H2 k s cid c Hs Hn Hcid Hc Hst). }
    apply console_exclusive_insert with (cid := cid).
    + apply console_exclusive_free_console; assumption.
    + exact Hfresh.
    + reflexivity.
    + exact Hfree.
    + intros c'. cbn [consoles set_consoles]. rewrite lookup_alter_eq, Hc.
      cbn. intros [= <-]. cbn. discriminate.
  - rewrite pauseSession_effect. apply console_exclusive_alter_session; [exact Hex |].
    intros s Hs. destruct (decide (s_status s = active)) as [Hact |]; cbn.
    + split; [reflexivity |]. intros _. rewrite Hact. discriminate.
    + split; [reflexivity | auto].
  - destruct (resumeSession_effect cl sid0 now db) as [-> | (s & Tp & Hs & Hst & Hp & ->)];
      [exact Hex |].
    apply console_exclusive_alter_session; [exact Hex |].
    intros s' Hs'. rewrite Hs in Hs'. injection Hs' as <-. cbn.
    split; [reflexivity |]. intros _. rewrite Hst. discriminate.
  - destruct (endSession_effect cl sid0 now db)
      as [-> | (s & cid & c & Hs & Hst & Hcid & Hc & ->)]; [exact Hex |].
    apply console_exclusive_free_console.
    + apply console_exclusive_alter_session; [exact Hex |].
      intros s' Hs'. cbn. split; [reflexivity |]. intros H. exfalso. apply H. reflexivity.
    + intros k t Ht Hn Hcidt. cbn [sessions set_sessions] in Ht.
      destruct (decide (sid0 = k)) as [<- | Hne].
      * rewrite lookup_alter_eq, Hs in Ht. cbn in Ht. injection Ht as <-.
        apply Hn. reflexivity.
      * rewrite lookup_alter_ne in Ht by assumption.
        destruct Hex as [H1 _].
        apply (H1 sid0 k s t cid Hne Hs Ht Hst Hn Hcid Hcidt).
  - destruct (updateSessionGamingMode_effect cl sid0 m db) as [-> | (s & Hs & Hst & ->)];
      [exact Hex |].
    apply console_exclusive_alter_session; [exact Hex |].
    intros s' Hs'. cbn. auto.
  - destruct (addItemToSession_effect sid0 pid q now db)
      as [-> | (s & p & _ & _ & _ & _ & ->)]; [exact Hex |].
    apply (console_exclusive_refine db); [exact Hex | |]; cbn; eauto.
  - pose proof (processCheckout_effect cl (rq_items rq) (rq_paymentMethod rq)
                  (rq_sessionId rq) (rq_manualConsolePrice rq) (rq_ulid rq)
                  (rq_now rq) db) as H.
    cbn zeta in H. destruct H as [-> | (Hs & Hc & _)]; [exact Hex |].
    apply (console_exclusive_refine db); [exact Hex | |].
    + intros k s'. rewrite Hs. eauto.
    + intros k c'. rewrite Hc. eauto.
  - destruct (updateConsoleRates_effect cl cid r1 r2 db) as [-> | ->]; [exact Hex |].
    apply (console_exclusive_refine db); [exact Hex | |].
    + cbn. eauto.
    + intros k c'. cbn [consoles set_consoles].
      destruct (decide (cid = k)) as [<- | Hne].
      * rewrite lookup_alter_eq.
        destruct (consoles db !! cid) as [c|]; [| discriminate].
        cbn. intros [= <-]. cbn. eauto.
      * rewrite lookup_alter_ne by assumption. eauto.
Qed.

(** X1.  Console exclusivity is kept by every sequence of calls to the
    session engine, the billing engine and the rate administration: two
    sessions that are not ended never share a console, and no available
    console backs a session that is not ended. *)
Theorem console_exclusivity_is_kept
    (cl : Client) (calls : list EngineCall) (db : Db) :
  console_exclusive db -> console_exclusive (run_calls cl calls db).
Proof.
  apply run_calls_invariant. intros call d. apply run_call_keeps_exclusive.
Qed.

Lemma console_exclusivity_is_kept_witness :
  console_exclusive
    (run_calls sqlite3
       [CallStart "c1" mode_1v1 "A" 0; CallStart "c1" mode_2v2 "B" 10;
        CallStart "c2" mode_1v1 "C" 20; CallPause "ses_A" 30; CallEnd "ses_A" 40;
        CallStart "c1" mode_2v2 "D" 50]
       Sample.db_idle).
Proof.
  apply (console_exclusivity_is_kept sqlite3 _ Sample.db_idle).
  split.
  - intros sid1 sid2 s1 s2 cid _ Hs1. cbn in Hs1. rewrite lookup_empty in Hs1.
    discriminate Hs1.
  - intros sid s cid c Hs. cbn in Hs. rewrite lookup_empty in Hs. discriminate Hs.
Defined.

(** On that run the second start on c1 is refused while the first session
    runs, and c1 can be started again once it has ended. *)
Example exclusivity_run :
  let db1 := run_calls sqlite3 [CallStart "c1" mode_1v1 "A" 0] Sample.db_idle in
  fst (startSession sqlite3 "c1" mode_2v2 "B" 10 db1) = inl ConsoleNotAvailable /\
  let db2 := run_calls sqlite3 [CallEnd "ses_A" 40] db1 in
  s_status <$> sessions (snd (startSession sqlite3 "c1" mode_2v2 "D" 50 db2)) !! "ses_D"
  = Some active.
Proof. vm_compute. split; reflexivity. Qed.

(** *** Stock counts *)

Lemma run_call_keeps_stocks_nonneg cl call db :
  stocks_nonneg db -> stocks_nonneg (run_call cl call db).
Proof.
  intros Hnn.
  destruct call as [cid m u now | sid0 now | sid0 now | sid0 now | sid0 m
                    | sid0 pid q now | rq | cid r1 r2]; cbn [run_call].
  - destruct (startSession_effect cl cid m u now db) as [-> | (c & _ & _ & _ & ->)];
      exact Hnn.
  - rewrite pauseSession_effect. exact Hnn.
  - destruct (resumeSession_effect cl sid0 now db) as [-> | (s & Tp & _ & _ & _ & ->)];
      exact Hnn.
  - destruct (endSession_effect cl sid0 now db)
      as [-> | (s & cid & c & _ & _ & _ & _ & ->)]; exact Hnn.
  - destruct (updateSessionGamingMode_effect cl sid0 m db) as [-> | (s & _ & _ & ->)];
      exact Hnn.
  - destruct (addItemToSession_effect sid0 pid q now db)
      as [-> | (s & p & _ & _ & Hp & Hq & ->)]; [exact Hnn |].
    intros k p' Hp'. cbn [products set_products set_session_items] in Hp'.
    destruct (decide (pid = k)) as [<- | Hne].
    + rewrite lookup_alter_eq, Hp in Hp'. cbn in Hp'. injection Hp' as <-. cbn. lia.
    + rewrite lookup_alter_ne in Hp' by assumption. eapply Hnn; eassumption.
  - pose proof (processCheckout_effect cl (rq_items rq) (rq_paymentMethod rq)
                  (rq_sessionId rq) (rq_manualConsolePrice rq) (rq_ulid rq)
                  (rq_now rq) db) as H.
    cbn zeta in H. destruct H as [-> | (_ & _ & H & _)]; auto.
  - destruct (updateConsoleRates_effect cl cid r1 r2 db) as [-> | ->]; exact Hnn.
Qed.

(** X3.  No sequence of calls takes a stock count below zero, whatever the
    quantities asked for (negative ones included). *)
Theorem stock_is_never_negative
    (cl : Client) (calls : list EngineCall) (db : Db) :
  stocks_nonneg db -> stocks_nonneg (run_calls cl calls db).
Proof.
  apply run_calls_invariant. intros call d. apply run_call_keeps_stocks_nonneg.
Qed.

Lemma stock_is_never_negative_witness :
  stocks_nonneg
    (run_calls sqlite3
       [CallAddItem "s1" "prod-2" 2 10; CallAddItem "s1" "prod-2" 1 20;
        CallAddItem "s1" "prod-1" (-3) 30;
        CallCheckout (mkCheckoutRequest [mkCartItem "prod-1" 48; mkCartItem "prod-1" 1]
                        "cash" None None "R1" 40)]
       Sample.db_active).
Proof.
  apply (stock_is_never_negative sqlite3 _ Sample.db_active).
  intros pid p Hp. cbn [products Sample.db_active] in Hp. unfold Sample.catalog in Hp.
  destruct (decide (pid = "prod-1")) as [-> | H1].
  - vm_compute in Hp. injection Hp as <-. cbn. lia.
  - rewrite lookup_insert_ne in Hp by congruence.
    destruct (decide (pid = "prod-2")) as [-> | H2].
    + vm_compute in Hp. injection Hp as <-. cbn. lia.
    + rewrite lookup_singleton_ne in Hp by congruence. discriminate Hp.
Defined.

(** *** Receipts *)

Lemma receipts_of_session_length_0 sid db :
  receipt_for_session sid db = None -> length (receipts_of_session sid db) = 0%nat.
Proof. intros H. apply receipt_for_session_None in H. rewrite H. reflexivity. Qed.

Lemma run_call_keeps_receipts_sound cl call db :
  receipts_sound db -> receipts_sound (run_call cl call db).
Proof.
  intros [Hend Hone].
  assert (Hsame : receipts (run_call cl call db) = receipts db ->
                  receipts_sound (run_call cl call db)).
  { intros Hr. split.
    - intros r sid Hin Hsid. rewrite Hr in Hin.
      destruct (Hend r sid Hin Hsid) as (s & Hs & Hst).
      exists s. split; [| exact Hst]. apply run_call_keeps_ended; assumption.
    - intros sid. unfold receipts_of_session. rewrite Hr. apply Hone. }
  destruct call as [cid m u now | sid0 now | sid0 now | sid0 now | sid0 m
                    | sid0 pid q now | rq | cid r1 r2]; cbn [run_call] in *.
  - apply Hsame.
    destruct (startSession_effect cl cid m u now db) as [-> | (c & _ & _ & _ & ->)];
      reflexivity.
  - apply Hsame. rewrite pauseSession_effect. reflexivity.
  - apply Hsame.
    destruct (resumeSession_effect cl sid0 now db) as [-> | (s & Tp & _ & _ & _ & ->)];
      reflexivity.
  - apply Hsame.
    destruct (endSession_effect cl sid0 now db)
      as [-> | (s & cid & c & _ & _ & _ & _ & ->)]; reflexivity.
  - apply Hsame.
    destruct (updateSessionGamingMode_effect cl sid0 m db) as [-> | (s & _ & _ & ->)];
      reflexivity.
  - apply Hsame.
    destruct (addItemToSession_effect sid0 pid q now db)
      as [-> | (s & p & _ & _ & _ & _ & ->)]; reflexivity.
  - pose proof (processCheckout_effect cl (rq_items rq) (rq_paymentMethod rq)
                  (rq_sessionId rq) (rq_manualConsolePrice rq) (rq_ulid rq)
                  (rq_now rq) db) as H.
    cbn zeta in H.
    destruct H as [Heq | (Hs & _ & _ & row & Hr & _ & Hrow)];
      [apply Hsame; rewrite Heq; reflexivity |].
    split.
    + intros r sid Hin Hsid. rewrite Hs. rewrite Hr in Hin.
      apply in_app_or in Hin. destruct Hin as [Hin | [<- | []]].
      * eapply Hend; eassumption.
      * apply (Hrow sid Hsid).
    + intros sid. unfold receipts_of_session. rewrite Hr, filter_app, length_app.
      rewrite filter_cons.
      destruct (decide (r_session_id row = Some sid)) as [E | _].
      * destruct (Hrow sid E) as [_ Hnone].
        apply receipts_of_session_length_0 in Hnone.
        unfold receipts_of_session in Hnone. rewrite Hnone. cbn. lia.
      * cbn. specialize (Hone sid). unfold receipts_of_session in Hone. lia.
  - apply Hsame.
    destruct (updateConsoleRates_effect cl cid r1 r2 db) as [-> | ->]; reflexivity.
Qed.

(** X4.  Along every sequence of calls, every receipt that names a session
    names an ended session, and no session is named by two receipts. *)
Theorem receipts_stay_sound
    (cl : Client) (calls : list EngineCall) (db : Db) :
  receipts_sound db -> receipts_sound (run_calls cl calls db).
Proof.
  apply run_calls_invariant. intros call d. apply run_call_keeps_receipts_sound.
Qed.

Lemma receipts_stay_sound_witness :
  receipts_sound
    (run_calls sqlite3
       [CallCheckout (mkCheckoutRequest [] "cash" (Some "s1") None "R1" 10);
        CallEnd "s1" 4500000;
        CallCheckout (mkCheckoutRequest [] "cash" (Some "s1") None "R2" 4600000);
        CallCheckout (mkCheckoutRequest [] "card" (Some "s1") (Some 1%Q) "R3" 4700000)]
       Sample.db_active).
Proof.
  apply (receipts_stay_sound sqlite3 _ Sample.db_active).
  split.
  - intros r sid [].
  - intros sid. cbn. lia.
Defined.

(** ** Pause and resume *)

(** X5.  [resumeSession] commits exactly when the session is on record as
    paused with a recorded pausedAt.  It then makes the session active,
    clears pausedAt, adds [now - pausedAt] to the paused time and leaves
    every other column alone; in every other case it throws 'Paused session
    not found.' and writes nothing. *)
Theorem resumeSession_outcome
    (cl : Client) (db : Db) (sid : string) (now : Z) :
  let result := resumeSession cl sid now db in
  ((exists r, fst result = inr r) <->
   (exists s Tp, sessions db !! sid = Some s /\ s_status s = paused /\
                 paused_at s = Some Tp)) /\
  (forall e, fst result = inl e -> e = PausedSessionNotFound /\ snd result = db) /\
  (forall s Tp,
     sessions db !! sid = Some s -> s_status s = paused -> paused_at s = Some Tp ->
     sessions (snd result) !! sid
     = Some (mkSession (console_id s) (start_time s) (end_time s) active
               (Some (default 0 (total_paused_duration s) + (now - Tp))%Z)
               (final_cost s) None (gaming_mode s))).
Proof.
  intros result. subst result. unfold resumeSession. unfold_M.
  destruct (sessions db !! sid) as [s|] eqn:Hs; cbn [mbind option_bind].
  - destruct (decide (s_status s = paused)) as [Hst | Hst].
    + destruct (paused_at s) as [Tp|] eqn:Hp; cbn [fst snd].
      * split; [| split].
        -- split; [intros _; eauto | intros _; eauto].
        -- intros e H. discriminate H.
        -- intros s' Tp' [= <-] _ H. rewrite Hp in H. injection H as <-.
           cbn [sessions set_sessions].
           rewrite lookup_alter_eq, Hs. reflexivity.
      * split; [| split].
        -- split; [intros [r H]; discriminate H |].
           intros (s' & Tp & [= <-] & _ & H). congruence.
        -- intros e [= <-]. auto.
        -- intros s' Tp' [= <-] _ H. congruence.
    + cbn [fst snd]. split; [| split].
      * split; [intros [r H]; discriminate H |].
        intros (s' & Tp & [= <-] & H & _). contradiction.
      * intros e [= <-]. auto.
      * intros s' Tp' [= <-] H. contradiction.
  - cbn [fst snd]. split; [| split].
    + split; [intros [r H]; discriminate H |].
      intros (s' & Tp & H & _). discriminate H.
    + intros e [= <-]. auto.
    + intros s' Tp' H. discriminate H.
Qed.

Lemma resumeSession_outcome_witness :
  (exists r, fst (resumeSession sqlite3 "s1" 2700000 Sample.db_paused) = inr r) /\
  sessions (snd (resumeSession sqlite3 "s1" 2700000 Sample.db_paused)) !! "s1"
  = Some (mkSession (Some "c1") 0 None active (Some (0 + (2700000 - 1800000))%Z)
            None None (Some mode_1v1)) /\
  snd (resumeSession sqlite3 "nobody" 2700000 Sample.db_paused) = Sample.db_paused.
Proof.
  destruct (resumeSession_outcome sqlite3 Sample.db_paused "s1" 2700000)
    as (Hiff & _ & Hrow).
  destruct (resumeSession_outcome sqlite3 Sample.db_paused "nobody" 2700000)
    as (_ & Herr & _).
  split; [| split].
  - apply Hiff. exists Sample.s1_paused, 1800000%Z.
    split; [vm_compute; reflexivity | split; reflexivity].
  - apply (Hrow Sample.s1_paused 1800000%Z); [vm_compute |..]; reflexivity.
  - apply (Herr PausedSessionNotFound). vm_compute. reflexivity.
Defined.

(** X6.  [pauseSession] on an active session whose console is on record
    returns the session as paused since [now]; in the store only the status
    and pausedAt of that row change.  On an id that names no session it
    throws 'Active session not found or already paused.' and writes
    nothing. *)
Theorem pauseSession_from_active
    (cl : Client) (db : Db) (sid : string) (now : Z) :
  (forall s cid c,
     sessions db !! sid = Some s -> s_status s = active ->
     console_id s = Some cid -> consoles db !! cid = Some c ->
     exists v db',
       pauseSession cl sid now db = (inr (Some v), db') /\
       status v = paused /\ pausedAt v = Some now /\
       totalPausedDuration v = total_paused_duration s /\
       sessions db' !! sid
       = Some (mkSession (console_id s) (start_time s) (end_time s) paused
                 (total_paused_duration s) (final_cost s) (Some now) (gaming_mode s)) /\
       (forall sid', sid' <> sid -> sessions db' !! sid' = sessions db !! sid') /\
       consoles db' = consoles db /\ products db' = products db /\
       receipts db' = receipts db /\ session_items db' = session_items db /\
       receipt_items db' = receipt_items db) /\
  (sessions db !! sid = None ->
   pauseSession cl sid now db = (inl ActiveSessionNotFound, db)).
Proof.
  split.
  - intros s cid c Hs Hst Hcid Hc.
    unfold pauseSession. unfold_M. unfold findSessionById.
    cbn [sessions set_sessions consoles].
    rewrite lookup_alter_eq, Hs. cbn [fmap option_fmap option_map mbind option_bind].
    destruct (decide (s_status s = active)); [| contradiction].
    cbn [console_id]. rewrite Hcid. cbn [mbind option_bind]. rewrite Hc.
    cbn [mbind option_bind].
    eexists _, _. split; [reflexivity |]. cbn.
    rewrite lookup_alter_eq, Hs. cbn.
    destruct (decide (s_status s = active)); [| contradiction].
    repeat split; try reflexivity; try congruence.
    intros sid' Hne. rewrite lookup_alter_ne by congruence. reflexivity.
  - intros Hnone. unfold pauseSession. unfold_M.
    assert (Hdb : set_sessions
                    (alter (fun s0 =>
                              if decide (s_status s0 = active)
                              then mkSession (console_id s0) (start_time s0)
                                     (end_time s0) paused (total_paused_duration s0)
                                     (final_cost s0) (Some now) (gaming_mode s0)
                              else s0) sid) db = db).
    { rewrite <- (set_sessions_id db) at 2. unfold set_sessions. f_equal.
      apply alter_id. intros x Hx. rewrite Hnone in Hx. discriminate. }
    rewrite Hdb. unfold findSessionById. rewrite Hnone. reflexivity.
Qed.

Lemma pauseSession_from_active_witness :
  (exists v db',
     pauseSession sqlite3 "s1" 3000000 Sample.db_active = (inr (Some v), db') /\
     status v = paused /\ pausedAt v = Some 3000000%Z) /\
  pauseSession sqlite3 "nobody" 3000000 Sample.db_active
  = (inl ActiveSessionNotFound, Sample.db_active).
Proof.
  destruct (pauseSession_from_active sqlite3 Sample.db_active "s1" 3000000) as [Hok _].
  destruct (pauseSession_from_active sqlite3 Sample.db_active "nobody" 3000000)
    as [_ Herr].
  split.
  - destruct (Hok Sample.s1_active "c1" (Sample.c1 in_use))
      as (v & db' & H & Hst & Hp & _);
      [vm_compute; reflexivity | reflexivity | reflexivity | vm_compute; reflexivity |].
    exists v, db'. auto.
  - apply Herr. vm_compute. reflexivity.
Defined.

(** X7.  [pauseSession] does not run in a transaction: on an active session
    whose console row cannot be joined (deleted console), the UPDATE has
    already paused the session when the call throws 'Active session not
    found or already paused.'. *)
Theorem pauseSession_throws_after_writing
    (cl : Client) (db : Db) (sid : string) (s : SessionRow) (now : Z) :
  sessions db !! sid = Some s ->
  s_status s = active ->
  (forall cid, console_id s = Some cid -> consoles db !! cid = None) ->
  fst (pauseSession cl sid now db) = inl ActiveSessionNotFound /\
  sessions (snd (pauseSession cl sid now db)) !! sid
  = Some (mkSession (console_id s) (start_time s) (end_time s) paused
            (total_paused_duration s) (final_cost s) (Some now) (gaming_mode s)).
Proof.
  intros Hs Hst Hgone.
  unfold pauseSession. unfold_M. unfold findSessionById.
  cbn [sessions set_sessions consoles].
  rewrite lookup_alter_eq, Hs. cbn [fmap option_fmap option_map mbind option_bind].
  destruct (decide (s_status s = active)); [| contradiction].
  cbn [console_id].
  destruct (console_id s) as [cid|] eqn:Hcid; cbn [mbind option_bind].
  - rewrite (Hgone cid eq_refl). cbn. rewrite lookup_alter_eq, Hs. cbn.
    destruct (decide (s_status s = active)); [| contradiction].
    rewrite Hcid. auto.
  - cbn. rewrite lookup_alter_eq, Hs. cbn.
    destruct (decide (s_status s = active)); [| contradiction].
    rewrite Hcid. auto.
Qed.

(** ** Changing the gaming mode *)

Lemma Qle_bool_0_false (x : Q) : Qle_bool x 0 = false <-> (0 < x)%Q.
Proof.
  split.
  - intros H. apply Qnot_le_lt. intros Hle. apply Qle_bool_iff in Hle. congruence.
  - intros H. destruct (Qle_bool x 0) eqn:E; [| reflexivity].
    apply Qle_bool_iff in E. exfalso. apply (Qlt_not_le _ _ H E).
Qed.

(** The guard of [updateSessionGamingMode] (and of [startSession]) on the
    2v2 rate. *)
Lemma mode_guard cl (m : GamingMode) (c : ConsoleRow) :
  bool_decide (m = mode_2v2) && Qle_bool (decimal_or cl (hourly_rate_2v2 c) 0) 0 = false
  <-> (m = mode_2v2 -> (0 < default 0 (hourly_rate_2v2 c))%Q).
Proof.
  rewrite (Qle_bool_0_Qeq _ _ (decimal_or_0_default cl (hourly_rate_2v2 c))).
  destruct m.
  - rewrite bool_decide_eq_false_2 by discriminate. cbn. split; [discriminate | auto].
  - rewrite bool_decide_eq_true_2 by reflexivity. cbn [andb].
    rewrite Qle_bool_0_false. split; auto.
Qed.

(** X8.  [updateSessionGamingMode] commits exactly when the session is on
    record with its console, is not ended, and, for 2v2, the console has a
    positive 2v2 rate (the base rate is not looked at).  It then rewrites
    the gaming mode of that row and nothing else; when it throws, the store
    is as before. *)
Theorem updateSessionGamingMode_outcome
    (cl : Client) (db : Db) (sid : string) (m : GamingMode) :
  let result := updateSessionGamingMode cl sid m db in
  ((exists r, fst result = inr r) <->
   (exists s cid c,
      sessions db !! sid = Some s /\ console_id s = Some cid /\
      consoles db !! cid = Some c /\ s_status s <> ended /\
      (m = mode_2v2 -> (0 < default 0 (hourly_rate_2v2 c))%Q))) /\
  (forall e, fst result = inl e -> snd result = db) /\
  (forall r s,
     fst result = inr r -> sessions db !! sid = Some s ->
     sessions (snd result) !! sid
     = Some (mkSession (console_id s) (start_time s) (end_time s) (s_status s)
               (total_paused_duration s) (final_cost s) (paused_at s) (Some m)) /\
     (forall sid', sid' <> sid -> sessions (snd result) !! sid' = sessions db !! sid') /\
     consoles (snd result) = consoles db /\ products (snd result) = products db /\
     receipts (snd result) = receipts db).
Proof.
  intros result. subst result.
  unfold updateSessionGamingMode, session_with_console. unfold_M.
  destruct (sessions db !! sid) as [s|] eqn:Hs; cbn [mbind option_bind].
  2:{ cbn [fst snd]. split; [| split].
      - split; [intros [r H]; discriminate H |].
        intros (s & cid & c & H & _). discriminate H.
      - reflexivity.
      - intros r s H. discriminate H. }
  destruct (console_id s) as [cid|] eqn:Hcid; cbn [mbind option_bind].
  2:{ cbn [fst snd]. split; [| split].
      - split; [intros [r H]; discriminate H |].
        intros (s' & cid & c & [= <-] & H & _). congruence.
      - reflexivity.
      - intros r s' H. discriminate H. }
  destruct (consoles db !! cid) as [c|] eqn:Hc; cbn [mbind option_bind].
  2:{ cbn [fst snd]. split; [| split].
      - split; [intros [r H]; discriminate H |].
        intros (s' & cid' & c & [= <-] & H1 & H2 & _). congruence.
      - reflexivity.
      - intros r s' H. discriminate H. }
  destruct (decide (s_status s = ended)) as [Hst | Hst].
  { cbn [fst snd]. split; [| split].
    - split; [intros [r H]; discriminate H |].
      intros (s' & cid' & c' & [= <-] & _ & _ & H & _). contradiction.
    - reflexivity.
    - intros r s' H. discriminate H. }
  destruct (bool_decide (m = mode_2v2) && Qle_bool (decimal_or cl (hourly_rate_2v2 c) 0) 0)
    eqn:Hg.
  { cbn [fst snd]. split; [| split].
    - split; [intros [r H]; discriminate H |].
      intros (s' & cid' & c' & [= <-] & H1 & H2 & _ & H).
      rewrite Hcid in H1. injection H1 as <-. rewrite Hc in H2. injection H2 as <-.
      apply (mode_guard cl) in H. congruence.
    - reflexivity.
    - intros r s' H. discriminate H. }
  cbn [fst snd]. split; [| split].
  - split; [| eauto]. intros _. exists s, cid, c.
    repeat split; try assumption. apply (mode_guard cl). exact Hg.
  - intros e H. discriminate H.
  - intros r s' _ [= <-]. cbn [sessions set_sessions consoles products receipts].
    rewrite lookup_alter_eq, Hs. repeat split; try reflexivity.
    intros sid' Hne. rewrite lookup_alter_ne by congruence. reflexivity.
Qed.

Lemma updateSessionGamingMode_outcome_witness :
  (exists r, fst (updateSessionGamingMode sqlite3 "s1" mode_2v2 Sample.db_active) = inr r) /\
  snd (updateSessionGamingMode sqlite3 "s2" mode_2v2 Sample.db_2v2) = Sample.db_2v2 /\
  gaming_mode <$>
    sessions (snd (updateSessionGamingMode sqlite3 "s2" mode_1v1 Sample.db_2v2)) !! "s2"
  = Some (Some mode_1v1).
Proof.
  destruct (updateSessionGamingMode_outcome sqlite3 Sample.db_active "s1" mode_2v2)
    as (Hiff & _ & _).
  destruct (updateSessionGamingMode_outcome sqlite3 Sample.db_2v2 "s2" mode_2v2)
    as (_ & Herr & _).
  destruct (updateSessionGamingMode_outcome sqlite3 Sample.db_2v2 "s2" mode_1v1)
    as (_ & _ & Hrow).
  split; [| split].
  - apply Hiff. exists Sample.s1_active, "c1", (Sample.c1 in_use).
    split; [vm_compute; reflexivity |]. split; [reflexivity |].
    split; [vm_compute; reflexivity |]. split; [discriminate |].
    intros _. reflexivity.
  - apply (Herr ConsoleNo2v2Mode). vm_compute. reflexivity.
  - edestruct (Hrow) as [H _]; [vm_compute; reflexivity | vm_compute; reflexivity |].
    rewrite H. reflexivity.
Defined.

(** ** Ending, previewing and re-deriving the cost *)

(** For a mode the console supports, the rate billed is the stored rate of
    that mode. *)
Lemma console_rate_start_rate cl c m :
  (m = mode_2v2 -> (0 < default 0 (hourly_rate_2v2 c))%Q) ->
  console_rate cl c (Some m) = start_rate c m.
Proof.
  destruct m; [reflexivity |]. intros H. specialize (H eq_refl).
  unfold console_rate, start_rate.
  destruct (hourly_rate_2v2 c) as [r2|]; cbn [default] in *.
  - destruct cl; [| reflexivity].
    destruct (Qeq_bool r2 0) eqn:E; [| reflexivity].
    apply Qeq_bool_iff in E. rewrite E in H. destruct (Qlt_irrefl _ H).
  - destruct (Qlt_irrefl _ H).
Qed.

(** X9.  A mode change reprices the whole session: after a committed change
    to mode [m], ending the session stores the cost of its entire active
    time at the console's stored rate for [m], whatever mode it ran in
    before. *)
Theorem mode_change_reprices_whole_session
    (cl : Client) (db : Db) (sid cid : string) (s : SessionRow) (c : ConsoleRow)
    (m : GamingMode) (now : Z) (r : option Session) :
  sessions db !! sid = Some s ->
  console_id s = Some cid ->
  consoles db !! cid = Some c ->
  fst (updateSessionGamingMode cl sid m db) = inr r ->
  let db1 := snd (updateSessionGamingMode cl sid m db) in
  let db2 := snd (endSession cl sid now db1) in
  exists s',
    sessions db2 !! sid = Some s' /\ s_status s' = ended /\
    final_cost s' = Some (cost_if_ended_now cl s c m now) /\
    console_rate cl c (Some m) = start_rate c m.
Proof.
  intros Hs Hcid Hc Hok db1 db2.
  assert (Hpre : s_status s <> ended /\
                 (m = mode_2v2 -> (0 < default 0 (hourly_rate_2v2 c))%Q) /\
                 db1 = set_sessions
                         (alter (fun s0 =>
                                   mkSession (console_id s0) (start_time s0)
                                     (end_time s0) (s_status s0)
                                     (total_paused_duration s0) (final_cost s0)
                                     (paused_at s0) (Some m)) sid) db).
  { subst db1. revert Hok.
    unfold updateSessionGamingMode, session_with_console. unfold_M.
    rewrite Hs. cbn [mbind option_bind]. rewrite Hcid. cbn [mbind option_bind].
    rewrite Hc. cbn [mbind option_bind].
    destruct (decide (s_status s = ended)); [discriminate |].
    destruct (bool_decide (m = mode_2v2)
              && Qle_bool (decimal_or cl (hourly_rate_2v2 c) 0) 0) eqn:Hg;
      [discriminate |].
    intros _. split; [assumption |]. split; [| reflexivity].
    apply (mode_guard cl). exact Hg. }
  destruct Hpre as (Hst & Hrate & Hdb1).
  set (s1 := mkSession (console_id s) (start_time s) (end_time s) (s_status s)
               (total_paused_duration s) (final_cost s) (paused_at s) (Some m)).
  assert (Hs1 : sessions db1 !! sid = Some s1).
  { rewrite Hdb1. cbn [sessions set_sessions]. rewrite lookup_alter_eq, Hs. reflexivity. }
  assert (Hc1 : consoles db1 !! cid = Some c) by (rewrite Hdb1; exact Hc).
  destruct (endSession_commits cl db1 sid cid s1 c now Hs1 Hst Hcid Hc1) as [_ Hdb2].
  clearbody db1. subst db2. rewrite Hdb2. cbn [sessions set_sessions set_consoles].
  rewrite lookup_alter_eq, Hs1. cbn [fmap option_fmap option_map].
  eexists. split; [reflexivity |]. split; [reflexivity |].
  split; [| apply console_rate_start_rate; exact Hrate].
  cbn [final_cost]. f_equal. apply (end_cost_is_billed_cost cl s1 c now).
Qed.

(** A 1v1 session on c1 (8 / 12) with one billable hour at minute 75 is
    switched to 2v2 and ended: it is billed 12.00, not 8.00. *)
Lemma mode_change_reprices_whole_session_witness :
  exists s',
    sessions (snd (endSession sqlite3 "s1" 4500000
                     (snd (updateSessionGamingMode sqlite3 "s1" mode_2v2
                             Sample.db_active)))) !! "s1" = Some s' /\
    s_status s' = ended /\
    final_cost s' = Some (1200 # 100)%Q.
Proof.
  destruct (fst (updateSessionGamingMode sqlite3 "s1" mode_2v2 Sample.db_active))
    as [e | r] eqn:Hrun; [vm_compute in Hrun; discriminate Hrun |].
  destruct (mode_change_reprices_whole_session sqlite3 Sample.db_active "s1" "c1"
              Sample.s1_active (Sample.c1 in_use) mode_2v2 4500000 r)
    as (s' & H1 & H2 & H3 & _).
  - vm_compute. reflexivity.
  - reflexivity.
  - vm_compute. reflexivity.
  - exact Hrun.
  - exists s'. split; [exact H1 |]. split; [exact H2 |]. rewrite H3.
    vm_compute. reflexivity.
Defined.

Example mode_change_scenario :
  (cost_if_ended_now sqlite3 Sample.s1_active (Sample.c1 in_use) mode_2v2 4500000
   == 12)%Q /\
  (cost_if_ended_now sqlite3 Sample.s1_active (Sample.c1 in_use) mode_1v1 4500000
   == 8)%Q.
Proof. vm_compute. split; reflexivity. Qed.

(** The billable time the preview computes is the one [endSession] would
    compute at the same instant. *)
Lemma preview_active_duration s now :
  Z.max 0 (match s_status s, paused_at s with
           | paused, Some pausedAt => pausedAt - start_time s
           | _, _ => now - start_time s
           end - default 0 (total_paused_duration s))
  = Z.max 0 (now - start_time s
             - (default 0 (total_paused_duration s) + open_pause s now)).
Proof.
  unfold open_pause.
  set (P := default 0%Z (total_paused_duration s)). clearbody P.
  destruct (s_status s);
    match goal with |- context [decide (?a = ?b)] =>
      destruct (decide (a = b)) as [Heq | Hne] end;
    try discriminate; try (exfalso; apply Hne; reflexivity);
    try destruct (paused_at s); lia.
Qed.

(** X10.  For a session that is not ended, [getSessionCostPreview] changes
    nothing and quotes, as the 1v1 cost, exactly the finalCost [endSession]
    would store at the same instant for a 1v1 session; the 2v2 quote is the
    2v2 finalCost when the console has a positive 2v2 rate on record, and is
    computed at 1.5 times the base rate when it has none (where ending the
    session bills the base rate). *)
Theorem preview_is_cost_of_ending_now
    (cl : Client) (db : Db) (sid cid : string) (s : SessionRow) (c : ConsoleRow)
    (now : Z) :
  sessions db !! sid = Some s ->
  s_status s <> ended ->
  console_id s = Some cid ->
  consoles db !! cid = Some c ->
  exists pv,
    getSessionCostPreview cl sid now db = (inr pv, db) /\
    currentCost1v1 pv = cost_if_ended_now cl s c mode_1v1 now /\
    (forall r2, hourly_rate_2v2 c = Some r2 -> (0 < r2)%Q ->
                currentCost2v2 pv = cost_if_ended_now cl s c mode_2v2 now) /\
    (hourly_rate_2v2 c = None ->
     currentCost2v2 pv
     = billed_cost (start_time s) now
         (default 0 (total_paused_duration s) + open_pause s now)
         (fmul (hourly_rate c) (3 # 2))).
Proof.
  intros Hs Hst Hcid Hc.
  unfold getSessionCostPreview, session_with_console. unfold_M.
  rewrite Hs. cbn [mbind option_bind]. rewrite Hcid. cbn [mbind option_bind].
  rewrite Hc. cbn [mbind option_bind].
  destruct (decide (s_status s = ended)); [contradiction |].
  eexists. split; [reflexivity |].
  cbn [currentCost1v1 currentCost2v2].
  rewrite preview_active_duration.
  unfold cost_if_ended_now, billed_cost, console_rate.
  split; [| split].
  - f_equal. apply fmul_Qeq; [reflexivity | apply decimal_or_0].
  - intros r2 Hr2 Hpos. rewrite Hr2.
    assert (Hnz : ~ (r2 == 0)%Q) by (intros H0; rewrite H0 in Hpos; discriminate).
    rewrite decimal_or_stored by exact Hnz.
    destruct cl; [| reflexivity].
    destruct (Qeq_bool r2 0) eqn:E; [| reflexivity].
    apply Qeq_bool_iff in E. contradiction.
  - intros Hnone. rewrite Hnone.
    change (decimal_or cl None ?d) with d.
    f_equal. apply fmul_Qeq; [reflexivity |].
    rewrite (fmul_Qeq _ (hourly_rate c) (3 # 2) (3 # 2) (decimal_or_0 cl (hourly_rate c)))
      by reflexivity.
    reflexivity.
Qed.

Lemma preview_is_cost_of_ending_now_witness :
  exists pv,
    getSessionCostPreview sqlite3 "s1" 4500000 Sample.db_paused
    = (inr pv, Sample.db_paused) /\
    currentCost1v1 pv = cost_if_ended_now sqlite3 Sample.s1_paused
                          (Sample.c1 in_use) mode_1v1 4500000 /\
    currentCost2v2 pv = cost_if_ended_now sqlite3 Sample.s1_paused
                          (Sample.c1 in_use) mode_2v2 4500000.
Proof.
  destruct (preview_is_cost_of_ending_now sqlite3 Sample.db_paused "s1" "c1"
              Sample.s1_paused (Sample.c1 in_use) 4500000)
    as (pv & Hpv & H1 & H2 & _);
    [vm_compute; reflexivity | discriminate | reflexivity | vm_compute; reflexivity |].
  exists pv. split; [exact Hpv |]. split; [exact H1 |].
  apply (H2 12%Q); reflexivity.
Defined.

(** X11.  While a session is paused (with its pausedAt on record) the
    preview does not move with the clock: it is the same at any two
    instants. *)
Theorem preview_is_frozen_while_paused
    (cl : Client) (db : Db) (sid : string) (s : SessionRow) (Tp now1 now2 : Z) :
  sessions db !! sid = Some s ->
  s_status s = paused ->
  paused_at s = Some Tp ->
  getSessionCostPreview cl sid now1 db = getSessionCostPreview cl sid now2 db.
Proof.
  intros Hs Hst Hp.
  unfold getSessionCostPreview, session_with_console. unfold_M.
  rewrite Hs. cbn [mbind option_bind].
  destruct (console_id s) as [cid|]; cbn [mbind option_bind]; [| reflexivity].
  destruct (consoles db !! cid) as [c|]; cbn [mbind option_bind]; [| reflexivity].
  destruct (decide (s_status s = ended)); [reflexivity |].
  rewrite Hst, Hp. reflexivity.
Qed.

Lemma preview_is_frozen_while_paused_witness :
  getSessionCostPreview sqlite3 "s1" 2000000 Sample.db_paused
  = getSessionCostPreview sqlite3 "s1" 9000000 Sample.db_paused.
Proof.
  apply (preview_is_frozen_while_paused sqlite3 Sample.db_paused "s1"
           Sample.s1_paused 1800000).
  - vm_compute. reflexivity.
  - reflexivity.
  - reflexivity.
Defined.

(** X12.  Right after [endSession], [calculateSessionCost] for the mode the
    session ended in returns the stored finalCost and writes nothing,
    provided the session ended in 1v1 or the console has a positive 2v2
    rate on record. *)
Theorem calculateSessionCost_agrees_after_end
    (cl : Client) (db : Db) (sid cid : string) (s : SessionRow) (c : ConsoleRow)
    (now : Z) :
  sessions db !! sid = Some s ->
  s_status s <> ended ->
  console_id s = Some cid ->
  consoles db !! cid = Some c ->
  (gaming_mode s = Some mode_2v2 ->
   exists r2, hourly_rate_2v2 c = Some r2 /\ (0 < r2)%Q) ->
  let db' := snd (endSession cl sid now db) in
  exists cost,
    final_cost <$> sessions db' !! sid = Some (Some cost) /\
    calculateSessionCost cl sid (mode_or_1v1 (gaming_mode s)) db' = (inr cost, db').
Proof.
  intros Hs Hst Hcid Hc Hrate db'.
  destruct (endSession_commits cl db sid cid s c now Hs Hst Hcid Hc) as [_ Hdb'].
  subst db'. rewrite Hdb'.
  eexists. split.
  - cbn [sessions set_sessions set_consoles]. rewrite lookup_alter_eq, Hs. reflexivity.
  - unfold calculateSessionCost. unfold_M.
    cbn [sessions consoles set_sessions set_consoles].
    rewrite lookup_alter_eq, Hs.
    cbn [fmap option_fmap option_map mbind option_bind console_id].
    rewrite Hcid. cbn [mbind option_bind].
    rewrite lookup_alter_eq, Hc.
    cbn [fmap option_fmap option_map mbind option_bind s_status].
    destruct (decide (ended ≠ ended)) as [Hne | _]; [exfalso; apply Hne; reflexivity |].
    cbn [end_time start_time total_paused_duration default hourly_rate hourly_rate_2v2].
    do 2 f_equal. unfold usedRate_at_end.
    destruct (decide (mode_or_1v1 (gaming_mode s) = mode_2v2)) as [H2 | H1];
      [| reflexivity].
    assert (Hgm : gaming_mode s = Some mode_2v2).
    { unfold mode_or_1v1 in H2. destruct (gaming_mode s) as [[|]|]; cbn in H2;
        congruence. }
    destruct (Hrate Hgm) as (r2 & Hr2 & Hpos). rewrite Hr2.
    assert (Hnz : ~ (r2 == 0)%Q) by (intros H0; rewrite H0 in Hpos; discriminate).
    rewrite !decimal_or_stored by exact Hnz. reflexivity.
Qed.

Lemma calculateSessionCost_agrees_after_end_witness :
  let db' := snd (endSession sqlite3 "s1" 4500000 Sample.db_active) in
  exists cost,
    final_cost <$> sessions db' !! "s1" = Some (Some cost) /\
    calculateSessionCost sqlite3 "s1" mode_1v1 db' = (inr cost, db').
Proof.
  apply (calculateSessionCost_agrees_after_end sqlite3 Sample.db_active "s1" "c1"
           Sample.s1_active (Sample.c1 in_use) 4500000).
  - vm_compute. reflexivity.
  - discriminate.
  - reflexivity.
  - vm_compute. reflexivity.
  - intros H. discriminate H.
Defined.

Lemma pauseSession_throws_after_writing_witness :
  fst (pauseSession sqlite3 "s4" 1000 SampleMore.db_stranded)
  = inl ActiveSessionNotFound /\
  sessions (snd (pauseSession sqlite3 "s4" 1000 SampleMore.db_stranded)) !! "s4"
  = Some (mkSession (Some "c9") 0 None paused (Some 0%Z) None (Some 1000%Z)
            (Some mode_1v1)).
Proof.
  apply (pauseSession_throws_after_writing sqlite3 SampleMore.db_stranded "s4"
           SampleMore.s4_stranded 1000).
  - vm_compute. reflexivity.
  - reflexivity.
  - intros cid [= <-]. vm_compute. reflexivity.
Defined.

(** ** The running tab *)

(** X13.  [addItemToSession] is all-or-nothing.  When it throws, the store
    is as before.  When it commits, the session was on record and not
    ended, the product was on record with at least the asked quantity in
    stock; the stock of that product has gone down by exactly the quantity,
    no other product, no session, console or receipt has changed, and the
    returned line carries the catalog price of that moment and
    subtotal = price * quantity. *)
Theorem addItemToSession_outcome
    (db : Db) (sid pid : string) (q now : Z) :
  let result := addItemToSession sid pid q now db in
  (forall e, fst result = inl e -> snd result = db) /\
  (forall item,
     fst result = inr item ->
     exists s p,
       sessions db !! sid = Some s /\ s_status s <> ended /\
       products db !! pid = Some p /\ (q <= stock p)%Z /\
       stock_of (snd result) pid = Some (stock p - q)%Z /\
       (forall pid', pid' <> pid -> products (snd result) !! pid' = products db !! pid') /\
       sessions (snd result) = sessions db /\
       consoles (snd result) = consoles db /\
       receipts (snd result) = receipts db /\
       length (session_items (snd result)) = S (length (session_items db)) /\
       ai_productId item = pid /\ ai_quantity item = q /\
       ai_unitPrice item = price p /\
       ai_subtotal item = (fmul (price p) (inject_Z q))).
Proof.
  intros result. subst result.
  unfold addItemToSession, decrement_stock. unfold_M.
  destruct (sessions db !! sid) as [s|] eqn:Hs;
    [| split; [reflexivity | intros item H; discriminate H]].
  destruct (decide (s_status s = ended));
    [split; [reflexivity | intros item H; discriminate H] |].
  destruct (products db !! pid) as [p|] eqn:Hp;
    [| split; [reflexivity | intros item H; discriminate H]].
  destruct (stock p <? q)%Z eqn:E;
    [split; [reflexivity | intros item H; discriminate H] |].
  apply Z.ltb_ge in E. cbn [fst snd]. split; [intros e H; discriminate H |].
  intros item [= <-]. exists s, p.
  unfold stock_of.
  cbn [products sessions consoles receipts session_items set_products
       set_session_items].
  rewrite lookup_alter_eq, Hp, length_app. cbn.
  repeat split; try assumption; try reflexivity; try lia.
  intros pid' Hne. rewrite lookup_alter_ne by congruence. reflexivity.
Qed.

Lemma addItemToSession_outcome_witness :
  snd (addItemToSession "s1" "prod-2" 3 100 Sample.db_active) = Sample.db_active /\
  exists s p,
    sessions Sample.db_active !! "s1" = Some s /\
    products Sample.db_active !! "prod-1" = Some p /\
    stock_of (snd (addItemToSession "s1" "prod-1" 3 100 Sample.db_active)) "prod-1"
    = Some (stock p - 3)%Z.
Proof.
  destruct (addItemToSession_outcome Sample.db_active "s1" "prod-2" 3 100) as [Herr _].
  destruct (addItemToSession_outcome Sample.db_active "s1" "prod-1" 3 100) as [_ Hok].
  split.
  - apply (Herr (NotEnoughStock "Chips")). vm_compute. reflexivity.
  - edestruct Hok as (s & p & Hs & _ & Hp & _ & Hstock & _);
      [vm_compute; reflexivity |].
    exists s, p. auto.
Defined.

Lemma In_insert_by_created_at x y l :
  In y (insert_by_created_at x l) <-> y = x \/ In y l.
Proof.
  induction l as [| z l IH]; cbn.
  - intuition.
  - destruct (si_created_at (fst x) <? si_created_at (fst z))%Z; cbn;
      [| rewrite IH]; intuition.
Qed.

Lemma In_order_by_created_at y l : In y (order_by_created_at l) <-> In y l.
Proof.
  unfold order_by_created_at. induction l as [| x l IH]; cbn; [tauto |].
  rewrite In_insert_by_created_at, IH. intuition.
Qed.

Lemma In_session_items_joined sid db it p :
  In (it, p) (session_items_joined sid db) <->
  In it (session_items db) /\ si_session_id it = sid /\
  products db !! si_product_id it = Some p.
Proof.
  unfold session_items_joined. rewrite In_order_by_created_at.
  rewrite <- list_elem_of_In, list_elem_of_omap. split.
  - intros (it' & Hin & H). apply list_elem_of_In in Hin.
    destruct (decide (si_session_id it' = sid)); [| discriminate].
    destruct (products db !! si_product_id it') as [p'|] eqn:Hp; [| discriminate].
    cbn in H. injection H as <- <-. auto.
  - intros (Hin & Hsid & Hp). exists it. split; [apply list_elem_of_In; exact Hin |].
    destruct (decide (si_session_id it = sid)); [| contradiction].
    rewrite Hp. reflexivity.
Qed.

(** The tab as [getSessionItems] returns it. *)
Lemma getSessionItems_spec sid db x :
  (exists tab, getSessionItems sid db = (inr tab, db) /\ In x tab) <->
  exists it p,
    In it (session_items db) /\ si_session_id it = sid /\
    products db !! si_product_id it = Some p /\ x = tab_entry it p.
Proof.
  unfold getSessionItems. unfold_M. split.
  - intros (tab & [= <-] & Hin). apply in_map_iff in Hin.
    destruct Hin as ([it p] & <- & Hin). apply In_session_items_joined in Hin.
    exists it, p. intuition.
  - intros (it & p & Hin & Hsid & Hp & ->). eexists. split; [reflexivity |].
    apply in_map_iff. exists (it, p). split; [reflexivity |].
    apply In_session_items_joined. auto.
Qed.

(** X14.  An added item shows up on the tab: after a committed
    [addItemToSession], [getSessionItems] lists a line with the returned id,
    the product, the quantity and the unit price and subtotal that were
    returned, and every line that was on the tab before is still on it,
    unchanged. *)
Theorem added_item_is_on_the_tab
    (db db' : Db) (sid pid : string) (q now : Z) (item : AddedItem) :
  addItemToSession sid pid q now db = (inr item, db') ->
  exists tab tab' line,
    getSessionItems sid db = (inr tab, db) /\
    getSessionItems sid db' = (inr tab', db') /\
    In line tab' /\
    ii_id line = ai_id item /\ ii_productId line = pid /\
    ii_productName line = ai_productName item /\ ii_quantity line = q /\
    ii_unitPrice line = ai_unitPrice item /\ ii_subtotal line = ai_subtotal item /\
    forall x, In x tab -> In x tab'.
Proof.
  intros H.
  assert (Hok : exists s p,
             sessions db !! sid = Some s /\ products db !! pid = Some p /\
             item = mkAddedItem (next_session_item_id db) pid (p_name p) q
                      (price p) (fmul (price p) (inject_Z q)) now /\
             db' = set_session_items
                     (fun l => l ++ [mkSessionItem (next_session_item_id db) sid pid q
                                       (price p) (fmul (price p) (inject_Z q)) now now])
                     (set_products
                        (alter (fun p => mkProduct (p_name p) (p_description p)
                                           (p_category p) (price p) (stock p - q))
                               pid) db)).
  { revert H. unfold addItemToSession, decrement_stock. unfold_M.
    destruct (sessions db !! sid) as [s|] eqn:Hs; [| discriminate].
    destruct (decide (s_status s = ended)); [discriminate |].
    destruct (products db !! pid) as [p|] eqn:Hp; [| discriminate].
    destruct (stock p <? q)%Z; [discriminate |].
    intros [= <- <-]. exists s, p. auto. }
  destruct Hok as (s & p & Hs & Hp & -> & ->).
  set (newItem := mkSessionItem (next_session_item_id db) sid pid q (price p)
                    (fmul (price p) (inject_Z q)) now now).
  set (p' := mkProduct (p_name p) (p_description p) (p_category p) (price p)
               (stock p - q)).
  set (db' := set_session_items _ _).
  eexists _, _, (tab_entry newItem p').
  split; [reflexivity |]. split; [reflexivity |]. split.
  - apply in_map_iff. exists (newItem, p'). split; [reflexivity |].
    apply In_session_items_joined. subst db'.
    cbn [session_items products set_session_items set_products].
    split; [apply in_or_app; right; left; reflexivity |].
    split; [reflexivity |]. cbn [si_product_id newItem].
    rewrite lookup_alter_eq, Hp. reflexivity.
  - repeat split; try reflexivity.
    intros x Hx. apply in_map_iff in Hx. destruct Hx as ([it p0] & <- & Hin).
    apply In_session_items_joined in Hin. destruct Hin as (Hin & Hsid & Hp0).
    destruct (decide (pid = si_product_id it)) as [Heq | Hne].
    + apply in_map_iff.
      exists (it, p'). split.
      * rewrite <- Heq, Hp in Hp0. injection Hp0 as <-. reflexivity.
      * apply In_session_items_joined. subst db'.
        cbn [session_items products set_session_items set_products].
        split; [apply in_or_app; left; exact Hin |]. split; [exact Hsid |].
        rewrite <- Heq, lookup_alter_eq, Hp. reflexivity.
    + apply in_map_iff. exists (it, p0). split; [reflexivity |].
      apply In_session_items_joined. subst db'.
      cbn [session_items products set_session_items set_products].
      split; [apply in_or_app; left; exact Hin |]. split; [exact Hsid |].
      rewrite lookup_alter_ne by assumption. exact Hp0.
Qed.

Lemma added_item_is_on_the_tab_witness :
  let r := addItemToSession "s1" "prod-1" 3 100 Sample.db_active in
  exists tab' line,
    getSessionItems "s1" (snd r) = (inr tab', snd r) /\
    In line tab' /\ ii_productId line = "prod-1" /\ ii_quantity line = 3%Z.
Proof.
  intros r.
  edestruct (added_item_is_on_the_tab Sample.db_active (snd r) "s1" "prod-1" 3 100)
    as (tab & tab' & line & _ & Htab' & Hin & _ & Hpid & _ & Hq & _).
  - subst r. vm_compute. reflexivity.
  - exists tab', line. auto.
Defined.

(** ** Checkout: stock, lines and errors *)

(** The catalog entry of a product after the cart loop: its stock is down
    by what the cart asked of it, its name and price are as before. *)
Lemma process_cart_products items : forall st acc db st' acc' db',
  process_cart items st acc db = (inr (st', acc'), db') ->
  forall pid p, products db !! pid = Some p ->
    products db' !! pid
    = Some (mkProduct (p_name p) (p_description p) (p_category p) (price p)
              (stock p - requested pid items)).
Proof.
  induction items as [| it items IH]; intros st acc db st' acc' db' H pid p Hp.
  - cbn in H. unfold_M. injection H as <- <- <-. cbn [requested foldr].
    rewrite Z.sub_0_r. rewrite Hp. destruct p; reflexivity.
  - cbn [process_cart] in H. unfold_M. unfold decrement_stock in H. unfold_M.
    destruct (products db !! productId it) as [ph|] eqn:Hph; [| discriminate].
    destruct (stock ph <? quantity it)%Z; [discriminate |].
    cbn [requested foldr]. fold (requested pid items).
    destruct (decide (productId it = pid)) as [<- | Hne].
    + rewrite Hph in Hp. injection Hp as <-.
      erewrite (IH _ _ _ _ _ _ H);
        [| cbn [products set_products]; rewrite lookup_alter_eq, Hph; reflexivity].
      cbn; do 2 f_equal; lia.
    + erewrite (IH _ _ _ _ _ _ H);
        [| cbn [products set_products]; rewrite lookup_alter_ne by assumption;
           exact Hp].
      do 2 f_equal; lia.
Qed.

Lemma receipt_line_of_alter db f pid it :
  (forall p, p_name (f p) = p_name p /\ price (f p) = price p) ->
  receipt_line_of (set_products (alter f pid) db) it = receipt_line_of db it.
Proof.
  intros Hf. unfold receipt_line_of. cbn [products set_products].
  destruct (decide (pid = productId it)) as [-> | Hne].
  - rewrite lookup_alter_eq. destruct (products db !! productId it) as [p|]; cbn;
      [| reflexivity].
    destruct (Hf p) as [-> ->]. reflexivity.
  - rewrite lookup_alter_ne by assumption. reflexivity.
Qed.

(** On success the loop has appended one line per cart line, in order, at
    the catalog names and prices. *)
Lemma process_cart_lines items : forall st acc db st' acc' db',
  process_cart items st acc db = (inr (st', acc'), db') ->
  Some <$> acc' = (Some <$> acc) ++ (receipt_line_of db <$> items).
Proof.
  induction items as [| it items IH]; intros st acc db st' acc' db' H.
  - cbn in H. unfold_M. injection H as <- <- <-. cbn. rewrite app_nil_r. reflexivity.
  - cbn [process_cart] in H. unfold_M. unfold decrement_stock in H. unfold_M.
    destruct (products db !! productId it) as [p|] eqn:Hp; [| discriminate].
    destruct (stock p <? quantity it)%Z; [discriminate |].
    apply IH in H. rewrite H. rewrite fmap_app, <- app_assoc. f_equal.
    cbn [fmap list_fmap app]. f_equal.
    + unfold receipt_line_of. rewrite Hp. reflexivity.
    + apply list_fmap_ext. intros i x _. apply receipt_line_of_alter.
      intros p0. cbn. auto.
Qed.

(** What a committed checkout returns and stores, line by line. *)
Lemma processCheckout_inv_lines cl items pm sessionId mp ulid now db rcpt db' :
  processCheckout cl items pm sessionId mp ulid now db = (inr rcpt, db') ->
  exists charge st lines db1,
    process_cart items (cc_subtotal charge) [] db = (inr (st, lines), db1) /\
    (truthy_string sessionId = None -> charge = no_console_charge) /\
    (forall sid, truthy_string sessionId = Some sid ->
                 session_charge cl sid mp db = (inr charge, db)) /\
    rc_total rcpt = toFixed2 (fadd st (fmul st TAX_RATE)) /\
    rc_items rcpt = lines /\
    rc_id rcpt = "rec_" +:+ ulid /\
    rc_sessionId rcpt = truthy_string sessionId /\
    rc_consoleUsage rcpt = cc_consoleUsageData charge /\
    rc_subtotal rcpt = toFixed2 st /\
    products db' = products db1 /\
    receipt_items db'
    = receipt_items db1
      ++ map (fun l => mkReceiptItem ("rec_" +:+ ulid) (rl_productId l)
                         (rl_productName l) (rl_quantity l) (rl_unitPrice l)
                         (rl_subtotal l)) lines.
Proof.
  unfold processCheckout, processCheckout_body, transaction. unfold bind at 1.
  intros H.
  assert (Hch : exists charge,
             match truthy_string sessionId with
             | Some sid => session_charge cl sid mp
             | None => ret no_console_charge
             end db = (inr charge, db) /\
             (truthy_string sessionId = None -> charge = no_console_charge) /\
             (forall sid, truthy_string sessionId = Some sid ->
                          session_charge cl sid mp db = (inr charge, db))).
  { destruct (truthy_string sessionId) as [sid|].
    - pose proof (session_charge_pure cl sid mp db) as Hp.
      destruct (session_charge cl sid mp db) as [[e|ch] d] eqn:E; cbn in Hp; subst d.
      + cbn in H. discriminate.
      + exists ch. split; [reflexivity |]. split; [discriminate |].
        intros sid' [= <-]. exact E.
    - eexists. split; [reflexivity |]. split; [reflexivity | discriminate]. }
  destruct Hch as (charge & Hrun & Hch & Hch'). rewrite Hrun in H.
  unfold bind at 1 in H.
  destruct (process_cart items (cc_subtotal charge) [] db) as [[e|[st lines]] db1] eqn:Hcart;
    [discriminate |].
  unfold bind at 1 in H. unfold insert_receipt at 1 in H.
  match type of H with context [existsb ?f ?l] => destruct (existsb f l) end;
    [discriminate |].
  unfold_M. cbn in H. injection H as <- <-.
  exists charge, st, lines, db1.
  split; [exact Hcart |]. split; [exact Hch |]. split; [exact Hch' |].
  cbn. repeat split; reflexivity.
Qed.

(** X15.  A committed checkout takes from every product exactly what the
    cart asked of it, summed over all its lines, and touches nothing else
    of the catalog: names, prices and the set of products are as before. *)
Theorem checkout_takes_requested_stock
    (cl : Client) (items : list CartItem) (pm : string) (sessionId : option string)
    (mp : option Q) (ulid : string) (now : Z) (db db' : Db) (rcpt : Receipt) :
  processCheckout cl items pm sessionId mp ulid now db = (inr rcpt, db') ->
  forall pid,
    products db' !! pid
    = (fun p => mkProduct (p_name p) (p_description p) (p_category p) (price p)
                  (stock p - requested pid items)) <$> products db !! pid.
Proof.
  intros H pid.
  apply processCheckout_inv_lines in H.
  destruct H as (charge & st & lines & db1 & Hcart & _ & _ & _ & _ & _ & _ & _ & _
                 & Hprod & _).
  rewrite Hprod.
  destruct (products db !! pid) as [p|] eqn:Hp; cbn [fmap option_fmap option_map].
  - eapply process_cart_products; eassumption.
  - pose proof (process_cart_stocks _ _ _ _ _ _ Hcart) as [_ Hdom].
    destruct (products db1 !! pid) eqn:E; [| reflexivity].
    exfalso. assert (Hs : is_Some (products db !! pid)) by (apply Hdom; eauto).
    rewrite Hp in Hs. destruct Hs as [x Hx]. discriminate.
Qed.

Lemma checkout_takes_requested_stock_witness :
  let r := processCheckout sqlite3
             [mkCartItem "prod-1" 3; mkCartItem "prod-2" 1; mkCartItem "prod-1" 2]
             "cash" None None "R1" 10 Sample.db_ended in
  stock <$> products (snd r) !! "prod-1" = Some (45 - requested "prod-1"
             [mkCartItem "prod-1" 3; mkCartItem "prod-2" 1; mkCartItem "prod-1" 2])%Z.
Proof.
  intros r.
  assert (H : exists rcpt, r = (inr rcpt, snd r))
    by (eexists; subst r; vm_compute; reflexivity).
  destruct H as [rcpt H].
  rewrite (checkout_takes_requested_stock sqlite3 _ "cash" None None "R1" 10
             Sample.db_ended (snd r) rcpt H "prod-1").
  vm_compute. reflexivity.
Defined.

(** X16.  The receipt of a committed checkout has one line per cart line,
    in cart order, each with the product's name and unit price as the
    catalog had them at the call and subtotal = unit price * quantity; the
    same lines are stored in [receipt_items] under the id of the receipt. *)
Theorem receipt_lines_mirror_cart
    (cl : Client) (items : list CartItem) (pm : string) (sessionId : option string)
    (mp : option Q) (ulid : string) (now : Z) (db db' : Db) (rcpt : Receipt) :
  processCheckout cl items pm sessionId mp ulid now db = (inr rcpt, db') ->
  Some <$> rc_items rcpt = receipt_line_of db <$> items /\
  receipt_items db'
  = receipt_items db
    ++ map (fun l => mkReceiptItem (rc_id rcpt) (rl_productId l) (rl_productName l)
                       (rl_quantity l) (rl_unitPrice l) (rl_subtotal l))
           (rc_items rcpt).
Proof.
  intros H.
  apply processCheckout_inv_lines in H.
  destruct H as (charge & st & lines & db1 & Hcart & _ & _ & _ & Hitems & Hid & _ & _
                 & _ & _ & Hri).
  pose proof (process_cart_lines _ _ _ _ _ _ _ Hcart) as Hlines.
  pose proof (process_cart_frame _ _ _ _ _ _ Hcart) as (_ & _ & _ & _ & Hri1 & _).
  rewrite Hitems, Hid. split; [exact Hlines |].
  rewrite Hri, Hri1. reflexivity.
Qed.

Lemma receipt_lines_mirror_cart_witness :
  let r := processCheckout sqlite3 [mkCartItem "prod-1" 3; mkCartItem "prod-2" 1]
             "cash" None None "R1" 10 Sample.db_ended in
  exists rcpt,
    fst r = inr rcpt /\
    Some <$> rc_items rcpt
    = receipt_line_of Sample.db_ended
        <$> [mkCartItem "prod-1" 3; mkCartItem "prod-2" 1].
Proof.
  intros r.
  edestruct (receipt_lines_mirror_cart sqlite3
               [mkCartItem "prod-1" 3; mkCartItem "prod-2" 1] "cash" None None "R1" 10
               Sample.db_ended (snd r)) as [Hlines _].
  - subst r. vm_compute. reflexivity.
  - eexists. split; [subst r; vm_compute; reflexivity | exact Hlines].
Defined.

(** X17.  A checkout that names a session is refused, with nothing written,
    when the session is unknown ('Session not found.'), when it is still
    active or paused ('Session has not been ended yet.'), and when it is
    ended and unpaid but has no stored cost ('Session cost has not been
    calculated...'), whatever the cart and the override. *)
Theorem processCheckout_refuses_unbillable_session
    (cl : Client) (db : Db) (sid : string) (items : list CartItem) (pm : string)
    (mp : option Q) (ulid : string) (now : Z) :
  sid <> EmptyString ->
  let result := processCheckout cl items pm (Some sid) mp ulid now db in
  (sessions db !! sid = None -> result = (inl SessionNotFound, db)) /\
  (forall s, sessions db !! sid = Some s -> s_status s <> ended ->
             result = (inl SessionNotEndedYet, db)) /\
  (forall s, sessions db !! sid = Some s -> s_status s = ended ->
             receipt_for_session sid db = None -> final_cost s = None ->
             result = (inl CostNotCalculated, db)).
Proof.
  intros Hsid result. subst result.
  assert (Hbody : forall e,
             session_charge cl sid mp db = (inl e, db) ->
             processCheckout cl items pm (Some sid) mp ulid now db = (inl e, db)).
  { intros e He. apply transaction_error.
    unfold processCheckout_body, truthy_string.
    destruct (decide (sid = EmptyString)) as [| _]; [contradiction |].
    unfold bind at 1. rewrite He. reflexivity. }
  split; [| split].
  - intros Hnone. apply Hbody. unfold session_charge. unfold_M. rewrite Hnone.
    reflexivity.
  - intros s Hs Hst. apply Hbody. unfold session_charge. unfold_M. rewrite Hs.
    destruct (decide (s_status s ≠ ended)); [reflexivity | contradiction].
  - intros s Hs Hst Hrec Hfc. apply Hbody. unfold session_charge. unfold_M.
    rewrite Hs. destruct (decide (s_status s ≠ ended)); [contradiction |].
    rewrite Hrec, Hfc. reflexivity.
Qed.

Lemma processCheckout_refuses_unbillable_session_witness :
  processCheckout sqlite3 [mkCartItem "prod-1" 1] "cash" (Some "nobody") None "R1" 10
    Sample.db_active = (inl SessionNotFound, Sample.db_active) /\
  processCheckout sqlite3 [mkCartItem "prod-1" 1] "cash" (Some "s1") (Some 5%Q) "R1" 10
    Sample.db_active = (inl SessionNotEndedYet, Sample.db_active).
Proof.
  split.
  - apply (processCheckout_refuses_unbillable_session sqlite3 Sample.db_active "nobody");
      [discriminate | vm_compute; reflexivity].
  - apply (processCheckout_refuses_unbillable_session sqlite3 Sample.db_active "s1")
      with (s := Sample.s1_active);
      [discriminate | vm_compute; reflexivity | discriminate].
Defined.

(** X18.  A checkout whose sessionId is absent or the empty string is a
    retail sale: no session is looked up and a manual console price is
    ignored altogether. *)
Theorem retail_checkout_ignores_override
    (cl : Client) (items : list CartItem) (pm : string) (sessionId : option string)
    (mp : option Q) (ulid : string) (now : Z) (db : Db) :
  truthy_string sessionId = None ->
  processCheckout cl items pm sessionId mp ulid now db
  = processCheckout cl items pm None None ulid now db.
Proof.
  intros H. unfold processCheckout, processCheckout_body.
  rewrite H. cbn [truthy_string]. reflexivity.
Qed.

Lemma retail_checkout_ignores_override_witness :
  processCheckout sqlite3 [mkCartItem "prod-1" 1] "cash" (Some EmptyString)
    (Some (- (5))%Q) "R1" 10 Sample.db_active
  = processCheckout sqlite3 [mkCartItem "prod-1" 1] "cash" None None "R1" 10
      Sample.db_active.
Proof.
  apply (retail_checkout_ignores_override sqlite3). reflexivity.
Defined.

Lemma set_receipt_items_app_nil (d : Db) :
  set_receipt_items (fun l => l ++ []) d = d.
Proof. destruct d. unfold set_receipt_items. cbn. rewrite app_nil_r. reflexivity. Qed.

(** X19.  An empty cart without a session is accepted: provided the receipt
    id is fresh, the call commits a receipt with no lines and subtotal, tax
    and total 0, and changes nothing else in the store. *)
Theorem empty_checkout_commits_zero_receipt
    (cl : Client) (pm : string) (ulid : string) (now : Z) (db : Db) :
  (forall r, In r (receipts db) -> r_id r <> "rec_" +:+ ulid) ->
  exists rcpt row,
    processCheckout cl [] pm None None ulid now db
    = (inr rcpt, set_receipts (fun l => l ++ [row]) db) /\
    rc_items rcpt = [] /\ rc_consoleUsage rcpt = None /\
    (rc_subtotal rcpt == 0)%Q /\ (rc_tax rcpt == 0)%Q /\ (rc_total rcpt == 0)%Q /\
    r_session_id row = None /\ r_id row = "rec_" +:+ ulid.
Proof.
  intros Hfresh.
  unfold processCheckout, processCheckout_body, transaction.
  cbn [truthy_string]. unfold bind at 1. cbn [ret].
  unfold bind at 1. cbn [process_cart ret no_console_charge cc_subtotal].
  unfold bind at 1. unfold insert_receipt at 1. cbn [r_id].
  assert (He : existsb (fun r => bool_decide (r_id r = "rec_" +:+ ulid)) (receipts db)
               = false).
  { induction (receipts db) as [| r l IH]; [reflexivity |]. cbn [existsb].
    rewrite bool_decide_eq_false_2 by (apply Hfresh; left; reflexivity).
    apply IH. intros r' Hin. apply Hfresh. right. exact Hin. }
  rewrite He. unfold_M. cbn [map fst snd].
  rewrite set_receipt_items_app_nil.
  eexists _, _. split; [reflexivity |].
  cbn. repeat split; reflexivity.
Qed.

Lemma empty_checkout_commits_zero_receipt_witness :
  exists rcpt db',
    processCheckout sqlite3 [] "cash" None None "R1" 10 Sample.db_idle = (inr rcpt, db') /\
    (rc_total rcpt == 0)%Q /\ length (receipts db') = 1%nat.
Proof.
  destruct (empty_checkout_commits_zero_receipt sqlite3 "cash" "R1" 10 Sample.db_idle)
    as (rcpt & row & H & _ & _ & _ & _ & Htot & _).
  - intros r [].
  - exists rcpt, (set_receipts (fun l => l ++ [row]) Sample.db_idle).
    split; [exact H |]. split; [exact Htot | reflexivity].
Defined.

(** ** The checkout preview *)

Lemma preview_cart_spec items : forall st acc db,
  preview_cart items st acc db
  = (inr (cart_sum db st items, acc ++ omap (receipt_line_of db) items), db).
Proof.
  induction items as [| it items IH]; intros st acc db.
  - cbn. unfold_M. rewrite app_nil_r. reflexivity.
  - cbn [preview_cart]. unfold_M. unfold cart_sum. cbn [omap list_omap foldl].
    fold (cart_sum db). fold (omap (receipt_line_of db) items).
    unfold receipt_line_of at 1.
    destruct (products db !! productId it) as [p|]; cbn [mbind option_bind].
    + rewrite IH, <- app_assoc. reflexivity.
    + apply IH.
Qed.

Lemma calculateSessionCost_pure cl sid m db :
  snd (calculateSessionCost cl sid m db) = db.
Proof.
  unfold calculateSessionCost. unfold_M.
  destruct (s ← sessions db !! sid; cid ← console_id s; c ← consoles db !! cid;
            Some (s, c)) as [[s c]|]; [| reflexivity].
  destruct (decide (s_status s ≠ ended)); reflexivity.
Qed.

Lemma calculateSessionCost_ended cl sid m db s cid c :
  sessions db !! sid = Some s -> s_status s = ended ->
  console_id s = Some cid -> consoles db !! cid = Some c ->
  exists calc, calculateSessionCost cl sid m db = (inr calc, db).
Proof.
  intros Hs Hst Hcid Hc. unfold calculateSessionCost. unfold_M.
  rewrite Hs. cbn [mbind option_bind]. rewrite Hcid. cbn [mbind option_bind].
  rewrite Hc. cbn [mbind option_bind].
  destruct (decide (s_status s ≠ ended)); [contradiction |]. eauto.
Qed.

(** The preview, in full. *)
Lemma getCheckoutPreview_facts
    (cl : Client) (sessionId : option string) (items : list CartItem)
    (m : GamingMode) (db : Db) :
  exists pv,
    getCheckoutPreview cl sessionId items m db = (inr pv, db) /\
    pv_items pv = omap (receipt_line_of db) items /\
    (pv_itemsSubtotal pv == cart_total db items)%Q /\
    pv_subtotal pv = fadd (pv_consoleSubtotal pv) (pv_itemsSubtotal pv) /\
    (pv_tax pv == 0)%Q /\
    (pv_total pv == pv_subtotal pv)%Q /\
    (forall sid s cid c,
       truthy_string sessionId = Some sid ->
       sessions db !! sid = Some s -> s_status s = ended ->
       console_id s = Some cid -> consoles db !! cid = Some c ->
       calculateSessionCost cl sid m db = (inr (pv_consoleSubtotal pv), db) /\
       is_Some (pv_consoleUsage pv)) /\
    ((forall sid s, truthy_string sessionId = Some sid ->
                    sessions db !! sid = Some s -> s_status s <> ended) ->
     pv_consoleSubtotal pv = 0%Q /\ pv_consoleUsage pv = None).
Proof.
  unfold getCheckoutPreview.
  assert (Hpart : exists cs cd,
             preview_console cl sessionId m db = (inr (cs, cd), db) /\
             (forall sid s cid c,
                truthy_string sessionId = Some sid ->
                sessions db !! sid = Some s -> s_status s = ended ->
                console_id s = Some cid -> consoles db !! cid = Some c ->
                calculateSessionCost cl sid m db = (inr cs, db) /\ is_Some cd) /\
             ((forall sid s, truthy_string sessionId = Some sid ->
                             sessions db !! sid = Some s -> s_status s <> ended) ->
              cs = 0%Q /\ cd = None)).
  { unfold preview_console. destruct (truthy_string sessionId) as [sid|].
    2:{ exists 0%Q, None. split; [reflexivity |]. split; [discriminate | auto]. }
    unfold bind at 1. unfold query at 1. unfold session_with_console.
    destruct (sessions db !! sid) as [s|] eqn:Hs; cbn [mbind option_bind].
    2:{ exists 0%Q, None. split; [reflexivity |]. split; [| auto].
        intros sid' s cid c [= <-] H. congruence. }
    destruct (console_id s) as [cid|] eqn:Hcid; cbn [mbind option_bind].
    2:{ exists 0%Q, None. split; [reflexivity |]. split; [| auto].
        intros sid' s' cid c [= <-] H1 _ H2. congruence. }
    destruct (consoles db !! cid) as [c|] eqn:Hc; cbn [mbind option_bind].
    2:{ exists 0%Q, None. split; [reflexivity |]. split; [| auto].
        intros sid' s' cid' c [= <-] H1 _ H2 H3. congruence. }
    destruct (decide (s_status s = ended)) as [Hst | Hst].
    2:{ exists 0%Q, None. split; [reflexivity |]. split; [| auto].
        intros sid' s' cid' c' [= <-] H1 H2. congruence. }
    destruct (calculateSessionCost_ended cl sid m db s cid c Hs Hst Hcid Hc)
      as [calc Hcalc].
    unfold bind at 1. rewrite Hcalc. cbn [ret].
    eexists calc, _. split; [reflexivity |]. split.
    - intros sid' s' cid' c' [= <-] _ _ _ _. split; [exact Hcalc | eauto].
    - intros Hnot. exfalso. apply (Hnot sid s eq_refl Hs Hst). }
  destruct Hpart as (cs & cd & Hrun & Hended & Hnone).
  unfold bind at 1. rewrite Hrun.
  unfold bind at 1. rewrite (preview_cart_spec items 0%Q [] db). cbn [ret app].
  eexists. split; [reflexivity |].
  cbn [pv_items pv_itemsSubtotal pv_subtotal pv_consoleSubtotal pv_tax pv_total
       pv_consoleUsage].
  destruct (tax_and_total (fadd cs (cart_sum db 0 items)) (Number_fadd _ _))
    as [Htax Htot].
  rewrite Htot, Htax.
  split; [reflexivity |].
  split; [reflexivity |].
  split; [reflexivity |].
  split; [reflexivity |].
  split; [reflexivity |].
  split; [exact Hended | exact Hnone].
Qed.

(** X20.  [getCheckoutPreview] never throws and never writes.  Its lines are
    the cart lines whose product is on record (the others are passed over
    without an error), the items subtotal is their sum, the tax is 0 and the
    total is the console subtotal and the items subtotal added as doubles.
    An ended session with its
    console on record contributes what [calculateSessionCost] re-derives; a
    session that is unknown or not ended contributes 0 and no console
    details. *)
Theorem getCheckoutPreview_outcome
    (cl : Client) (sessionId : option string) (items : list CartItem)
    (m : GamingMode) (db : Db) :
  exists pv,
    getCheckoutPreview cl sessionId items m db = (inr pv, db) /\
    pv_items pv = omap (receipt_line_of db) items /\
    (pv_itemsSubtotal pv == cart_total db items)%Q /\
    pv_subtotal pv = fadd (pv_consoleSubtotal pv) (pv_itemsSubtotal pv) /\
    (pv_tax pv == 0)%Q /\
    (pv_total pv == pv_subtotal pv)%Q /\
    (forall sid s cid c,
       truthy_string sessionId = Some sid ->
       sessions db !! sid = Some s -> s_status s = ended ->
       console_id s = Some cid -> consoles db !! cid = Some c ->
       calculateSessionCost cl sid m db = (inr (pv_consoleSubtotal pv), db) /\
       is_Some (pv_consoleUsage pv)) /\
    ((forall sid s, truthy_string sessionId = Some sid ->
                    sessions db !! sid = Some s -> s_status s <> ended) ->
     pv_consoleSubtotal pv = 0%Q /\ pv_consoleUsage pv = None).
Proof. apply getCheckoutPreview_facts. Qed.

Lemma getCheckoutPreview_outcome_witness :
  exists pv,
    getCheckoutPreview sqlite3 (Some "s1")
      [mkCartItem "prod-1" 2; mkCartItem "gone" 1] mode_1v1 Sample.db_ended
    = (inr pv, Sample.db_ended) /\
    calculateSessionCost sqlite3 "s1" mode_1v1 Sample.db_ended
    = (inr (pv_consoleSubtotal pv), Sample.db_ended) /\
    length (pv_items pv) = 1%nat /\
  exists pv',
    getCheckoutPreview sqlite3 (Some "s1") [] mode_1v1 Sample.db_active
    = (inr pv', Sample.db_active) /\
    pv_consoleSubtotal pv' = 0%Q.
Proof.
  destruct (getCheckoutPreview_outcome sqlite3 (Some "s1")
              [mkCartItem "prod-1" 2; mkCartItem "gone" 1] mode_1v1 Sample.db_ended)
    as (pv & Hpv & Hitems & _ & _ & _ & _ & Hended & _).
  destruct (getCheckoutPreview_outcome sqlite3 (Some "s1") [] mode_1v1 Sample.db_active)
    as (pv' & Hpv' & _ & _ & _ & _ & _ & _ & Hnone).
  exists pv. split; [exact Hpv |]. split; [| split].
  - apply (Hended "s1" Sample.s1_ended "c1" (Sample.c1 available));
      [reflexivity | vm_compute; reflexivity | reflexivity | reflexivity
       | vm_compute; reflexivity].
  - rewrite Hitems. vm_compute. reflexivity.
  - exists pv'. split; [exact Hpv' |]. apply Hnone.
    intros sid s [= <-] Hs. vm_compute in Hs. injection Hs as <-. discriminate.
Defined.

(** The session block without an override charges the stored cost. *)
Lemma session_charge_no_override cl sid db charge :
  session_charge cl sid None db = (inr charge, db) ->
  exists s cid c calc,
    sessions db !! sid = Some s /\ s_status s = ended /\
    console_id s = Some cid /\ consoles db !! cid = Some c /\
    final_cost s = Some calc /\ cc_subtotal charge = Number calc.
Proof.
  unfold session_charge. unfold_M.
  destruct (sessions db !! sid) as [s|] eqn:Hs; [| discriminate].
  destruct (decide (s_status s ≠ ended)) as [| Hst]; [discriminate |].
  destruct (receipt_for_session sid db); [discriminate |].
  destruct (final_cost s) as [calc|] eqn:Hfc; [| discriminate].
  destruct (console_id s) as [cid|] eqn:Hcid; cbn [mbind option_bind]; [| discriminate].
  destruct (consoles db !! cid) as [c|] eqn:Hc; [| discriminate].
  destruct (negb (Qle_bool 0 calc)); [discriminate |].
  assert (Hended : s_status s = ended).
  { destruct (s_status s); try reflexivity; exfalso; apply Hst; discriminate. }
  intros [= <-]. exists s, cid, c, calc. cbn [cc_subtotal]. rewrite fadd_0_l. auto 10.
Qed.

Lemma omap_of_Some {A B} (f : A -> option B) (l : list A) (r : list B) :
  Some <$> r = f <$> l -> omap f l = r.
Proof.
  revert r. induction l as [| x l IH]; intros [| y r] H; cbn in H; try discriminate.
  - reflexivity.
  - injection H as Hx Hl. cbn. rewrite <- Hx. cbn. f_equal. apply IH. exact Hl.
Qed.

Lemma fadd_Number_l (a b : Q) : fadd (Number a) b = fadd a b.
Proof. unfold fadd. rewrite Number_Number. reflexivity. Qed.

Lemma fadd_Number_r (a b : Q) : fadd a (Number b) = fadd a b.
Proof. unfold fadd. rewrite Number_Number. reflexivity. Qed.

(** Adding the console cost first or last gives the same double when the
    cart has no session or at most one line. *)
Lemma cart_sum_console_first db calc items :
  (length items <= 1)%nat ->
  cart_sum db (Number calc) items = fadd calc (cart_sum db 0 items).
Proof.
  destruct items as [| it [| it' items]]; cbn [length]; [| | lia]; intros _.
  - unfold cart_sum. cbn [foldl]. rewrite fadd_0_r. reflexivity.
  - unfold cart_sum. cbn [foldl].
    destruct (products db !! productId it) as [p|].
    + rewrite fadd_Number_l, fadd_0_l, fadd_Number_r. reflexivity.
    + rewrite fadd_0_r. reflexivity.
Qed.

(** X21.  The receipt charges what the preview showed, for a sale without a
    session and for a session checkout with at most one cart line.  If such
    a checkout without a manual price commits, then the preview of the same
    cart on the same store has the same lines, and the receipt's subtotal
    and total are the preview's, rounded to cents, provided that for a
    session checkout the cost re-derived for the previewed mode is the
    stored finalCost.  (With a session and several lines the two add the
    same doubles in a different order.) *)
Theorem receipt_matches_preview
    (cl : Client) (items : list CartItem) (pm : string) (sessionId : option string)
    (ulid : string) (now : Z) (m : GamingMode) (db db' : Db) (rcpt : Receipt) :
  processCheckout cl items pm sessionId None ulid now db = (inr rcpt, db') ->
  (forall sid s calc,
     truthy_string sessionId = Some sid -> sessions db !! sid = Some s ->
     final_cost s = Some calc ->
     fst (calculateSessionCost cl sid m db) = inr calc) ->
  truthy_string sessionId = None \/ (length items <= 1)%nat ->
  exists pv,
    getCheckoutPreview cl sessionId items m db = (inr pv, db) /\
    rc_items rcpt = pv_items pv /\
    rc_subtotal rcpt = toFixed2 (pv_subtotal pv) /\
    rc_total rcpt = toFixed2 (pv_total pv).
Proof.
  intros H Hsame Hshape.
  apply processCheckout_inv_lines in H.
  destruct H as (charge & st & lines & db1 & Hcart & Hretail & Hsess & Htot & Hitems
                 & _ & _ & _ & Hsub & _).
  pose proof (process_cart_subtotal _ _ _ _ _ _ _ Hcart) as Hst.
  pose proof (process_cart_lines _ _ _ _ _ _ _ Hcart) as Hlines.
  cbn [fmap list_fmap app] in Hlines. apply omap_of_Some in Hlines.
  destruct (getCheckoutPreview_facts cl sessionId items m db)
    as (pv & Hpv & Hpvitems & Hpvis & Hpvsub & _ & Hpvtot & Hcs).
  exists pv. split; [exact Hpv |].
  assert (Hpvis' : pv_itemsSubtotal pv = cart_sum db 0 items).
  { revert Hpv. unfold getCheckoutPreview. unfold bind at 1.
    destruct (preview_console cl sessionId m db) as [[e | [cs cd]] d];
      [discriminate |].
    unfold bind at 1. rewrite (preview_cart_spec items 0%Q [] d). cbn [ret].
    intros [= <- <-]. reflexivity. }
  assert (Heq : st = pv_subtotal pv).
  { rewrite Hst, Hpvsub, Hpvis'.
    destruct (truthy_string sessionId) as [sid|] eqn:Htr.
    - destruct Hshape as [Hnone | Hlen]; [discriminate |].
      specialize (Hsess sid eq_refl).
      destruct (session_charge_no_override cl sid db charge Hsess)
        as (s & cid & c & calc & Hs & Hended & Hcid & Hc & Hfc & Hcsub).
      destruct (proj1 Hcs sid s cid c eq_refl Hs Hended Hcid Hc) as [Hcalc _].
      specialize (Hsame sid s calc eq_refl Hs Hfc). rewrite Hcalc in Hsame.
      cbn in Hsame. injection Hsame as Hcalc'.
      rewrite Hcsub, Hcalc'. apply cart_sum_console_first. exact Hlen.
    - rewrite (Hretail eq_refl). cbn [cc_subtotal no_console_charge].
      destruct (proj2 Hcs) as [-> _]; [discriminate |].
      rewrite fadd_0_l. symmetry. apply cart_sum_Number. reflexivity. }
  assert (Hdbl : Number st = st) by (rewrite Heq, Hpvsub; apply Number_fadd).
  destruct (tax_and_total st Hdbl) as [_ Htot0].
  split; [rewrite Hitems, Hpvitems, Hlines; reflexivity |].
  split.
  - rewrite Hsub, Heq. reflexivity.
  - rewrite Htot, Htot0. apply toFixed2_Qeq. rewrite Hpvtot, Heq. reflexivity.
Qed.

Lemma receipt_matches_preview_witness :
  let r := processCheckout sqlite3 [mkCartItem "prod-1" 2] "cash" (Some "s1") None
             "R1" 10 Sample.db_ended in
  exists rcpt pv,
    fst r = inr rcpt /\
    getCheckoutPreview sqlite3 (Some "s1") [mkCartItem "prod-1" 2] mode_1v1
      Sample.db_ended = (inr pv, Sample.db_ended) /\
    rc_items rcpt = pv_items pv /\
    rc_subtotal rcpt = toFixed2 (pv_subtotal pv) /\
    rc_total rcpt = toFixed2 (pv_total pv).
Proof.
  intros r.
  assert (H : exists rcpt, r = (inr rcpt, snd r))
    by (eexists; subst r; vm_compute; reflexivity).
  destruct H as [rcpt H].
  destruct (receipt_matches_preview sqlite3 [mkCartItem "prod-1" 2] "cash" (Some "s1")
              "R1" 10 mode_1v1 Sample.db_ended (snd r) rcpt H) as (pv & Hpv & Hrest).
  - intros sid s calc [= <-] Hs Hfc. vm_compute in Hs. injection Hs as <-.
    cbn in Hfc. injection Hfc as <-. vm_compute. reflexivity.
  - right. cbn. lia.
  - exists rcpt, pv. split; [rewrite H; reflexivity |]. split; [exact Hpv | exact Hrest].
Defined.

(** ** Console administration and running sessions *)

(** What a committed [startSession] has written. *)
Lemma startSession_commits_inv cl cid m u now db r db' :
  startSession cl cid m u now db = (inr r, db') ->
  exists c,
    consoles db !! cid = Some c /\ c_status c = available /\
    sessions db !! ("ses_" +:+ u) = None /\
    db' = set_sessions
            (insert ("ses_" +:+ u)
                    (mkSession (Some cid) now None active (Some 0%Z) None None (Some m)))
            (set_consoles
               (alter (fun c => mkConsole (c_name c) (c_type c) in_use
                                  (hourly_rate c) (hourly_rate_2v2 c)) cid) db).
Proof.
  unfold startSession, transaction. unfold bind at 1. unfold query at 1.
  destruct (consoles db !! cid) as [c|] eqn:Hc; [| discriminate].
  destruct (decide (c_status c ≠ available)) as [| Hst]; [discriminate |].
  destruct (bool_decide (m = mode_2v2)
            && Qle_bool (decimal_or cl (hourly_rate_2v2 c) 0) 0); [discriminate |].
  destruct (Qle_bool (decimal_or cl (Some (hourly_rate c)) 0) 0); [discriminate |].
  unfold_M. unfold insert_session. cbn [sessions set_consoles].
  destruct (sessions db !! ("ses_" +:+ u)) eqn:Hfresh; [discriminate |].
  intros [= _ <-]. exists c. split; [reflexivity |]. split.
  - destruct (c_status c); try reflexivity; exfalso; apply Hst; discriminate.
  - split; reflexivity.
Qed.

(** X22.  A console on which a session has just been started cannot be
    deleted: [deleteConsole] throws ('Cannot delete console that is
    currently in use', for a non-empty id) and writes nothing. *)
Theorem started_console_cannot_be_deleted
    (cl : Client) (db db' : Db) (cid : string) (m : GamingMode) (u : string)
    (now : Z) (r : option Session) :
  startSession cl cid m u now db = (inr r, db') ->
  exists e,
    deleteConsole cl cid db' = (inl e, db') /\
    (cid <> EmptyString -> e = CannotDeleteInUse).
Proof.
  intros H. apply startSession_commits_inv in H.
  destruct H as (c & Hc & _ & _ & ->).
  unfold deleteConsole, findConsoleById. unfold_M.
  destruct (decide (cid = EmptyString)) as [He | Hne].
  - eexists. split; [reflexivity | contradiction].
  - exists CannotDeleteInUse. split; [| reflexivity].
    cbn [consoles set_sessions set_consoles]. rewrite lookup_alter_eq. rewrite Hc.
    cbn [fmap option_fmap option_map toFrontendFormat con_status c_status].
    destruct (decide (in_use = in_use)) as [_ | Hn]; [| exfalso; apply Hn; reflexivity].
    reflexivity.
Qed.

Lemma started_console_cannot_be_deleted_witness :
  let db' := snd (startSession sqlite3 "c1" mode_1v1 "A" 0 Sample.db_idle) in
  exists e, deleteConsole sqlite3 "c1" db' = (inl e, db') /\
            ("c1" <> EmptyString -> e = CannotDeleteInUse).
Proof.
  intros db'.
  eapply (started_console_cannot_be_deleted sqlite3 Sample.db_idle db' "c1"
            mode_1v1 "A" 0).
  subst db'. vm_compute. reflexivity.
Defined.

(** X23.  Once a session has ended its console is free to be deleted, and
    deleting it strands the unpaid session: the deletion commits, and every
    later checkout for the session fails with 'Console not found for this
    session.', on either client. *)
Theorem deleting_console_strands_unpaid_session
    (cl : Client) (db : Db) (sid cid : string) (s : SessionRow) (c : ConsoleRow)
    (now : Z) (items : list CartItem) (pm : string) (mp : option Q) (u : string)
    (now' : Z) :
  sid <> EmptyString -> cid <> EmptyString ->
  sessions db !! sid = Some s -> s_status s <> ended ->
  console_id s = Some cid -> consoles db !! cid = Some c ->
  receipt_for_session sid db = None ->
  let db1 := snd (endSession cl sid now db) in
  let db2 := snd (deleteConsole cl cid db1) in
  fst (deleteConsole cl cid db1) = inr true /\
  consoles db2 !! cid = None /\
  processCheckout cl items pm (Some sid) mp u now' db2
  = (inl ConsoleNotFoundForSession, db2).
Proof.
  intros Hsid Hcid Hs Hst Hcon Hc Hrec db1 db2.
  destruct (endSession_commits cl db sid cid s c now Hs Hst Hcon Hc) as [_ Hdb1].
  fold db1 in Hdb1.
  assert (Hc1 : consoles db1 !! cid
                = Some (mkConsole (c_name c) (c_type c) available
                          (hourly_rate c) (hourly_rate_2v2 c))).
  { rewrite Hdb1. cbn [consoles set_consoles set_sessions].
    rewrite lookup_alter_eq, Hc. reflexivity. }
  assert (Hdel : deleteConsole cl cid db1 = (inr true, snd (del_console cl cid db1))).
  { unfold deleteConsole, findConsoleById. unfold_M.
    destruct (decide (cid = EmptyString)); [contradiction |].
    rewrite Hc1. cbn [fmap option_fmap option_map toFrontendFormat con_status c_status].
    destruct (decide (available = in_use)) as [Hn | _]; [discriminate |].
    unfold del_console. rewrite Hc1. reflexivity. }
  assert (Hs1 : exists s1, sessions db1 !! sid = Some s1 /\ s_status s1 = ended /\
                           console_id s1 = Some cid /\ final_cost s1 <> None).
  { rewrite Hdb1. cbn [sessions set_sessions set_consoles].
    rewrite lookup_alter_eq, Hs. eexists. split; [reflexivity |]. cbn.
    repeat split; [exact Hcon | discriminate]. }
  destruct Hs1 as (s1 & Hs1 & Hst1 & Hcid1 & Hfc1).
  assert (Hrec1 : receipts db1 = receipts db) by (rewrite Hdb1; reflexivity).
  assert (Hdb2 : consoles db2 !! cid = None /\ receipts db2 = receipts db /\
                 exists s2, sessions db2 !! sid = Some s2 /\ s_status s2 = ended /\
                            final_cost s2 = final_cost s1 /\
                            (console_id s2 = None \/ console_id s2 = Some cid)).
  { subst db2. rewrite Hdel. unfold del_console. cbn [snd].
    destruct cl; cbn [consoles receipts sessions set_sessions set_consoles].
    - rewrite lookup_delete_eq. split; [reflexivity |]. split; [exact Hrec1 |].
      exists s1. auto.
    - rewrite lookup_delete_eq. split; [reflexivity |]. split; [exact Hrec1 |].
      rewrite lookup_fmap, Hs1. cbn [fmap option_fmap option_map].
      destruct (decide (console_id s1 = Some cid)); [| contradiction].
      eexists. split; [reflexivity |]. cbn. auto. }
  destruct Hdb2 as (Hgone & Hrec2 & s2 & Hs2 & Hst2 & Hfc2 & Hcid2).
  split; [rewrite Hdel; reflexivity |].
  split; [exact Hgone |].
  apply transaction_error.
  unfold processCheckout_body, truthy_string.
  destruct (decide (sid = EmptyString)) as [| _]; [contradiction |].
  unfold bind at 1. unfold session_charge. unfold_M. rewrite Hs2.
  destruct (decide (s_status s2 ≠ ended)) as [Hne | _]; [contradiction |].
  assert (Hr : receipt_for_session sid db2 = None).
  { unfold receipt_for_session in *. rewrite Hrec2. exact Hrec. }
  rewrite Hr, Hfc2.
  destruct (final_cost s1) as [fc|]; [| contradiction].
  destruct Hcid2 as [-> | ->]; cbn [mbind option_bind]; [reflexivity |].
  rewrite Hgone. reflexivity.
Qed.

Lemma deleting_console_strands_unpaid_session_witness :
  let db1 := snd (endSession postgresql "s1" 4500000 Sample.db_active) in
  let db2 := snd (deleteConsole postgresql "c1" db1) in
  fst (deleteConsole postgresql "c1" db1) = inr true /\
  consoles db2 !! "c1" = None /\
  processCheckout postgresql [] "cash" (Some "s1") None "R1" 5000000 db2
  = (inl ConsoleNotFoundForSession, db2).
Proof.
  apply (deleting_console_strands_unpaid_session postgresql Sample.db_active "s1" "c1"
           Sample.s1_active (Sample.c1 in_use) 4500000).
  - discriminate.
  - discriminate.
  - vm_compute. reflexivity.
  - discriminate.
  - reflexivity.
  - vm_compute. reflexivity.
  - reflexivity.
Defined.

(** X24.  [updateConsoleStatus] does not look at the sessions: it marks a
    console available while a session is running on it, and [startSession]
    then puts a second running session on the same console, which ends
    console exclusivity. *)
Theorem status_override_breaks_exclusivity
    (cl : Client) (db : Db) (sid cid : string) (s : SessionRow) (c : ConsoleRow)
    (u : string) (now : Z) :
  cid <> EmptyString ->
  sessions db !! sid = Some s -> s_status s <> ended ->
  console_id s = Some cid -> consoles db !! cid = Some c ->
  (0 < hourly_rate c)%Q ->
  sessions db !! ("ses_" +:+ u) = None ->
  let db1 := snd (updateConsoleStatus cl cid "available" db) in
  let db2 := snd (startSession cl cid mode_1v1 u now db1) in
  sessions db2 !! sid = Some s /\
  (exists s', sessions db2 !! ("ses_" +:+ u) = Some s' /\ s_status s' = active /\
              console_id s' = Some cid) /\
  ~ console_exclusive db2.
Proof.
  intros Hcid Hs Hst Hcon Hc Hrate Hfresh db1 db2.
  assert (Hdb1 : db1 = set_consoles
                         (alter (fun c => mkConsole (c_name c) (c_type c) available
                                            (hourly_rate c) (hourly_rate_2v2 c)) cid) db).
  { subst db1. unfold updateConsoleStatus, findConsoleById. unfold_M.
    destruct (decide (cid = EmptyString)); [contradiction |].
    change (parse_console_status "available") with (Some available).
    cbv beta iota. rewrite Hc. reflexivity. }
  assert (Hne : "ses_" +:+ u <> sid) by (intros E; rewrite E in Hfresh; congruence).
  assert (Hdb2 : db2 = set_sessions
                         (insert ("ses_" +:+ u)
                            (mkSession (Some cid) now None active (Some 0%Z) None None
                               (Some mode_1v1)))
                         (set_consoles
                            (alter (fun c => mkConsole (c_name c) (c_type c) in_use
                                               (hourly_rate c) (hourly_rate_2v2 c)) cid)
                            db1)).
  { assert (Hc1 : consoles db1 !! cid
                  = Some (mkConsole (c_name c) (c_type c) available
                            (hourly_rate c) (hourly_rate_2v2 c))).
    { rewrite Hdb1. cbn [consoles set_consoles]. rewrite lookup_alter_eq, Hc.
      reflexivity. }
    clearbody db1.
    subst db2. unfold startSession, transaction. unfold bind at 1. unfold query at 1.
    rewrite Hc1. cbn [c_status].
    destruct (decide (available ≠ available)) as [Hn | _];
      [exfalso; apply Hn; reflexivity |].
    rewrite bool_decide_eq_false_2 by discriminate. cbn [andb hourly_rate].
    rewrite (Qle_bool_0_Qeq _ _ (decimal_or_0 cl (hourly_rate c))).
    apply Qle_bool_0_false in Hrate. rewrite Hrate.
    unfold_M. unfold insert_session. cbn [sessions set_consoles].
    assert (Hf1 : sessions db1 !! ("ses_" +:+ u) = None) by (rewrite Hdb1; exact Hfresh).
    rewrite Hf1. reflexivity. }
  clearbody db1 db2.
  assert (Hold : sessions db2 !! sid = Some s).
  { rewrite Hdb2, Hdb1. cbn [sessions set_sessions set_consoles].
    rewrite lookup_insert_ne by assumption. exact Hs. }
  assert (Hnew : sessions db2 !! ("ses_" +:+ u)
                 = Some (mkSession (Some cid) now None active (Some 0%Z) None None
                           (Some mode_1v1))).
  { rewrite Hdb2. cbn [sessions set_sessions]. apply lookup_insert_eq. }
  split; [exact Hold |]. split; [eexists; split; [exact Hnew | split; reflexivity] |].
  intros [H1 _].
  apply (H1 ("ses_" +:+ u) sid _ s cid Hne Hnew Hold); cbn; try assumption;
    try discriminate; reflexivity.
Qed.

Lemma status_override_breaks_exclusivity_witness :
  let db1 := snd (updateConsoleStatus sqlite3 "c1" "available" Sample.db_active) in
  let db2 := snd (startSession sqlite3 "c1" mode_1v1 "B" 50 db1) in
  sessions db2 !! "s1" = Some Sample.s1_active /\
  (exists s', sessions db2 !! "ses_B" = Some s' /\ s_status s' = active /\
              console_id s' = Some "c1") /\
  ~ console_exclusive db2.
Proof.
  apply (status_override_breaks_exclusivity sqlite3 Sample.db_active "s1" "c1"
           Sample.s1_active (Sample.c1 in_use) "B" 50).
  - discriminate.
  - vm_compute. reflexivity.
  - discriminate.
  - reflexivity.
  - vm_compute. reflexivity.
  - reflexivity.
  - vm_compute. reflexivity.
Defined.

(** ** The checkout handler *)

Lemma z_cart_item_positive v it : z_cart_item v = Some it -> (0 < quantity it)%Z.
Proof.
  unfold z_cart_item. destruct v as [| | | | | fields]; try discriminate.
  destruct (z_string (json_get "productId" fields)) as [pid|];
    cbn [mbind option_bind]; [| discriminate].
  unfold z_number_int_positive.
  destruct (json_get "quantity" fields) as [[| | q | | |]|];
    cbn [mbind option_bind]; try discriminate.
  destruct (Pos.eqb (Qden (Qred q)) 1 && (0 <? Qnum (Qred q))%Z) eqn:E;
    cbn [mbind option_bind]; [| discriminate].
  intros [= <-]. cbn. apply andb_true_iff in E. destruct E as [_ E].
  apply Z.ltb_lt in E. exact E.
Qed.

(** What a body that passes the schema holds. *)
Lemma checkoutSchema_parse_valid body b :
  checkoutSchema_parse body = Some b ->
  (forall it, In it (cb_items b) -> (0 < quantity it)%Z) /\
  (forall q, cb_manualConsolePrice b = Some q -> (0 <= q)%Q).
Proof.
  unfold checkoutSchema_parse. destruct body as [| | | | | fields]; try discriminate.
  destruct (z_string (json_get "paymentMethod" fields)) as [pm|];
    cbn [mbind option_bind]; [| discriminate].
  destruct (z_optional z_string (json_get "sessionId" fields)) as [sid|];
    cbn [mbind option_bind]; [| discriminate].
  destruct (z_optional z_number_min0 (json_get "manualConsolePrice" fields))
    as [mp|] eqn:Hmp; cbn [mbind option_bind]; [| discriminate].
  destruct (z_cart (json_get "items" fields)) as [items|] eqn:Hitems;
    cbn [mbind option_bind]; [| discriminate].
  intros [= <-]. cbn [cb_items cb_manualConsolePrice]. split.
  - unfold z_cart in Hitems.
    destruct (json_get "items" fields) as [[| | | | l |]|]; try discriminate.
    + apply mapM_Some in Hitems. intros it Hin.
      induction Hitems as [| v it' l' k' Hv _ IH]; [destruct Hin |].
      destruct Hin as [<- | Hin]; [| exact (IH Hin)].
      eapply z_cart_item_positive. exact Hv.
    + injection Hitems as <-. intros it [].
  - intros q ->. unfold z_optional, z_number_min0 in Hmp.
    destruct (json_get "manualConsolePrice" fields) as [[| | q' | | |]|];
      try discriminate.
    destruct (Qle_bool 0 q') eqn:E; [| discriminate].
    cbn in Hmp. injection Hmp as <-. apply Qle_bool_iff. exact E.
Qed.

Lemma requested_nonneg pid items :
  (forall it, In it items -> (0 < quantity it)%Z) -> (0 <= requested pid items)%Z.
Proof.
  induction items as [| it items IH]; intros H; cbn [requested foldr]; [lia |].
  fold (requested pid items).
  specialize (H it (or_introl eq_refl)) as Hq.
  assert (0 <= requested pid items)%Z by (apply IH; intros; apply H; right; assumption).
  destruct (decide (productId it = pid)); lia.
Qed.

(** X25.  Whatever the request body, [handleCheckout] answers 201 or 400.
    A 400, for a body that fails the schema or a checkout the service
    refuses, leaves the store exactly as it was; a 201 carries the receipt
    and has added exactly one receipt to the store.  A negative
    manualConsolePrice never reaches the service: the body is refused with a
    400. *)
Theorem handleCheckout_answers
    (cl : Client) (body : Json) (ulid : string) (now : Z) (db : Db) :
  let res := fst (handleCheckout cl body ulid now db) in
  let db' := snd (handleCheckout cl body ulid now db) in
  ((res_status res = 201%Z /\ res_success res = true /\ is_Some (res_data res) /\
    length (receipts db') = S (length (receipts db))) \/
   (res_status res = 400%Z /\ res_success res = false /\ res_data res = None /\
    db' = db)) /\
  (forall fields q,
     body = JObj fields ->
     json_get "manualConsolePrice" fields = Some (JNum q) -> (q < 0)%Q ->
     res_status res = 400%Z /\ res_message res = Some ZodError /\ db' = db).
Proof.
  cbn zeta. unfold handleCheckout. split.
  - destruct (checkoutSchema_parse body) as [b|]; [| right; cbn; auto].
    destruct (processCheckout cl (cb_items b) (cb_paymentMethod b) (cb_sessionId b)
                (cb_manualConsolePrice b) ulid now db) as [[e | rcpt] db'] eqn:H.
    + right. cbn. repeat split.
      pose proof (transaction_rollback
                    (processCheckout_body cl (cb_items b) (cb_paymentMethod b)
                       (cb_sessionId b) (cb_manualConsolePrice b) ulid now) db e) as Hr.
      fold (processCheckout cl (cb_items b) (cb_paymentMethod b) (cb_sessionId b)
              (cb_manualConsolePrice b) ulid now) in Hr.
      rewrite H in Hr. apply Hr. reflexivity.
    + left. cbn. repeat split; [eauto |].
      apply processCheckout_inv in H.
      destruct H as (charge & st & lines & dbc & row & _ & Hcart & _ & _ & _ & _
                     & Hrec & _).
      pose proof (process_cart_frame _ _ _ _ _ _ Hcart) as (_ & _ & _ & Hr' & _).
      rewrite Hrec, Hr', length_app. cbn. lia.
  - intros fields q -> Hget Hneg.
    assert (Hp : checkoutSchema_parse (JObj fields) = None).
    { unfold checkoutSchema_parse.
      destruct (z_string (json_get "paymentMethod" fields)); [| reflexivity].
      cbn [mbind option_bind].
      destruct (z_optional z_string (json_get "sessionId" fields)); [| reflexivity].
      cbn [mbind option_bind]. rewrite Hget. unfold z_optional, z_number_min0.
      destruct (Qle_bool 0 q) eqn:E; [| reflexivity].
      apply Qle_bool_iff in E. exfalso. apply (Qlt_not_le _ _ Hneg E). }
    rewrite Hp. repeat split.
Qed.

Lemma handleCheckout_answers_witness :
  let body := JObj [("paymentMethod", JStr "cash"); ("sessionId", JStr "s1");
                    ("manualConsolePrice", JNum (- (5))%Q)] in
  res_status (fst (handleCheckout sqlite3 body "R1" 10 Sample.db_ended)) = 400%Z /\
  res_message (fst (handleCheckout sqlite3 body "R1" 10 Sample.db_ended))
  = Some ZodError /\
  snd (handleCheckout sqlite3 body "R1" 10 Sample.db_ended) = Sample.db_ended.
Proof.
  intros body.
  destruct (handleCheckout_answers sqlite3 body "R1" 10 Sample.db_ended) as [_ H].
  eapply H; [reflexivity | vm_compute; reflexivity | reflexivity].
Defined.

(** X26.  Through [handleCheckout] a stock count can only go down: for any
    request body, every product keeps its name and price and ends with a
    stock count that is at most what it was, and no product appears or
    disappears. *)
Theorem handleCheckout_never_adds_stock
    (cl : Client) (body : Json) (ulid : string) (now : Z) (db : Db) (pid : string) :
  let db' := snd (handleCheckout cl body ulid now db) in
  match products db !! pid, products db' !! pid with
  | Some p, Some p' =>
      (stock p' <= stock p)%Z /\ p_name p' = p_name p /\ price p' = price p
  | None, None => True
  | _, _ => False
  end.
Proof.
  cbn zeta. unfold handleCheckout.
  assert (Hsame : match products db !! pid, products db !! pid with
                  | Some p, Some p' =>
                      (stock p' <= stock p)%Z /\ p_name p' = p_name p /\
                      price p' = price p
                  | None, None => True
                  | _, _ => False
                  end).
  { destruct (products db !! pid); [split; [lia | auto] | exact I]. }
  destruct (checkoutSchema_parse body) as [b|] eqn:Hb; [| exact Hsame].
  destruct (processCheckout cl (cb_items b) (cb_paymentMethod b) (cb_sessionId b)
              (cb_manualConsolePrice b) ulid now db) as [[e | rcpt] db'] eqn:H.
  - pose proof (transaction_rollback
                  (processCheckout_body cl (cb_items b) (cb_paymentMethod b)
                     (cb_sessionId b) (cb_manualConsolePrice b) ulid now) db e) as Hr.
    fold (processCheckout cl (cb_items b) (cb_paymentMethod b) (cb_sessionId b)
            (cb_manualConsolePrice b) ulid now) in Hr.
    rewrite H in Hr. cbn [fst snd] in *. rewrite (Hr eq_refl). exact Hsame.
  - cbn [snd]. apply processCheckout_inv_lines in H.
    destruct H as (charge & st & lines & db1 & Hcart & _ & _ & _ & _ & _ & _ & _ & _
                   & Hprod & _).
    rewrite Hprod.
    destruct (checkoutSchema_parse_valid body b Hb) as [Hpos _].
    destruct (products db !! pid) as [p|] eqn:Hp.
    + rewrite (process_cart_products _ _ _ _ _ _ _ Hcart pid p Hp). cbn.
      pose proof (requested_nonneg pid (cb_items b) Hpos). split; [lia | auto].
    + pose proof (process_cart_stocks _ _ _ _ _ _ Hcart) as [_ Hdom].
      destruct (products db1 !! pid) eqn:E; [| exact I].
      assert (Hs : is_Some (products db !! pid)) by (apply Hdom; eauto).
      rewrite Hp in Hs. destruct Hs as [x Hx]. discriminate.
Qed.

(** ** Listing the running sessions *)

Lemma insert_by_Permutation {A} (key : A -> Z) x l :
  Permutation (insert_by key x l) (x :: l).
Proof.
  induction l as [| y l IH]; cbn [insert_by]; [reflexivity |].
  destruct (key x <? key y)%Z; [reflexivity |].
  rewrite IH. apply perm_swap.
Qed.

Lemma order_by_Permutation {A} (key : A -> Z) l : Permutation (order_by key l) l.
Proof.
  unfold order_by. induction l as [| x l IH]; cbn [foldr]; [reflexivity |].
  rewrite insert_by_Permutation, IH. reflexivity.
Qed.

Lemma insert_by_sorted {A} (key : A -> Z) x l :
  nondecreasing (map key l) -> nondecreasing (map key (insert_by key x l)).
Proof.
  induction l as [| y l IH]; cbn [insert_by map nondecreasing]; [auto |].
  intros [Hh Ht]. destruct (key x <? key y)%Z eqn:E.
  - cbn [map nondecreasing]. apply Z.ltb_lt in E. repeat split; [lia | exact Hh | exact Ht].
  - apply Z.ltb_ge in E. cbn [map nondecreasing]. split; [| exact (IH Ht)].
    destruct l as [| z l]; cbn [insert_by map]; [exact E |].
    cbn [map] in Hh. destruct (key x <? key z)%Z; cbn [map]; [exact E | exact Hh].
Qed.

Lemma order_by_sorted {A} (key : A -> Z) l : nondecreasing (map key (order_by key l)).
Proof.
  unfold order_by. induction l as [| x l IH]; cbn [foldr]; [exact I |].
  apply insert_by_sorted, IH.
Qed.

Lemma nondecreasing_opp l : nondecreasing (map Z.opp l) -> nonincreasing l.
Proof.
  induction l as [| x l IH]; cbn [map nondecreasing nonincreasing]; [auto |].
  intros [Hh Ht]. split; [| exact (IH Ht)].
  destruct l as [| y l]; cbn [map] in *; [exact I | lia].
Qed.

Lemma running_sessions_joined_spec db j :
  j ∈ running_sessions_joined db <->
  exists s cid c,
    sessions db !! j_id j = Some s /\ s_status s <> ended /\
    console_id s = Some cid /\ consoles db !! cid = Some c /\
    j = mkJoined (j_id j) s c [].
Proof.
  unfold running_sessions_joined. rewrite list_elem_of_omap. split.
  - intros ([sid s] & Hin & H). apply elem_of_map_to_list in Hin.
    destruct (bool_decide (s_status s = active) || bool_decide (s_status s = paused))
      eqn:E; [| discriminate].
    destruct (console_id s) as [cid|] eqn:Hcid; cbn [mbind option_bind] in H;
      [| discriminate].
    destruct (consoles db !! cid) as [c|] eqn:Hc; cbn [mbind option_bind] in H;
      [| discriminate].
    injection H as <-. cbn [j_id]. exists s, cid, c. repeat split; auto.
    intros Hs. rewrite Hs in E. discriminate.
  - intros (s & cid & c & Hs & Hst & Hcid & Hc & Hj).
    exists (j_id j, s). split; [apply elem_of_map_to_list; exact Hs |].
    assert (E : bool_decide (s_status s = active) || bool_decide (s_status s = paused)
                = true) by (destruct (s_status s); auto; congruence).
    rewrite E, Hcid. cbn [mbind option_bind]. rewrite Hc. cbn [mbind option_bind].
    congruence.
Qed.

Lemma NoDup_omap_keyed {A B} (f : string * A -> option B) (g : B -> string) l :
  (forall k a b, f (k, a) = Some b -> g b = k) ->
  NoDup (l.*1) -> NoDup (g <$> omap f l).
Proof.
  intros Hf. induction l as [| [k a] l IH]; cbn [fmap list_fmap omap list_omap];
    [constructor |].
  intros Hnd. apply NoDup_cons in Hnd. destruct Hnd as [Hk Hnd]. cbn [fst] in Hk.
  destruct (f (k, a)) as [b|] eqn:E; [| exact (IH Hnd)].
  cbn [fmap list_fmap]. apply NoDup_cons. split; [| exact (IH Hnd)].
  rewrite (Hf _ _ _ E). intros Hin. apply Hk.
  apply list_elem_of_fmap in Hin. destruct Hin as (b' & Hb' & Hin).
  apply list_elem_of_omap in Hin. destruct Hin as ([k' a'] & Hin & E').
  apply list_elem_of_fmap. exists (k', a'). split; [| exact Hin].
  cbn [fst]. rewrite Hb'. exact (Hf _ _ _ E').
Qed.

Lemma NoDup_running_sessions_joined db : NoDup (j_id <$> running_sessions_joined db).
Proof.
  unfold running_sessions_joined. apply NoDup_omap_keyed.
  - intros k s j H.
    destruct (bool_decide (s_status s = active) || bool_decide (s_status s = paused));
      [| discriminate].
    destruct (console_id s) as [cid|]; cbn [mbind option_bind] in H; [| discriminate].
    destruct (consoles db !! cid); cbn [mbind option_bind] in H; [| discriminate].
    injection H as <-. reflexivity.
  - apply NoDup_fst_map_to_list.
Qed.

Lemma toCamelCase_rows cl (l : list JoinedSession) :
  id <$> omap (fun j => toCamelCase cl (Some j)) l = j_id <$> l /\
  startTime <$> omap (fun j => toCamelCase cl (Some j)) l
  = (fun j => start_time (j_session j)) <$> l.
Proof.
  induction l as [| j l [IH1 IH2]]; [split; reflexivity |].
  cbn [omap list_omap toCamelCase fmap list_fmap id startTime].
  split; f_equal; assumption.
Qed.

(** X27.  [findActiveSessions] and [getActiveSessions] read the store without
    changing it and list the same sessions: exactly those that are not ended
    and whose console is on record, each once.  The first lists them by
    start time going up, the second by start time going down. *)
Theorem running_sessions_are_listed_once_in_order (cl : Client) (db : Db) :
  exists asc desc,
    findActiveSessions cl db = (inr asc, db) /\
    getActiveSessions cl db = (inr desc, db) /\
    (forall sid,
       sid ∈ (id <$> asc) <->
       exists s cid c,
         sessions db !! sid = Some s /\ s_status s <> ended /\
         console_id s = Some cid /\ consoles db !! cid = Some c) /\
    NoDup (id <$> asc) /\
    Permutation asc desc /\
    nondecreasing (startTime <$> asc) /\
    nonincreasing (startTime <$> desc).
Proof.
  unfold findActiveSessions, getActiveSessions. unfold_M.
  eexists _, _. split; [reflexivity |]. split; [reflexivity |].
  set (tc := fun j => toCamelCase cl (Some j)).
  set (R := running_sessions_joined db).
  repeat split.
  - intros Hin. rewrite (proj1 (toCamelCase_rows cl _)) in Hin.
    apply list_elem_of_fmap in Hin. destruct Hin as (j & -> & Hin).
    rewrite order_by_Permutation in Hin.
    apply running_sessions_joined_spec in Hin.
    destruct Hin as (s & cid & c & Hs & Hst & Hcid & Hc & _). eauto 10.
  - intros (s & cid & c & Hs & Hst & Hcid & Hc).
    rewrite (proj1 (toCamelCase_rows cl _)).
    apply list_elem_of_fmap. exists (mkJoined sid s c []). split; [reflexivity |].
    rewrite order_by_Permutation. apply running_sessions_joined_spec.
    exists s, cid, c. cbn [j_id]. auto.
  - rewrite (proj1 (toCamelCase_rows cl _)), order_by_Permutation.
    apply NoDup_running_sessions_joined.
  - rewrite !order_by_Permutation. reflexivity.
  - rewrite (proj2 (toCamelCase_rows cl _)). apply order_by_sorted.
  - apply nondecreasing_opp. rewrite (proj2 (toCamelCase_rows cl _)).
    rewrite <- list_fmap_compose.
    apply (order_by_sorted (fun j => (- start_time (j_session j))%Z)).
Qed.

(** ** Changing the rates under a running session *)

(** X28.  A rate change reprices the whole running session: after
    [updateConsoleRates] has accepted new rates for the console of a session
    that is not ended, [endSession] stores the cost of the session's entire
    active time at the rate the console now has for the mode of the
    session (for 2v2 the new 2v2 rate, or the new 1v1 rate when none is
    stored or the client reads it as zero); the rate the session was
    started at is not kept anywhere. *)
Theorem rate_change_reprices_running_session
    (cl : Client) (db : Db) (sid cid : string) (s : SessionRow) (c : ConsoleRow)
    (r1 r2 : option Q) (now : Z) :
  sessions db !! sid = Some s ->
  s_status s <> ended ->
  console_id s = Some cid ->
  consoles db !! cid = Some c ->
  cid <> EmptyString ->
  (forall r, r1 = Some r -> (0 <= r)%Q) ->
  (forall r, r2 = Some r -> (0 <= r)%Q) ->
  let c' := mkConsole (c_name c) (c_type c) (c_status c)
              (default (hourly_rate c) r1)
              (match r2 with Some r => Some r | None => hourly_rate_2v2 c end) in
  let db1 := snd (updateConsoleRates cl cid r1 r2 db) in
  let db2 := snd (endSession cl sid now db1) in
  exists s',
    sessions db2 !! sid = Some s' /\ s_status s' = ended /\
    final_cost s'
    = Some (billed_cost (start_time s) now
              (default 0 (total_paused_duration s) + open_pause s now)
              (console_rate cl c' (gaming_mode s))).
Proof.
  intros Hs Hst Hcid Hc Hne Hr1 Hr2 c' db1 db2.
  assert (Hdb1 : db1 = set_consoles
                         (alter (fun c =>
                                   mkConsole (c_name c) (c_type c) (c_status c)
                                     (default (hourly_rate c) r1)
                                     (match r2 with
                                      | Some r => Some r
                                      | None => hourly_rate_2v2 c
                                      end)) cid) db).
  { subst db1. unfold updateConsoleRates. unfold_M.
    destruct (decide (cid = EmptyString)); [contradiction |].
    assert (G1 : match r1 with Some r => negb (Qle_bool 0 r) | None => false end
                 = false).
    { destruct r1 as [r|]; [| reflexivity].
      apply negb_false_iff, Qle_bool_iff, Hr1. reflexivity. }
    assert (G2 : match r2 with Some r => negb (Qle_bool 0 r) | None => false end
                 = false).
    { destruct r2 as [r|]; [| reflexivity].
      apply negb_false_iff, Qle_bool_iff, Hr2. reflexivity. }
    rewrite G1, G2. reflexivity. }
  assert (Hs1 : sessions db1 !! sid = Some s) by (rewrite Hdb1; exact Hs).
  assert (Hc1 : consoles db1 !! cid = Some c').
  { rewrite Hdb1. cbn [consoles set_consoles]. rewrite lookup_alter_eq, Hc.
    reflexivity. }
  destruct (endSession_commits cl db1 sid cid s c' now Hs1 Hst Hcid Hc1) as [_ Hdb2].
  clearbody db1 c'. subst db2. rewrite Hdb2. cbn [sessions set_sessions set_consoles].
  rewrite lookup_alter_eq, Hs1. cbn [fmap option_fmap option_map].
  eexists. split; [reflexivity |]. split; [reflexivity |]. cbn [final_cost].
  f_equal. apply end_cost_is_billed_cost.
Qed.

(** A 2v2 session on c2 (10, no 2v2 rate) has the rates of its console set
    to 20 and 0 and is ended after one hour on sqlite3: the 2v2 rate reads
    as zero, and the hour is billed 20.00, the new 1v1 rate. *)
Lemma rate_change_reprices_running_session_witness :
  exists s',
    sessions (snd (endSession sqlite3 "s2" 3600000
                     (snd (updateConsoleRates sqlite3 "c2" (Some 20%Q) (Some 0%Q)
                             Sample.db_2v2)))) !! "s2" = Some s' /\
    s_status s' = ended /\
    final_cost s' = Some 20.00%Q.
Proof.
  destruct (rate_change_reprices_running_session sqlite3 Sample.db_2v2 "s2" "c2"
              Sample.s2_active (Sample.c2 in_use) (Some 20%Q) (Some 0%Q) 3600000)
    as (s' & H1 & H2 & H3).
  - vm_compute. reflexivity.
  - discriminate.
  - reflexivity.
  - vm_compute. reflexivity.
  - discriminate.
  - intros r [= <-]. discriminate.
  - intros r [= <-]. discriminate.
  - exists s'. split; [exact H1 |]. split; [exact H2 |]. rewrite H3.
    vm_compute. reflexivity.
Defined.
